(** * Avalon web client: role display, human controls, quest tracker,
      discussion view, game store and replay navigation.

    A shallow embedding of the TypeScript components of the web client
    (GameBoard, PlayerCard, HumanControls, QuestTracker, Discussion, Home,
    Replay and the zustand game store) and a model of the server's phase
    state machine, followed by the properties proved about them.
    JavaScript numbers that the client only ever uses as
    seats, rounds, counts and array indices are modelled as [Z]; an
    optional or nullable field is an [option]. *)

From Stdlib Require Import List ZArith Bool Ascii String Lia Permutation.
Import ListNotations.

Local Open Scope Z_scope.

(** ** JavaScript idioms used throughout the client *)

Module JS.

(** Truthiness of an optional string: [undefined] and the empty string
    are falsy, every other string is truthy. *)
Definition truthy (s : option string) : bool :=
  match s with
  | Some EmptyString => false
  | Some _ => true
  | None => false
  end.

(** An array is an object and therefore always truthy, also when empty. *)
Definition array_truthy {A : Type} (_ : list A) : bool := true.

(** [arr[i]]: [undefined] (here [None]) outside the array. *)
Definition index {A : Type} (arr : list A) (i : Z) : option A :=
  if i <? 0 then None else nth_error arr (Z.to_nat i).

(** [arr.length] *)
Definition length {A : Type} (arr : list A) : Z := Z.of_nat (List.length arr).

(** [arr.includes(x)] on an array of integers. *)
Definition includes (arr : list Z) (x : Z) : bool := existsb (Z.eqb x) arr.

(** [v || d] for an optional number: [undefined] and [0] are falsy. *)
Definition or_num (v : option Z) (d : Z) : Z :=
  match v with
  | Some 0 => d
  | Some n => n
  | None => d
  end.

(** [s || d] for an optional string. *)
Definition or_str (s : option string) (d : string) : string :=
  match s with
  | Some EmptyString => d
  | Some t => t
  | None => d
  end.

(** [a === b] on optional strings that are compared with a literal. *)
Definition str_is (s : option string) (lit : string) : bool :=
  match s with
  | Some t => String.eqb t lit
  | None => false
  end.

End JS.

(** ** The records of [lib/types], with the fields the components read *)

Inductive GamePhase : Type :=
| role_assignment
| night_phase
| team_selection
| discussion
| team_vote
| quest_execution
| assassination_discussion
| assassination
| game_over.

Inductive GameStatus : Type :=
| waiting
| in_progress
| finished.

Inductive HumanActionType : Type :=
| act_team_selection
| act_discussion
| act_leader_discussion
| act_vote
| act_quest
| act_assassination_discussion
| act_assassinate.

Definition GamePhase_eqb (a b : GamePhase) : bool :=
  match a, b with
  | role_assignment, role_assignment
  | night_phase, night_phase
  | team_selection, team_selection
  | discussion, discussion
  | team_vote, team_vote
  | quest_execution, quest_execution
  | assassination_discussion, assassination_discussion
  | assassination, assassination
  | game_over, game_over => true
  | _, _ => false
  end.

Definition GameStatus_eqb (a b : GameStatus) : bool :=
  match a, b with
  | waiting, waiting | in_progress, in_progress | finished, finished => true
  | _, _ => false
  end.

(** [phase === 'x'] where [phase] is an optional prop. *)
Definition phase_is (p : option GamePhase) (q : GamePhase) : bool :=
  match p with
  | Some r => GamePhase_eqb r q
  | None => false
  end.

Record Player : Type := mkPlayer {
  seat : Z;
  name : string;
  is_human : bool;
  role : option string;
  team : option string;
  model_name : option string;
  is_on_quest : option bool;
  is_leader : option bool
}.

Record QuestResult : Type := mkQuestResult {
  q_round : Z;
  q_success : option bool;
  q_fail_votes : Z;
  q_team_members : list Z;
  q_quest_votes : list (Z * bool)
}.

Record VoteResult : Type := mkVoteResult {
  v_round : Z;
  v_attempt : Z;
  v_votes : list (Z * bool);
  v_approved : bool
}.

Record DiscussionMessage : Type := mkDiscussionMessage {
  d_seat : Z;
  d_player_name : string;
  d_content : string;
  d_timestamp : option string;
  d_round : option Z;
  d_attempt : option Z
}.

Record GameState : Type := mkGameState {
  id : string;
  status : GameStatus;
  phase : GamePhase;
  current_round : Z;
  current_leader : Z;
  vote_attempt : Z;
  proposed_team : list Z;
  player_count : Z;
  players : list Player;
  quest_results : list QuestResult;
  vote_history : list VoteResult;
  discussion_history : list DiscussionMessage;
  assassination_discussion_history : option (list DiscussionMessage);
  assassinated_player : option Z;
  winner : option string;
  waiting_for_human : bool;
  human_action_type : option HumanActionType
}.

(** ** components/PlayerCard.tsx *)

Module PlayerCard.

Inductive BadgeVariant : Type := destructive | default.

(** What a badge prints: the role's display name, or one of the two
    team labels. *)
Inductive BadgeText : Type :=
| RoleText (label : string)
| GoodTeamText
| EvilTeamText.

Record Badge : Type := mkBadge {
  variant : BadgeVariant;
  text : BadgeText
}.

Section WithRoleNames.

(** The table [ROLE_NAMES] of [lib/utils]: display name per role. *)
Variable ROLE_NAMES : string -> option string.

Definition role_str (player : Player) : string :=
  match role player with
  | Some r => r
  | None => EmptyString
  end.

(** [player.team === 'evil' ? 'destructive' : 'default'] *)
Definition teamVariant (player : Player) : BadgeVariant :=
  if JS.str_is (team player) "evil" then destructive else default.

(** [{showRole && player.role && <Badge ...>}] *)
Definition roleBadge (showRole : bool) (player : Player) : list Badge :=
  if showRole && JS.truthy (role player)
  then [ mkBadge (teamVariant player)
                 (RoleText (JS.or_str (ROLE_NAMES (role_str player))
                                      (role_str player))) ]
  else [].

(** [{showRole && player.team && !player.role && <Badge ...>}] *)
Definition teamBadge (showRole : bool) (player : Player) : list Badge :=
  if showRole && JS.truthy (team player) && negb (JS.truthy (role player))
  then [ mkBadge (teamVariant player)
                 (if JS.str_is (team player) "good"
                  then GoodTeamText else EvilTeamText) ]
  else [].

(** The role and team badges of one card.  The horizontal and the
    vertical layout evaluate the same two conditions. *)
Definition badges (showRole : bool) (player : Player) : list Badge :=
  roleBadge showRole player ++ teamBadge showRole player.

End WithRoleNames.

End PlayerCard.

(** ** components/GameBoard.tsx *)

Module GameBoard.

(** The prop [humanSeat?: number | null]: omitted, [null], or a seat. *)
Inductive HumanSeatProp : Type :=
| seat_undefined
| seat_null
| seat_num (n : Z).

(** [humanSeat !== null] *)
Definition not_null (humanSeat : HumanSeatProp) : bool :=
  match humanSeat with
  | seat_null => false
  | _ => true
  end.

(** [gameState.status === 'finished' || humanSeat !== null || godMode] *)
Definition showRoles (gameState : GameState) (humanSeat : HumanSeatProp)
           (godMode : bool) : bool :=
  GameStatus_eqb (status gameState) finished || not_null humanSeat || godMode.

(** The player object handed to each card: the record spread, with
    [is_on_quest] and [is_leader] computed from the state. *)
Definition cardPlayer (gameState : GameState) (player : Player) : Player :=
  mkPlayer (seat player) (name player) (is_human player)
           (role player) (team player) (model_name player)
           (Some (JS.includes (proposed_team gameState) (seat player)))
           (Some (seat player =? current_leader gameState)).

(** The role/team badges the board shows, card by card, in seat-list
    order: [gameState.players.map(player => <PlayerCard ... />)]. *)
Definition playerCards (ROLE_NAMES : string -> option string)
           (gameState : GameState) (humanSeat : HumanSeatProp)
           (godMode : bool) : list (Z * list PlayerCard.Badge) :=
  map (fun player =>
         (seat player,
          PlayerCard.badges ROLE_NAMES
            (showRoles gameState humanSeat godMode)
            (cardPlayer gameState player)))
      (players gameState).

(** The state [displayRound: number | 'assassination']. *)
Inductive DisplayRound : Type :=
| RoundView (round : Z)
| AssassinationView.

(** [useState(gameState.current_round || 1)] *)
Definition initialDisplayRound (gameState : GameState) : DisplayRound :=
  RoundView (JS.or_num (Some (current_round gameState)) 1).

(** The effect on [current_round] and [phase]: the assassination phases
    switch to the assassination view, otherwise a truthy current round is
    shown; else the view stays. *)
Definition displayRoundEffect (gameState : GameState) (displayRound : DisplayRound)
  : DisplayRound :=
  if GamePhase_eqb (phase gameState) assassination_discussion
     || GamePhase_eqb (phase gameState) assassination
  then AssassinationView
  else if current_round gameState =? 0 then displayRound
  else RoundView (current_round gameState).

(** [displayRound === 'assassination'] *)
Definition isAssassination (displayRound : DisplayRound) : bool :=
  match displayRound with
  | AssassinationView => true
  | RoundView _ => false
  end.

(** [{ ...msg, round: gameState.current_round, attempt: 0 }] *)
Definition asRoundMessage (gameState : GameState) (msg : DiscussionMessage)
  : DiscussionMessage :=
  mkDiscussionMessage (d_seat msg) (d_player_name msg) (d_content msg)
                      (d_timestamp msg) (Some (current_round gameState)) (Some 0).

Definition assassinationMessages (gameState : GameState)
           (displayRound : DisplayRound) : list DiscussionMessage :=
  if isAssassination displayRound then
    match assassination_discussion_history gameState with
    | Some history => map (asRoundMessage gameState) history
    | None => []
    end
  else [].

(** The record built for the assassination: a vote result plus the
    assassin's seat. *)
Record AssassinationVote : Type := mkAssassinationVote {
  av_vote : VoteResult;
  av_assassin_seat : Z
}.

Definition assassinationVotes (gameState : GameState)
           (displayRound : DisplayRound) : list AssassinationVote :=
  if isAssassination displayRound then
    match assassinated_player gameState with
    | Some target =>
        match find (fun p => JS.str_is (role p) "assassin") (players gameState) with
        | Some assassin =>
            [ mkAssassinationVote
                (mkVoteResult (current_round gameState) 1 [(target, true)] true)
                (seat assassin) ]
        | None => []
        end
    | None => []
    end
  else [].

(** The props handed to the discussion panel. *)
Record DiscussionProps : Type := mkDiscussionProps {
  dp_messages : list DiscussionMessage;
  dp_displayRound : Z;
  dp_votes : list VoteResult;
  dp_questResults : list QuestResult;
  dp_isAssassination : bool
}.

Definition discussionProps (gameState : GameState) (displayRound : DisplayRound)
  : DiscussionProps :=
  match displayRound with
  | AssassinationView =>
      mkDiscussionProps (assassinationMessages gameState displayRound)
                        (current_round gameState)
                        (map av_vote (assassinationVotes gameState displayRound))
                        [] true
  | RoundView round =>
      mkDiscussionProps (discussion_history gameState) round
                        (vote_history gameState) (quest_results gameState) false
  end.

(** [historyVotes]: [vote_history.filter(v => v.round === displayRound)] *)
Definition historyVotes (gameState : GameState) (round : Z) : list VoteResult :=
  filter (fun v => v_round v =? round) (vote_history gameState).

(** [historyVotes.length > 0 ? historyVotes[historyVotes.length - 1] : null] *)
Definition lastVote (gameState : GameState) (round : Z) : option VoteResult :=
  if 0 <? JS.length (historyVotes gameState round)
  then JS.index (historyVotes gameState round)
                (JS.length (historyVotes gameState round) - 1)
  else None.

(** Which status banner the board shows. *)
Inductive Banner : Type :=
| NoBanner
| AssassinationBanner
| HistoryBanner (round : Z)
| CurrentBanner.

Definition banner (gameState : GameState) (displayRound : DisplayRound) : Banner :=
  if GamePhase_eqb (phase gameState) role_assignment
     || GamePhase_eqb (phase gameState) night_phase
  then NoBanner
  else
    match displayRound with
    | AssassinationView => AssassinationBanner
    | RoundView round =>
        if negb (round =? current_round gameState)
           || (GamePhase_eqb (phase gameState) assassination_discussion
               || GamePhase_eqb (phase gameState) assassination
               || GamePhase_eqb (phase gameState) game_over)
        then HistoryBanner round
        else CurrentBanner
    end.

End GameBoard.

(** ** components/QuestTracker.tsx *)

Module QuestTracker.

(** Quest team sizes by player count. *)
Definition QUEST_SIZES (playerCount : Z) : option (list Z) :=
  match playerCount with
  | 5 => Some [2; 3; 2; 3; 3]
  | 6 => Some [2; 3; 4; 3; 4]
  | 7 => Some [2; 3; 3; 4; 4]
  | 8 => Some [3; 4; 4; 5; 5]
  | 9 => Some [3; 4; 4; 5; 5]
  | 10 => Some [3; 4; 4; 5; 5]
  | _ => None
  end.

(** [QUEST_SIZES[playerCount] || QUEST_SIZES[5]] *)
Definition questSizes (playerCount : Z) : list Z :=
  match QUEST_SIZES playerCount with
  | Some sizes => sizes
  | None => [2; 3; 2; 3; 3]
  end.

(** [questSizes[round - 1]], the number printed in an unplayed round's
    circle. *)
Definition roundSize (playerCount round : Z) : option Z :=
  JS.index (questSizes playerCount) (round - 1).

(** [q.success === true] *)
Definition succeeded (q : QuestResult) : bool :=
  match q_success q with
  | Some true => true
  | _ => false
  end.

(** [questResults.filter(q => q.success === true).length] *)
Definition goodWins (questResults : list QuestResult) : Z :=
  JS.length (filter succeeded questResults).

Definition showAssassination (questResults : list QuestResult)
           (phase : option GamePhase) : bool :=
  (3 <=? goodWins questResults)
  || phase_is phase assassination_discussion
  || phase_is phase assassination
  || phase_is phase game_over.

(** The clickable stages of the tracker, left to right. *)
Inductive Stage : Type :=
| RoundStage (round : Z)
| AssassinationStage.

Definition is_assassination_stage (s : Stage) : bool :=
  match s with
  | AssassinationStage => true
  | RoundStage _ => false
  end.

(** [[1, 2, 3, 4, 5].map(...)] followed by
    [{showAssassination && (...)}]. *)
Definition stages (questResults : list QuestResult)
           (phase : option GamePhase) : list Stage :=
  map RoundStage [1; 2; 3; 4; 5]
  ++ (if showAssassination questResults phase then [AssassinationStage] else []).

(** [questResults.find((q) => q.round === round)] *)
Definition result (questResults : list QuestResult) (round : Z)
  : option QuestResult :=
  find (fun q => q_round q =? round) questResults.

(** [round === currentRound && phase !== 'assassination_discussion'
     && phase !== 'assassination' && phase !== 'game_over'] *)
Definition isCurrent (currentRound : Z) (phase : option GamePhase) (round : Z)
  : bool :=
  (round =? currentRound)
  && negb (phase_is phase assassination_discussion)
  && negb (phase_is phase assassination)
  && negb (phase_is phase game_over).

(** What a round's circle holds: the check mark, the cross, the team
    size, or nothing (a result whose [success] is still [null]). *)
Inductive CircleContent : Type :=
| CheckIcon
| CrossIcon
| SizeNumber (size : option Z)
| NoContent.

Definition circleContent (questResults : list QuestResult) (playerCount round : Z)
  : CircleContent :=
  match result questResults round with
  | Some q =>
      match q_success q with
      | Some true => CheckIcon
      | Some false => CrossIcon
      | None => NoContent
      end
  | None => SizeNumber (roundSize playerCount round)
  end.

(** The five circles, by round. *)
Definition rounds : list Z := [1; 2; 3; 4; 5].

End QuestTracker.

(** ** components/HumanControls.tsx *)

Module HumanControls.

(** The callback props, with the argument each call passes. *)
Inductive Callback : Type :=
| onTeamSelect (speech : option string)
| onDiscussion (content : string)
| onVote (approve : bool)
| onQuestVote (success : bool)
| onAssassinationDiscussion (content : string)
| onAssassinate (target : Z).

(** A rendered control: what activating it calls, whether it resets the
    text input, and its [disabled] attribute. *)
Record Button : Type := mkButton {
  calls : list Callback;
  clearsInput : bool;
  disabled : bool
}.

(** [humanSeat !== null ? gameState.players[humanSeat] : null] *)
Definition player (gameState : GameState) (humanSeat : option Z) : option Player :=
  match humanSeat with
  | Some n => JS.index (players gameState) n
  | None => None
  end.

(** [player?.team === 'evil'] *)
Definition isEvil (gameState : GameState) (humanSeat : option Z) : bool :=
  match player gameState humanSeat with
  | Some p => JS.str_is (team p) "evil"
  | None => false
  end.

(** The component's own size table: five and six players only. *)
Definition QUEST_SIZES (playerCount : Z) : option (list Z) :=
  match playerCount with
  | 5 => Some [2; 3; 2; 3; 3]
  | 6 => Some [2; 3; 4; 3; 4]
  | _ => None
  end.

(** [QUEST_SIZES[player_count]?.[current_round - 1] || 2] *)
Definition requiredSize (gameState : GameState) : Z :=
  JS.or_num
    (match QUEST_SIZES (player_count gameState) with
     | Some sizes => JS.index sizes (current_round gameState - 1)
     | None => None
     end)
    2.

Section WithTrim.

(** [String.prototype.trim] *)
Variable trim : string -> string.

Definition nonblank (input : string) : bool :=
  JS.truthy (Some (trim input)).

(** [handleSendDiscussion], as a control. *)
Definition sendDiscussionButton (input : string) : Button :=
  if nonblank input
  then mkButton [onDiscussion (trim input)] true false
  else mkButton [] false false.

Definition sendAssassinationDiscussionButton (input : string) : Button :=
  if nonblank input
  then mkButton [onAssassinationDiscussion (trim input)] true false
  else mkButton [] false false.

(** The confirm button of the team-selection block. *)
Definition teamSubmitButton (gameState : GameState)
           (selectedPlayers : list Z) (input : string) : Button :=
  mkButton
    [onTeamSelect (if nonblank input then Some (trim input) else None)]
    true
    (negb (JS.length selectedPlayers =? requiredSize gameState)).

(** The quest block: two buttons for an evil player, one otherwise. *)
Definition questButtons (gameState : GameState) (humanSeat : option Z)
  : list Button :=
  if isEvil gameState humanSeat
  then [ mkButton [onQuestVote true] false false;
         mkButton [onQuestVote false] false false ]
  else [ mkButton [onQuestVote true] false false ].

(** All controls of the card, by [gameState.human_action_type]. *)
Definition controls (gameState : GameState) (humanSeat : option Z)
           (selectedPlayers : list Z) (input : string) : list Button :=
  match human_action_type gameState with
  | Some act_team_selection =>
      [ teamSubmitButton gameState selectedPlayers input ]
  | Some act_discussion | Some act_leader_discussion =>
      [ sendDiscussionButton input ]
  | Some act_vote =>
      [ mkButton [onVote true] false false;
        mkButton [onVote false] false false ]
  | Some act_quest => questButtons gameState humanSeat
  | Some act_assassination_discussion =>
      [ sendAssassinationDiscussionButton input ]
  | Some act_assassinate =>
      match selectedPlayers with
      | target :: _ => [ mkButton [onAssassinate target] false false ]
      | [] => []
      end
  | None => []
  end.

(** What the human can do with the card while the state snapshot
    stays the same: activate the i-th control, or edit the text. *)
Inductive Interaction : Type :=
| Click (i : nat)
| TypeText (s : string).

(** One interaction, from the current text input: the new input and
    the callbacks made. *)
Definition interact (gameState : GameState) (humanSeat : option Z)
           (selectedPlayers : list Z) (input : string) (e : Interaction)
  : string * list Callback :=
  match e with
  | TypeText s => (s, [])
  | Click i =>
      match nth_error (controls gameState humanSeat selectedPlayers input) i with
      | Some b =>
          if disabled b then (input, [])
          else ((if clearsInput b then EmptyString else input), calls b)
      | None => (input, [])
      end
  end.

(** The callbacks made by a sequence of interactions, in order. *)
Fixpoint session (gameState : GameState) (humanSeat : option Z)
         (selectedPlayers : list Z) (input : string)
         (es : list Interaction) : list Callback :=
  match es with
  | [] => []
  | e :: rest =>
      let '(input', made) :=
        interact gameState humanSeat selectedPlayers input e in
      made ++ session gameState humanSeat selectedPlayers input' rest
  end.

End WithTrim.

End HumanControls.

(** ** pages/Game.tsx: the handlers wired to the controls *)

Module Game.

Inductive SocketMessage : Type :=
| sendTeamSelect (gameId : string) (team : list Z) (speech : option string)
| sendDiscussion (gameId : string) (content : string)
| sendVote (gameId : string) (approve : bool)
| sendQuestVote (gameId : string) (success : bool)
| sendAssassinationDiscussion (gameId : string) (content : string)
| sendAssassinate (gameId : string) (target : Z).

(** [handleTeamSelect], [handleDiscussion], [handleVote],
    [handleQuestVote], ...: each sends only [if (id)]; the team is sent
    only when the selection is not empty. *)
Definition handle (id : option string) (selectedPlayers : list Z)
           (c : HumanControls.Callback) : list SocketMessage :=
  match id with
  | Some gid =>
      if JS.truthy id then
        match c with
        | HumanControls.onTeamSelect speech =>
            if 0 <? JS.length selectedPlayers
            then [sendTeamSelect gid selectedPlayers speech] else []
        | HumanControls.onDiscussion content => [sendDiscussion gid content]
        | HumanControls.onVote approve => [sendVote gid approve]
        | HumanControls.onQuestVote success => [sendQuestVote gid success]
        | HumanControls.onAssassinationDiscussion content =>
            [sendAssassinationDiscussion gid content]
        | HumanControls.onAssassinate target => [sendAssassinate gid target]
        end
      else []
  | None => []
  end.

End Game.

(** ** hooks/useSocket.ts: what goes on the wire *)

Module UseSocket.

(** The events emitted for the human's actions, with their payloads. *)
Inductive Emit : Type :=
| human_discussion (game_id content : string)
| human_vote (game_id : string) (approve : bool)
| human_quest (game_id : string) (success : bool)
| human_team_select (game_id : string) (team : list Z) (speech : string)
| human_assassination_discussion (game_id content : string)
| human_assassinate (game_id : string) (target : Z).

(** [socketRef.current?.emit(...)]: nothing while no socket is set;
    [sendTeamSelect] sends [speech || '']. *)
Definition emit (socket : bool) (m : Game.SocketMessage) : list Emit :=
  if socket then
    match m with
    | Game.sendTeamSelect gid team speech =>
        [human_team_select gid team (JS.or_str speech EmptyString)]
    | Game.sendDiscussion gid content => [human_discussion gid content]
    | Game.sendVote gid approve => [human_vote gid approve]
    | Game.sendQuestVote gid success => [human_quest gid success]
    | Game.sendAssassinationDiscussion gid content =>
        [human_assassination_discussion gid content]
    | Game.sendAssassinate gid target => [human_assassinate gid target]
    end
  else [].

End UseSocket.

(** ** pages/Home.tsx: the player-count control of the creation form *)

Module Home.

(** [useState(5)] *)
Definition initialPlayerCount : Z := 5.

Inductive CountButton : Type := Minus | Plus.

Definition countButtonDisabled (playerCount : Z) (b : CountButton) : bool :=
  match b with
  | Minus => playerCount <=? 5
  | Plus => 6 <=? playerCount
  end.

(** [setPlayerCount(c => Math.max(5, c - 1))] and
    [setPlayerCount(c => Math.min(6, c + 1))] *)
Definition updatePlayerCount (b : CountButton) (c : Z) : Z :=
  match b with
  | Minus => Z.max 5 (c - 1)
  | Plus => Z.min 6 (c + 1)
  end.

Definition click (playerCount : Z) (b : CountButton) : Z :=
  if countButtonDisabled playerCount b then playerCount
  else updatePlayerCount b playerCount.

Definition playerCountAfter (clicks : list CountButton) : Z :=
  fold_left click clicks initialPlayerCount.

Record PlayerConfig : Type := mkPlayerConfig {
  pc_seat : Z;
  pc_name : string;
  pc_is_human : bool;
  pc_model : option string;
  pc_provider : option string
}.

Record CreateGameRequest : Type := mkCreateGameRequest {
  req_player_count : Z;
  req_players : list PlayerConfig
}.

(** [!player.is_human && (!player.model || !player.provider)] *)
Definition lacksModel (p : PlayerConfig) : bool :=
  negb (pc_is_human p)
  && (negb (JS.truthy (pc_model p)) || negb (JS.truthy (pc_provider p))).

(** [handleCreateGame]: the request passed to [createGame], or none when
    the validation loop returns early. *)
Definition handleCreateGame (playerCount : Z) (players : list PlayerConfig)
  : option CreateGameRequest :=
  if existsb lacksModel players then None
  else Some (mkCreateGameRequest playerCount players).

Record ModelInfo : Type := mkModelInfo {
  mi_provider : string;
  mi_model : string;
  mi_display_name : string
}.

(** [a || b] on optional strings. *)
Definition or_opt (a b : option string) : option string :=
  if JS.truthy a then a else b.

(** The indices [0 .. n-1] of [for (let i = 0; i < n; i++)]. *)
Definition range (n : Z) : list Z := map Z.of_nat (seq 0 (Z.to_nat n)).

(** [value.split(':')] *)
Fixpoint splitColon (s : string) : list string :=
  match s with
  | EmptyString => [EmptyString]
  | String c rest =>
      if Ascii.eqb c ":"%char then EmptyString :: splitColon rest
      else match splitColon rest with
           | h :: t => String c h :: t
           | [] => [String c EmptyString]
           end
  end.

(** [const [provider, model] = value.split(':')] *)
Definition parseModelValue (value : string) : option string * option string :=
  match splitColon value with
  | p :: m :: _ => (Some p, Some m)
  | [p] => (Some p, None)
  | [] => (None, None)
  end.

(** The option value [`${m.provider}:${m.model}`] *)
Definition modelValue (provider model : string) : string :=
  String.append provider (String ":"%char model).

Fixpoint hasColon (s : string) : bool :=
  match s with
  | EmptyString => false
  | String c rest => Ascii.eqb c ":"%char || hasColon rest
  end.

(** The partial updates the form applies to a player. *)
Inductive PlayerUpdate : Type :=
| SetName (s : string)
| SetHuman (b : bool)
| SetModel (provider model : option string).

(** [{ ...p, ...updates }] *)
Definition applyUpdate (u : PlayerUpdate) (p : PlayerConfig) : PlayerConfig :=
  match u with
  | SetName s => mkPlayerConfig (pc_seat p) s (pc_is_human p) (pc_model p) (pc_provider p)
  | SetHuman b => mkPlayerConfig (pc_seat p) (pc_name p) b (pc_model p) (pc_provider p)
  | SetModel provider model =>
      mkPlayerConfig (pc_seat p) (pc_name p) (pc_is_human p) model provider
  end.

Fixpoint updateFrom (i index : Z) (u : PlayerUpdate) (players : list PlayerConfig)
  : list PlayerConfig :=
  match players with
  | [] => []
  | p :: rest =>
      (if i =? index then applyUpdate u p else p) :: updateFrom (i + 1) index u rest
  end.

(** [prev.map((p, i) => (i === index ? { ...p, ...updates } : p))] *)
Definition updatePlayer (index : Z) (u : PlayerUpdate) (players : list PlayerConfig)
  : list PlayerConfig :=
  updateFrom 0 index u players.

(** [handleGlobalModelChange] *)
Definition handleGlobalModelChange (value : string) (players : list PlayerConfig)
  : list PlayerConfig :=
  if negb (JS.truthy (Some value)) then players
  else map (applyUpdate (SetModel (fst (parseModelValue value))
                                  (snd (parseModelValue value)))) players.

Section WithPlayerLabel.

(** The default name [`玩家${n}`] of the n-th player. *)
Variable playerLabel : Z -> string.

(** One pass of the loop of the initialising effect. *)
Definition initPlayer (players : list PlayerConfig) (models : list ModelInfo) (i : Z)
  : PlayerConfig :=
  mkPlayerConfig i
    (JS.or_str (option_map pc_name (JS.index players i)) (playerLabel (i + 1)))
    (match JS.index players i with
     | Some existing => pc_is_human existing
     | None => false
     end)
    (or_opt (match JS.index players i with
             | Some existing => pc_model existing
             | None => None
             end)
            (option_map mi_model (JS.index models 0)))
    (or_opt (match JS.index players i with
             | Some existing => pc_provider existing
             | None => None
             end)
            (option_map mi_provider (JS.index models 0))).

(** The effect on [playerCount] and [models]. *)
Definition initPlayers (playerCount : Z) (players : list PlayerConfig)
           (models : list ModelInfo) : list PlayerConfig :=
  map (initPlayer players models) (range playerCount).

Record Form : Type := mkForm {
  f_playerCount : Z;
  f_players : list PlayerConfig;
  f_models : list ModelInfo
}.

(** The form after mounting: five players, no models loaded yet. *)
Definition initialForm : Form :=
  mkForm initialPlayerCount (initPlayers initialPlayerCount [] []) [].

Inductive FormEvent : Type :=
| ClickCount (b : CountButton)
| EditName (index : Z) (s : string)
| ToggleHuman (index : Z)
| SelectModel (index : Z) (value : string)
| SelectGlobalModel (value : string)
| ModelsLoaded (ms : list ModelInfo).

(** One event of the form.  The effect reruns when the player count
    changes value and when a model list arrives. *)
Definition formStep (f : Form) (e : FormEvent) : Form :=
  match e with
  | ClickCount b =>
      if click (f_playerCount f) b =? f_playerCount f then f
      else mkForm (click (f_playerCount f) b)
                  (initPlayers (click (f_playerCount f) b) (f_players f) (f_models f))
                  (f_models f)
  | EditName index s =>
      mkForm (f_playerCount f) (updatePlayer index (SetName s) (f_players f))
             (f_models f)
  | ToggleHuman index =>
      match JS.index (f_players f) index with
      | Some p =>
          mkForm (f_playerCount f)
                 (updatePlayer index (SetHuman (negb (pc_is_human p))) (f_players f))
                 (f_models f)
      | None => f
      end
  | SelectModel index value =>
      mkForm (f_playerCount f)
             (updatePlayer index (SetModel (fst (parseModelValue value))
                                           (snd (parseModelValue value)))
                           (f_players f))
             (f_models f)
  | SelectGlobalModel value =>
      mkForm (f_playerCount f) (handleGlobalModelChange value (f_players f))
             (f_models f)
  | ModelsLoaded ms =>
      mkForm (f_playerCount f) (initPlayers (f_playerCount f) (f_players f) ms) ms
  end.

Definition formAfter (es : list FormEvent) : Form := fold_left formStep es initialForm.

(** The form's invariant: the seats of the players are 0, 1, ... up to
    the player count, in order, and the count is within 5..6. *)
Definition formInv (f : Form) : Prop :=
  map pc_seat (f_players f) = range (f_playerCount f)
  /\ 5 <= f_playerCount f <= 6.

End WithPlayerLabel.

End Home.

(** ** components/LLMDetailModal.tsx: which request the modal makes *)

Module LLMDetailModal.

Inductive ActionType : Type :=
| at_discussion
| at_team_vote
| at_quest_vote
| at_assassinate
| at_assassination_discussion.

(** The action type as the string the TypeScript union spells. *)
Definition actionName (a : ActionType) : string :=
  match a with
  | at_discussion => "discussion"
  | at_team_vote => "team_vote"
  | at_quest_vote => "quest_vote"
  | at_assassinate => "assassinate"
  | at_assassination_discussion => "assassination_discussion"
  end.

(** The props.  [roundNum] and [playerSeat] are declared [number], so the
    component's [!== undefined] tests on them always pass. *)
Record Props : Type := mkProps {
  isOpen : bool;
  gameId : string;
  roundNum : Z;
  playerSeat : Z;
  playerName : string;
  timestamp : option string;
  actionType : ActionType;
  voteAttempt : option Z
}.

Definition isDiscussionType (a : ActionType) : bool :=
  match a with
  | at_discussion | at_assassination_discussion => true
  | _ => false
  end.

Definition isVoteType (a : ActionType) : bool :=
  match a with
  | at_team_vote | at_quest_vote | at_assassinate => true
  | _ => false
  end.

Definition defined (v : option Z) : bool :=
  match v with
  | Some _ => true
  | None => false
  end.

(** Whether the effect calls [fetchDetails]. *)
Definition effectFetches (p : Props) : bool :=
  if isOpen p && JS.truthy (Some (gameId p)) then
    if isDiscussionType (actionType p) && JS.truthy (timestamp p) then true
    else if isVoteType (actionType p) && defined (voteAttempt p) then true
    else false
  else false.

(** A query parameter value before [String(...)]. *)
Inductive ParamValue : Type :=
| PNum (n : Z)
| PStr (s : string).

Inductive Endpoint : Type :=
| discussion_llm_details
| vote_llm_details.

(** What [fetchDetails] does first: it gives up for want of a timestamp,
    or it requests an endpoint of the game with query parameters. *)
Inductive FetchStart : Type :=
| MissingTimestamp
| Fetch (endpoint : Endpoint) (game : string) (params : list (string * ParamValue)).

(** [voteAttempt !== undefined && voteAttempt > 0] then
    [params.set('attempt', ...)] *)
Definition attemptParam (v : option Z) : list (string * ParamValue) :=
  match v with
  | Some n => if 0 <? n then [("attempt"%string, PNum n)] else []
  | None => []
  end.

(** [voteAttempt ?? 1] *)
Definition attemptOrOne (v : option Z) : Z :=
  match v with
  | Some n => n
  | None => 1
  end.

Definition timestamp_str (p : Props) : string :=
  match timestamp p with
  | Some t => t
  | None => EmptyString
  end.

Definition fetchDetails (p : Props) : FetchStart :=
  if isDiscussionType (actionType p) then
    if negb (JS.truthy (timestamp p)) then MissingTimestamp
    else
      Fetch discussion_llm_details (gameId p)
            ([ ("round_num"%string, PNum (roundNum p));
               ("player_seat"%string, PNum (playerSeat p));
               ("timestamp"%string, PStr (timestamp_str p));
               ("action_type"%string, PStr (actionName (actionType p))) ]
             ++ attemptParam (voteAttempt p))
  else
    Fetch vote_llm_details (gameId p)
          [ ("round_num"%string, PNum (roundNum p));
            ("attempt"%string, PNum (attemptOrOne (voteAttempt p)));
            ("player_seat"%string, PNum (playerSeat p));
            ("action_type"%string,
             PStr (match actionType p with
                   | at_assassinate => "assassination"
                   | a => actionName a
                   end)) ].

(** [URLSearchParams.get] *)
Definition param (key : string) (params : list (string * ParamValue))
  : option ParamValue :=
  match find (fun kv => String.eqb (fst kv) key) params with
  | Some kv => Some (snd kv)
  | None => None
  end.

Definition paramsOf (f : FetchStart) : list (string * ParamValue) :=
  match f with
  | Fetch _ _ params => params
  | MissingTimestamp => []
  end.

End LLMDetailModal.

(** ** components/Discussion.tsx: the three memoised selections *)

Module Discussion.

(** The callbacks of the three selections, on array contents. *)

(** [messages.filter(msg => (msg.round || 1) === displayRound)] *)
Definition filteredMessages (messages : list DiscussionMessage)
           (displayRound : Z) : list DiscussionMessage :=
  filter (fun msg => JS.or_num (d_round msg) 1 =? displayRound) messages.

(** [votes.filter(vote => vote.round === displayRound)] *)
Definition filteredVotes (votes : list VoteResult) (displayRound : Z)
  : list VoteResult :=
  filter (fun vote => v_round vote =? displayRound) votes.

(** [questResults.find(q => q.round === displayRound)] *)
Definition questResult (questResults : list QuestResult) (displayRound : Z)
  : option QuestResult :=
  find (fun q => q_round q =? displayRound) questResults.

(** Arrays are objects: the props hold references into a store that the
    component shares with its caller, which holds the same arrays in the
    game state. *)
Inductive Array : Type :=
| MessageArray (elements : list DiscussionMessage)
| VoteArray (elements : list VoteResult)
| QuestArray (elements : list QuestResult).

Definition Store : Type := list Array.

Definition Ref : Type := nat.

Record Props : Type := mkProps {
  messages : Ref;
  votes : Ref;
  questResults : Ref;
  displayRound : Z
}.

Record Selections : Type := mkSelections {
  sel_messages : Ref;
  sel_votes : Ref;
  sel_questResult : option QuestResult
}.

(** A computation over the store; [None] when a reference does not hold
    an array of the expected kind. *)
Definition Render (A : Type) : Type := Store -> option (A * Store).

Definition ret {A : Type} (a : A) : Render A := fun s => Some (a, s).

Definition bind {A B : Type} (m : Render A) (k : A -> Render B) : Render B :=
  fun s => match m s with
           | Some (a, s') => k a s'
           | None => None
           end.

Definition getMessages (r : Ref) : Render (list DiscussionMessage) :=
  fun s => match nth_error s r with
           | Some (MessageArray l) => Some (l, s)
           | _ => None
           end.

Definition getVotes (r : Ref) : Render (list VoteResult) :=
  fun s => match nth_error s r with
           | Some (VoteArray l) => Some (l, s)
           | _ => None
           end.

Definition getQuestResults (r : Ref) : Render (list QuestResult) :=
  fun s => match nth_error s r with
           | Some (QuestArray l) => Some (l, s)
           | _ => None
           end.

(** [Array.prototype.filter] returns a new array: a fresh reference, the
    store extended at its end. *)
Definition newArray (a : Array) : Render Ref :=
  fun s => Some (List.length s, s ++ [a]).

(** The three selections of one render, in source order. *)
Definition select (p : Props) : Render Selections :=
  bind (getMessages (messages p)) (fun ms =>
  bind (newArray (MessageArray (filteredMessages ms (displayRound p)))) (fun rm =>
  bind (getVotes (votes p)) (fun vs =>
  bind (newArray (VoteArray (filteredVotes vs (displayRound p)))) (fun rv =>
  bind (getQuestResults (questResults p)) (fun qs =>
  ret (mkSelections rm rv (questResult qs (displayRound p)))))))).

(** What the selections hold, read back from the store. *)
Definition shown (sel : Selections) (s : Store)
  : option (list DiscussionMessage * list VoteResult * option QuestResult) :=
  match nth_error s (sel_messages sel), nth_error s (sel_votes sel) with
  | Some (MessageArray ms), Some (VoteArray vs) => Some (ms, vs, sel_questResult sel)
  | _, _ => None
  end.

(** Every array of [s] is still there, unchanged, in [s']. *)
Definition preserved (s s' : Store) : Prop :=
  forall r a, nth_error s r = Some a -> nth_error s' r = Some a.

(** What the component puts on screen, top to bottom. *)
Inductive Panel : Type :=
| NoMessagesPlaceholder
| MessageList (shown : list DiscussionMessage)
| VoteResults (shown : list VoteResult)
| QuestVoteResults (q : QuestResult).

(** [questResult && questResult.success !== null
     && Object.keys(questResult.quest_votes).length > 0] *)
Definition questPanel (q : option QuestResult) : list Panel :=
  match q with
  | Some r =>
      match q_success r with
      | Some _ =>
          if 0 <? JS.length (q_quest_votes r) then [QuestVoteResults r] else []
      | None => []
      end
  | None => []
  end.

(** The component's output: the early return for an empty [messages]
    prop, else the message list of the round, the votes of the round when
    there are any, and the quest votes of the round. *)
Definition render (messages : list DiscussionMessage) (votes : list VoteResult)
           (questResults : list QuestResult) (displayRound : Z) : list Panel :=
  if JS.length messages =? 0 then [NoMessagesPlaceholder]
  else
    [MessageList (filteredMessages messages displayRound)]
    ++ (if 0 <? JS.length (filteredVotes votes displayRound)
        then [VoteResults (filteredVotes votes displayRound)] else [])
    ++ questPanel (questResult questResults displayRound).

(** [players.find((p) => p.seat === seat)] *)
Definition getPlayer (players : list Player) (k : Z) : option Player :=
  find (fun p => seat p =? k) players.

(** [isAssassination ? players.find(p => p.role === 'assassin') : undefined] *)
Definition assassinPlayer (players : list Player) (isAssassination : bool)
  : option Player :=
  if isAssassination
  then find (fun p => JS.str_is (role p) "assassin") players
  else None.

Record SelectedVote : Type := mkSelectedVote {
  sv_type : LLMDetailModal.ActionType;
  sv_roundNum : Z;
  sv_attempt : Z;
  sv_playerSeat : Z;
  sv_playerName : string
}.

(** [handleVoteClick]: the vote it selects, or none when it returns
    early. *)
Definition handleVoteClick (players : list Player) (gameId : option string)
           (type : LLMDetailModal.ActionType) (roundNum attempt k : Z)
  : option SelectedVote :=
  match getPlayer players k with
  | Some player =>
      if is_human player || negb (JS.truthy gameId) then None
      else Some (mkSelectedVote type roundNum attempt k (name player))
  | None => None
  end.

(** [isClickable] of a button in a vote record. *)
Definition voteClickable (players : list Player) (gameId : option string)
           (isAssassination : bool) (seatNum : Z) : bool :=
  if isAssassination then
    JS.truthy gameId
    && match assassinPlayer players isAssassination with
       | Some a => negb (is_human a)
       | None => false
       end
  else
    JS.truthy gameId
    && match getPlayer players seatNum with
       | Some p => negb (is_human p)
       | None => false
       end.

(** Clicking the button of seat [seatNum] in a vote record: disabled
    buttons do nothing. *)
Definition voteButtonClick (players : list Player) (gameId : option string)
           (isAssassination : bool) (vote : VoteResult) (seatNum : Z)
  : option SelectedVote :=
  if voteClickable players gameId isAssassination seatNum then
    handleVoteClick players gameId
      (if isAssassination then LLMDetailModal.at_assassinate
       else LLMDetailModal.at_team_vote)
      (v_round vote) (v_attempt vote)
      (match assassinPlayer players isAssassination with
       | Some a => if isAssassination then seat a else seatNum
       | None => seatNum
       end)
  else None.

(** [isClickable] of a message: [gameId && !player?.is_human]. *)
Definition messageClickable (players : list Player) (gameId : option string)
           (msg : DiscussionMessage) : bool :=
  JS.truthy gameId
  && negb (match getPlayer players (d_seat msg) with
           | Some p => is_human p
           | None => false
           end).

(** The modal opened for a selected message. *)
Definition messageModal (gameId : string) (isAssassination : bool)
           (displayRound : Z) (msg : DiscussionMessage) : LLMDetailModal.Props :=
  LLMDetailModal.mkProps true gameId
    (match d_round msg with Some r => r | None => displayRound end)
    (d_seat msg) (d_player_name msg)
    (Some (match d_timestamp msg with Some t => t | None => EmptyString end))
    (if isAssassination then LLMDetailModal.at_assassination_discussion
     else LLMDetailModal.at_discussion)
    (d_attempt msg).

(** The modal opened for a selected vote. *)
Definition voteModal (gameId : string) (sv : SelectedVote) : LLMDetailModal.Props :=
  LLMDetailModal.mkProps true gameId (sv_roundNum sv) (sv_playerSeat sv)
    (sv_playerName sv) None (sv_type sv) (Some (sv_attempt sv)).

End Discussion.

(** ** stores/gameStore.ts *)

Module GameStore.

Record Store : Type := mkStore {
  connected : bool;
  gameState : option GameState;
  humanSeat : option Z;
  godMode : bool;
  selectedPlayers : list Z
}.

(** [{ ...player, role: existingPlayer.role, team: existingPlayer.team }] *)
Definition withRoleTeam (player existingPlayer : Player) : Player :=
  mkPlayer (seat player) (name player) (is_human player)
           (role existingPlayer) (team existingPlayer)
           (model_name player) (is_on_quest player) (is_leader player).

(** The callback of [state.players.map] in [setGameState]. *)
Definition mergePlayer (existingPlayers : list Player) (player : Player) : Player :=
  match find (fun p => seat p =? seat player) existingPlayers with
  | Some existingPlayer =>
      if JS.truthy (role existingPlayer) && negb (JS.truthy (role player))
      then withRoleTeam player existingPlayer
      else player
  | None => player
  end.

(** [{ ...state, players: mergedPlayers }] *)
Definition withPlayers (state : GameState) (mergedPlayers : list Player) : GameState :=
  mkGameState (id state) (status state) (phase state) (current_round state)
              (current_leader state) (vote_attempt state) (proposed_team state)
              (player_count state) mergedPlayers (quest_results state)
              (vote_history state) (discussion_history state)
              (assassination_discussion_history state)
              (assassinated_player state) (winner state)
              (waiting_for_human state) (human_action_type state).

(** zustand's [set({ gameState: g })]: the other slices are kept. *)
Definition setSlice_gameState (currentState : Store) (g : option GameState) : Store :=
  mkStore (connected currentState) g (humanSeat currentState)
          (godMode currentState) (selectedPlayers currentState).

Definition setGameState (state : GameState) (currentState : Store) : Store :=
  match gameState currentState with
  | Some existing =>
      if godMode currentState && JS.array_truthy (players state)
      then setSlice_gameState currentState
             (Some (withPlayers state
                      (map (mergePlayer (players existing)) (players state))))
      else setSlice_gameState currentState (Some state)
  | None => setSlice_gameState currentState (Some state)
  end.

(** [selectedPlayers.includes(seat) ? selectedPlayers.filter(s => s !== seat)
     : [...selectedPlayers, seat]] *)
Definition toggle (selected : list Z) (k : Z) : list Z :=
  if JS.includes selected k
  then filter (fun s => negb (s =? k)) selected
  else selected ++ [k].

Definition togglePlayerSelection (k : Z) (currentState : Store) : Store :=
  mkStore (connected currentState) (gameState currentState)
          (humanSeat currentState) (godMode currentState)
          (toggle (selectedPlayers currentState) k).

(** [clearSelection] *)
Definition clearSelection (currentState : Store) : Store :=
  mkStore (connected currentState) (gameState currentState)
          (humanSeat currentState) (godMode currentState) [].

(** [clearGameState] *)
Definition clearGameState (currentState : Store) : Store :=
  setSlice_gameState currentState None.

(** [setHumanSeat] *)
Definition setHumanSeat (seat : option Z) (currentState : Store) : Store :=
  mkStore (connected currentState) (gameState currentState) seat
          (godMode currentState) (selectedPlayers currentState).

(** [setGodMode] *)
Definition setGodMode (enabled : bool) (currentState : Store) : Store :=
  mkStore (connected currentState) (gameState currentState)
          (humanSeat currentState) enabled (selectedPlayers currentState).

(** The store as [create] builds it. *)
Definition initialStore : Store := mkStore false None None false [].

(** [{ ...state.gameState, discussion_history: h }] *)
Definition withDiscussionHistory (g : GameState) (h : list DiscussionMessage)
  : GameState :=
  mkGameState (id g) (status g) (phase g) (current_round g) (current_leader g)
              (vote_attempt g) (proposed_team g) (player_count g) (players g)
              (quest_results g) (vote_history g) h
              (assassination_discussion_history g) (assassinated_player g)
              (winner g) (waiting_for_human g) (human_action_type g).

(** [{ ...state.gameState, assassination_discussion_history: h }] *)
Definition withAssassinationHistory (g : GameState)
           (h : option (list DiscussionMessage)) : GameState :=
  mkGameState (id g) (status g) (phase g) (current_round g) (current_leader g)
              (vote_attempt g) (proposed_team g) (player_count g) (players g)
              (quest_results g) (vote_history g) (discussion_history g) h
              (assassinated_player g) (winner g) (waiting_for_human g)
              (human_action_type g).

(** [addDiscussion]: appended to the stored state's history; with no
    stored state the slice stays [null]. *)
Definition addDiscussion (message : DiscussionMessage) (currentState : Store)
  : Store :=
  setSlice_gameState currentState
    (match gameState currentState with
     | Some g =>
         Some (withDiscussionHistory g (discussion_history g ++ [message]))
     | None => None
     end).

(** [state.gameState.assassination_discussion_history || []] *)
Definition historyOrEmpty (h : option (list DiscussionMessage))
  : list DiscussionMessage :=
  match h with
  | Some l => l
  | None => []
  end.

(** [addAssassinationDiscussion] *)
Definition addAssassinationDiscussion (message : DiscussionMessage)
           (currentState : Store) : Store :=
  setSlice_gameState currentState
    (match gameState currentState with
     | Some g =>
         Some (withAssassinationHistory g
                 (Some (historyOrEmpty (assassination_discussion_history g)
                        ++ [message])))
     | None => None
     end).

(** Whether the stored state has a record with a role for seat [k], as
    [players.find(p => p.seat === k)] sees it. *)
Definition knowsRole (currentState : Store) (k : Z) : bool :=
  match gameState currentState with
  | Some g =>
      match find (fun p => seat p =? k) (players g) with
      | Some e => JS.truthy (role e)
      | None => false
      end
  | None => false
  end.

End GameStore.

(** ** pages/Game.tsx over the store *)

Module GamePage.

(** [loadGame] once [getGame] has answered: the state is stored, and the
    seat of the first human player, if there is one, becomes the human
    seat. *)
Definition loadGame (game : GameState) (st : GameStore.Store) : GameStore.Store :=
  match find is_human (players game) with
  | Some human =>
      GameStore.setHumanSeat (Some (seat human)) (GameStore.setGameState game st)
  | None => GameStore.setGameState game st
  end.

(** A state reaching the store: fetched by [loadGame], or pushed on the
    socket as [game:state]. *)
Inductive Arrival : Type :=
| Loaded (game : GameState)
| Pushed (state : GameState).

Definition receive (st : GameStore.Store) (a : Arrival) : GameStore.Store :=
  match a with
  | Loaded game => loadGame game st
  | Pushed state => GameStore.setGameState state st
  end.

(** [gameState.waiting_for_human && humanSeat !== null] *)
Definition isHumanTurn (gameState : GameState) (humanSeat : option Z) : bool :=
  waiting_for_human gameState
  && match humanSeat with
     | Some _ => true
     | None => false
     end.

(** Whether the board gets [togglePlayerSelection] as [onPlayerClick]. *)
Definition selectionEnabled (gameState : GameState) (humanSeat : option Z) : bool :=
  isHumanTurn gameState humanSeat
  && (match human_action_type gameState with
      | Some act_team_selection | Some act_assassinate => true
      | _ => false
      end).

(** A click on the card of seat [k]. *)
Definition playerClick (k : Z) (st : GameStore.Store) : GameStore.Store :=
  match GameStore.gameState st with
  | Some gameState =>
      if selectionEnabled gameState (GameStore.humanSeat st)
      then GameStore.togglePlayerSelection k st
      else st
  | None => st
  end.

(** [handleTeamSelect]: what is sent, and the store afterwards. *)
Definition handleTeamSelect (id : option string) (speech : option string)
           (st : GameStore.Store) : list Game.SocketMessage * GameStore.Store :=
  match id with
  | Some gid =>
      if JS.truthy id && (0 <? JS.length (GameStore.selectedPlayers st))
      then ([Game.sendTeamSelect gid (GameStore.selectedPlayers st) speech],
            GameStore.clearSelection st)
      else ([], st)
  | None => ([], st)
  end.

(** The [humanSeat] prop the page passes to the board. *)
Definition boardHumanSeat (st : GameStore.Store) : GameBoard.HumanSeatProp :=
  match GameStore.humanSeat st with
  | Some n => GameBoard.seat_num n
  | None => GameBoard.seat_null
  end.

End GamePage.

(** ** pages/Replay.tsx: playback position *)

Module Replay.

Record Playback : Type := mkPlayback {
  currentIndex : Z;
  playing : bool
}.

(** [useState(0)], [useState(false)] *)
Definition initial : Playback := mkPlayback 0 false.

Inductive Event : Type :=
| PrevClick
| NextClick
| PlayClick
| SeekClick (index : nat)
| TimerFired.

Section WithStates.

Variable states : list GameState.

Definition atEnd (p : Playback) : bool :=
  JS.length states - 1 <=? currentIndex p.

(** The auto-play effect, run after every state change: it stops
    playback when nothing is left to play, otherwise it arms the
    two-second timer. *)
Definition autoPlayEffect (p : Playback) : Playback :=
  if negb (playing p) || atEnd p
  then mkPlayback (currentIndex p) false
  else p.

Definition timerArmed (p : Playback) : bool :=
  playing p && negb (atEnd p).

Definition handlePrev (p : Playback) : Playback :=
  mkPlayback (Z.max 0 (currentIndex p - 1)) false.

Definition handleNext (p : Playback) : Playback :=
  mkPlayback (Z.min (JS.length states - 1) (currentIndex p + 1)) false.

Definition handleSeek (index : Z) (p : Playback) : Playback :=
  mkPlayback index false.

(** [setCurrentIndex(i => i + 1)] of the timer. *)
Definition tick (p : Playback) : Playback :=
  mkPlayback (currentIndex p + 1) (playing p).

(** One event of the page.  A disabled button does nothing; the
    timeline has one button per state; the timer fires only while the
    effect has it armed. *)
Definition step (p : Playback) (e : Event) : Playback :=
  match e with
  | PrevClick =>
      if currentIndex p =? 0 then p else autoPlayEffect (handlePrev p)
  | NextClick =>
      if atEnd p then p else autoPlayEffect (handleNext p)
  | PlayClick =>
      if atEnd p then p
      else autoPlayEffect (mkPlayback (currentIndex p) (negb (playing p)))
  | SeekClick index =>
      if (index <? List.length states)%nat
      then autoPlayEffect (handleSeek (Z.of_nat index) p)
      else p
  | TimerFired =>
      if timerArmed p then autoPlayEffect (tick p) else p
  end.

Definition run (es : list Event) : Playback := fold_left step es initial.

(** [states[currentIndex]] *)
Definition currentState (p : Playback) : option GameState :=
  JS.index states (currentIndex p).

Definition inBounds (p : Playback) : Prop :=
  0 <= currentIndex p <= JS.length states - 1.

(** The invariant of the page: the index is in range, and playback is
    never on while the last state is shown. *)
Definition replayInv (p : Playback) : Prop :=
  inBounds p /\ (playing p = true -> currentIndex p < JS.length states - 1).

End WithStates.

(** [<GameBoard gameState={currentState} />]: the board of the shown
    state, rendered without [humanSeat] and with the default [godMode]. *)
Definition board (ROLE_NAMES : string -> option string) (states : list GameState)
           (p : Playback) : option (list (Z * list PlayerCard.Badge)) :=
  match currentState states p with
  | Some gameState =>
      Some (GameBoard.playerCards ROLE_NAMES gameState GameBoard.seat_undefined false)
  | None => None
  end.

(** The three looks of a timeline button. *)
Inductive Mark : Type := CurrentMark | PastMark | FutureMark.

(** [states.map((_, index) => ...)]: the timeline, button by button. *)
Definition timeline (states : list GameState) (p : Playback) : list Mark :=
  map (fun index : nat =>
         if Z.of_nat index =? currentIndex p then CurrentMark
         else if Z.of_nat index <? currentIndex p then PastMark
         else FutureMark)
      (seq 0 (List.length states)).

Definition isCurrentMark (m : Mark) : bool :=
  match m with
  | CurrentMark => true
  | _ => false
  end.

(** The counter of the header: [currentIndex + 1] of [states.length]. *)
Definition counter (states : list GameState) (p : Playback) : Z * Z :=
  (currentIndex p + 1, JS.length states).

End Replay.

(** ** The rule table *)

Module Rules.

(** The required team size for a player count and a round (1..5): the
    entry of the complete size table, none outside it. *)
Definition teamSize (playerCount round : Z) : option Z :=
  match QuestTracker.QUEST_SIZES playerCount with
  | Some sizes => JS.index sizes (round - 1)
  | None => None
  end.

End Rules.

(** ** The match engine behind [vote_attempt] *)

(** Modelled from the spec: the phase state machine and the team-vote and
    quest resolvers of the match engine (its sections on the phase state
    machine and the resolvers).  The engine is server code; the client
    sources only display its [vote_attempt] next to the constant 5.  The
    team sizes are those of the client's complete table,
    [QuestTracker.QUEST_SIZES]. *)
Module Engine.

Inductive Winner : Type := good | evil.

Record Match : Type := mkMatch {
  m_phase : GamePhase;
  m_players : Z;
  m_merlin : Z;
  m_round : Z;
  m_leader : Z;
  m_attempt : Z;
  m_team : list Z;
  m_results : list bool;
  m_winner : option Winner
}.

(** The decision committed at the open decision point. *)
Inductive Decision : Type :=
| RolesAssigned
| NightDelivered
| TeamProposed (team : list Z)
| DiscussionClosed
| VotesCast (approvals : list bool)
| QuestVotesCast (successes : list bool)
| AssassinationDiscussionClosed
| TargetChosen (target : Z).

(** Modelled from the spec: match creation (server code); a player count
    outside 5..10 is a configuration error. *)
Definition create (players merlin : Z) : option Match :=
  if (5 <=? players) && (players <=? 10)
  then Some (mkMatch role_assignment players merlin 1 0 1 [] [] None)
  else None.

Definition count_true (l : list bool) : Z := JS.length (filter (fun b => b) l).
Definition count_false (l : list bool) : Z := JS.length (filter negb l).

(** Modelled from the spec: the team-vote resolver (server code);
    approved iff strictly more than half approve. *)
Definition approved (players : Z) (approvals : list bool) : bool :=
  players <? 2 * count_true approvals.

(** Modelled from the spec: the quest resolver's fail threshold (server
    code); 2 in round 4 with seven or more players, else 1. *)
Definition failThreshold (players round : Z) : Z :=
  if (round =? 4) && (7 <=? players) then 2 else 1.

Definition questFailed (players round : Z) (successes : list bool) : bool :=
  failThreshold players round <=? count_false successes.

Definition rotate (m : Match) : Z := (m_leader m + 1) mod m_players m.

Definition withPhase (m : Match) (p : GamePhase) : Match :=
  mkMatch p (m_players m) (m_merlin m) (m_round m) (m_leader m)
          (m_attempt m) (m_team m) (m_results m) (m_winner m).

Definition finish (m : Match) (attempt : Z) (results : list bool) (w : Winner) : Match :=
  mkMatch game_over (m_players m) (m_merlin m) (m_round m) (m_leader m)
          attempt (m_team m) results (Some w).

(** Modelled from the spec: the transition function of the phase state
    machine, which is server code the client sources do not contain.  One
    committed decision; [None]: the decision is rejected and the decision
    point stays open (wrong phase, wrong team size, wrong number of votes),
    or the match is over. *)
Definition step (m : Match) (d : Decision) : option Match :=
  match m_phase m, d with
  | role_assignment, RolesAssigned => Some (withPhase m night_phase)
  | night_phase, NightDelivered => Some (withPhase m team_selection)
  | team_selection, TeamProposed team =>
      match Rules.teamSize (m_players m) (m_round m) with
      | Some size =>
          if JS.length team =? size
          then Some (mkMatch discussion (m_players m) (m_merlin m) (m_round m)
                             (m_leader m) (m_attempt m) team (m_results m)
                             (m_winner m))
          else None
      | None => None
      end
  | discussion, DiscussionClosed => Some (withPhase m team_vote)
  | team_vote, VotesCast approvals =>
      if JS.length approvals =? m_players m then
        if approved (m_players m) approvals
        then Some (withPhase m quest_execution)
        else
          let attempt := m_attempt m + 1 in
          if 5 <? attempt
          then Some (finish m attempt (m_results m) evil)
          else Some (mkMatch team_selection (m_players m) (m_merlin m)
                             (m_round m) (rotate m) attempt [] (m_results m)
                             (m_winner m))
      else None
  | quest_execution, QuestVotesCast successes =>
      if JS.length successes =? JS.length (m_team m) then
        let ok := negb (questFailed (m_players m) (m_round m) successes) in
        let results := m_results m ++ [ok] in
        if 3 <=? count_false results
        then Some (finish m 1 results evil)
        else if 3 <=? count_true results
        then Some (mkMatch assassination_discussion (m_players m) (m_merlin m)
                           (m_round m) (m_leader m) 1 (m_team m) results
                           (m_winner m))
        else Some (mkMatch team_selection (m_players m) (m_merlin m)
                           (m_round m + 1) (rotate m) 1 [] results
                           (m_winner m))
      else None
  | assassination_discussion, AssassinationDiscussionClosed =>
      Some (withPhase m assassination)
  | assassination, TargetChosen target =>
      if (0 <=? target) && (target <? m_players m)
      then Some (finish m (m_attempt m) (m_results m)
                        (if target =? m_merlin m then evil else good))
      else None
  | _, _ => None
  end.

(** Committing a list of decisions in order; a rejected one stops it. *)
Fixpoint run (m : Match) (ds : list Decision) : option Match :=
  match ds with
  | [] => Some m
  | d :: rest =>
      match step m d with
      | Some m' => run m' rest
      | None => None
      end
  end.

Inductive reachable : Match -> Prop :=
| reach_create : forall players merlin m,
    create players merlin = Some m -> reachable m
| reach_step : forall m d m',
    reachable m -> step m d = Some m' -> reachable m'.

Definition inProgress (m : Match) : Prop := m_phase m <> game_over.

End Engine.

(** ** Sample states used by the examples *)

Definition good_at_quest : GameState :=
  mkGameState "g" in_progress quest_execution 1 0 1 [0; 1] 5
    [ mkPlayer 0 "Ann" true (Some "merlin"%string) (Some "good"%string) None None None;
      mkPlayer 1 "Bob" true (Some "assassin"%string) (Some "evil"%string) None None None ]
    [] [] [] None None None true (Some act_quest).

Definition seven_players_round_two : GameState :=
  mkGameState "g" in_progress team_selection 2 1 1 [] 7 [] [] [] [] None None
    None true (Some act_team_selection).

Definition five_players_round_two : GameState :=
  mkGameState "g" in_progress team_selection 2 1 1 [] 5 [] [] [] [] None None
    None true (Some act_team_selection).

Definition sample_store : Discussion.Store :=
  [ Discussion.MessageArray
      [ mkDiscussionMessage 0 "Ann" "go" None None None;
        mkDiscussionMessage 1 "Bob" "no" None (Some 2) (Some 1) ];
    Discussion.VoteArray [ mkVoteResult 1 1 [(0, true); (1, false)] false ];
    Discussion.QuestArray [ mkQuestResult 1 (Some true) 0 [0; 1] [] ] ].

(** The props over [sample_store], showing round 1. *)
Definition sample_props : Discussion.Props :=
  Discussion.mkProps 0%nat 1%nat 2%nat 1.

Definition five_player_start : Engine.Match :=
  Engine.mkMatch role_assignment 5 0 1 0 1 [] [] None.

(** Four proposals of round 1, each discussed and voted down 2 to 3. *)
Definition four_rejections : list Engine.Decision :=
  flat_map (fun team => [Engine.TeamProposed team; Engine.DiscussionClosed;
                         Engine.VotesCast [true; false; false; true; false]])
           [[0; 1]; [1; 2]; [2; 3]; [3; 4]].

(** The fifth team vote of round 1 is open. *)
Definition fifth_vote : Engine.Match :=
  Engine.mkMatch team_vote 5 0 1 4 5 [4; 0] [] None.

(** A socket update of round [r] that carries no roles. *)
Definition roleless_update (r : Z) : GameState :=
  mkGameState "g" in_progress team_vote r 0 1 [] 5
    [ mkPlayer 1 "Bob" true None None None None None;
      mkPlayer 0 "Ann" true None None None None None ]
    [] [] [] None None None false None.

(** The assassination phase of round 4 with one message said. *)
Definition assassination_talk : GameState :=
  mkGameState "g" in_progress assassination 4 0 1 [] 5 [] [] [] []
    (Some [mkDiscussionMessage 1 "Bob" "seat 0" (Some "t1"%string) None None])
    None None false None.

(** A human Merlin at seat 0 and an AI assassin at seat 1. *)
Definition ai_assassin_roster : list Player :=
  [ mkPlayer 0 "Ann" true (Some "merlin"%string) (Some "good"%string) None None None;
    mkPlayer 1 "Bob" false (Some "assassin"%string) (Some "evil"%string)
             (Some "m"%string) None None ].

(** * Properties *)

(** ** Shared facts about the JavaScript idioms *)

Lemma includes_In : forall (arr : list Z) (x : Z),
  JS.includes arr x = true <-> In x arr.
Proof.
  intros arr x. unfold JS.includes. rewrite existsb_exists. split.
  - intros [y [Hy Heq]]. apply Z.eqb_eq in Heq. now subst.
  - intros H. exists x. split; [assumption | apply Z.eqb_refl].
Qed.

Lemma includes_not_In : forall (arr : list Z) (x : Z),
  JS.includes arr x = false <-> ~ In x arr.
Proof.
  intros arr x. rewrite <- includes_In.
  destruct (JS.includes arr x); split; intros H; congruence.
Qed.

Lemma filter_neq_In : forall (arr : list Z) (k j : Z),
  In j (filter (fun s => negb (s =? k)) arr) <-> In j arr /\ j <> k.
Proof.
  intros arr k j. rewrite filter_In. split; intros [H1 H2]; split; auto.
  - apply negb_true_iff, Z.eqb_neq in H2. assumption.
  - apply negb_true_iff, Z.eqb_neq. assumption.
Qed.

Lemma index_in_range : forall (A : Type) (arr : list A) (i : Z),
  0 <= i < JS.length arr -> exists a, JS.index arr i = Some a.
Proof.
  intros A arr i [Hlo Hhi]. unfold JS.index, JS.length in *.
  destruct (i <? 0) eqn:E; [apply Z.ltb_lt in E; lia |].
  destruct (nth_error arr (Z.to_nat i)) as [a |] eqn:En.
  - now exists a.
  - apply nth_error_None in En. lia.
Qed.

Lemma length_filter_perm : forall (A : Type) (f : A -> bool) (l l' : list A),
  Permutation l l' -> List.length (filter f l) = List.length (filter f l').
Proof.
  intros A f l l' HP. induction HP; simpl.
  - reflexivity.
  - destruct (f x); simpl; congruence.
  - destruct (f x), (f y); reflexivity.
  - congruence.
Qed.

(** ** The selection slice of the store *)

Section Selection.

Variables (s : list Z) (k : Z).

Lemma toggle_member : In k s ->
  GameStore.toggle s k = filter (fun x => negb (x =? k)) s.
Proof.
  intros H. unfold GameStore.toggle.
  apply includes_In in H. now rewrite H.
Qed.

Lemma toggle_absent : ~ In k s -> GameStore.toggle s k = s ++ [k].
Proof.
  intros H. unfold GameStore.toggle.
  apply includes_not_In in H. now rewrite H.
Qed.

Lemma toggle_others : forall j, j <> k ->
  (In j (GameStore.toggle s k) <-> In j s).
Proof.
  intros j Hj. unfold GameStore.toggle.
  destruct (JS.includes s k).
  - rewrite filter_neq_In. tauto.
  - rewrite in_app_iff. simpl. split; [intros [H | [H | []]] | auto]; congruence.
Qed.

Lemma toggle_flips : In k (GameStore.toggle s k) <-> ~ In k s.
Proof.
  unfold GameStore.toggle. destruct (JS.includes s k) eqn:E.
  - apply includes_In in E. rewrite filter_neq_In. tauto.
  - apply includes_not_In in E. rewrite in_app_iff. simpl. tauto.
Qed.

End Selection.

(** C9.  [togglePlayerSelection] touches only the selection slice; on it,
    it removes seat [k] when [k] is selected (filtering it out) and
    appends [k] otherwise; the membership of every other seat is
    unchanged; and toggling the same seat twice gives a selection with
    exactly the seats of the original one. *)
Theorem C9_togglePlayerSelection :
  forall (st : GameStore.Store) (k : Z),
    let s := GameStore.selectedPlayers st in
    let s' := GameStore.selectedPlayers (GameStore.togglePlayerSelection k st) in
    let s'' := GameStore.selectedPlayers
                 (GameStore.togglePlayerSelection k
                    (GameStore.togglePlayerSelection k st)) in
    (In k s -> s' = filter (fun x => negb (x =? k)) s /\ ~ In k s')
    /\ (~ In k s -> s' = s ++ [k] /\ In k s')
    /\ (forall j, j <> k -> (In j s' <-> In j s))
    /\ (forall j, In j s'' <-> In j s)
    /\ GameStore.gameState (GameStore.togglePlayerSelection k st) = GameStore.gameState st
    /\ GameStore.humanSeat (GameStore.togglePlayerSelection k st) = GameStore.humanSeat st
    /\ GameStore.godMode (GameStore.togglePlayerSelection k st) = GameStore.godMode st
    /\ GameStore.connected (GameStore.togglePlayerSelection k st) = GameStore.connected st.
Proof.
  intros st k. cbv zeta. simpl.
  set (s := GameStore.selectedPlayers st).
  repeat split; try reflexivity.
  - now apply toggle_member.
  - intros Hin. apply toggle_flips in Hin. tauto.
  - now apply toggle_absent.
  - apply toggle_flips. assumption.
  - apply toggle_others. assumption.
  - apply toggle_others. assumption.
  - intros Hj. destruct (Z.eq_dec j k) as [-> | Hne].
    + apply toggle_flips in Hj. rewrite toggle_flips in Hj.
      destruct (in_dec Z.eq_dec k s); tauto.
    + apply toggle_others in Hj; [| assumption].
      apply toggle_others in Hj; assumption.
  - intros Hj. destruct (Z.eq_dec j k) as [-> | Hne].
    + apply toggle_flips. rewrite toggle_flips. tauto.
    + apply toggle_others; [assumption |].
      apply toggle_others; assumption.
Qed.

Example toggle_removes_every_copy :
  GameStore.toggle [1; 2; 1] 1 = [2]
  /\ GameStore.toggle (GameStore.toggle [1; 2; 1] 1) 1 = [2; 1].
Proof. split; reflexivity. Qed.

(** ** The quest tracker *)

Lemma goodWins_perm : forall qr qr' : list QuestResult,
  Permutation qr qr' -> QuestTracker.goodWins qr' = QuestTracker.goodWins qr.
Proof.
  intros qr qr' HP. unfold QuestTracker.goodWins, JS.length.
  f_equal. symmetry. now apply length_filter_perm.
Qed.

Lemma phase_is_eq : forall (p : option GamePhase) (q : GamePhase),
  phase_is p q = true <-> p = Some q.
Proof.
  intros [r |] q; simpl.
  - destruct r, q; simpl; split; intros H; try reflexivity; discriminate.
  - split; discriminate.
Qed.

(** C5.  The assassination stage is shown exactly when three quest results
    carry [success === true] or the phase is [assassination_discussion],
    [assassination] or [game_over]; the count ranges over the whole list,
    so any reordering of the results shows the same; and the tracker
    carries the stage once when it shows it (and not at all otherwise). *)
Theorem C5_showAssassination :
  forall (questResults : list QuestResult) (phase : option GamePhase),
    (QuestTracker.showAssassination questResults phase = true <->
       3 <= JS.length (filter QuestTracker.succeeded questResults)
       \/ phase = Some assassination_discussion
       \/ phase = Some assassination
       \/ phase = Some game_over)
    /\ (forall questResults', Permutation questResults questResults' ->
          QuestTracker.showAssassination questResults' phase
          = QuestTracker.showAssassination questResults phase)
    /\ List.length (filter QuestTracker.is_assassination_stage
                           (QuestTracker.stages questResults phase))
       = (if QuestTracker.showAssassination questResults phase then 1 else 0)%nat.
Proof.
  intros questResults phase. split; [| split].
  - unfold QuestTracker.showAssassination, QuestTracker.goodWins.
    rewrite !orb_true_iff, !phase_is_eq, Z.leb_le. tauto.
  - intros questResults' HP. unfold QuestTracker.showAssassination.
    now rewrite (goodWins_perm _ _ HP).
  - unfold QuestTracker.stages.
    destruct (QuestTracker.showAssassination questResults phase); reflexivity.
Qed.

Example assassination_after_three_successes_any_order :
  let ok r := mkQuestResult r (Some true) 0 [] [] in
  let ko r := mkQuestResult r (Some false) 1 [] [] in
  QuestTracker.showAssassination [ok 1; ko 2; ok 3; ko 4; ok 5] (Some team_selection) = true
  /\ QuestTracker.showAssassination [ko 1; ok 2; ok 3; ok 4] (Some team_selection) = true
  /\ QuestTracker.showAssassination [ok 1; ko 2; ok 3] (Some quest_execution) = false
  /\ QuestTracker.showAssassination [] (Some assassination) = true.
Proof. repeat split; reflexivity. Qed.

(** ** Replay navigation *)

Section ReplayBounds.

Variable states : list GameState.
Hypothesis nonempty : states <> [].

Lemma len_pos : 1 <= JS.length states.
Proof.
  unfold JS.length. destruct states; [contradiction | simpl; lia].
Qed.

Lemma autoPlayEffect_inv : forall p,
  Replay.inBounds states p -> Replay.replayInv states (Replay.autoPlayEffect states p).
Proof.
  intros p Hb. unfold Replay.replayInv, Replay.autoPlayEffect, Replay.inBounds, Replay.atEnd in *.
  destruct (Replay.playing p) eqn:Hp; simpl.
  - destruct (JS.length states - 1 <=? Replay.currentIndex p) eqn:E; simpl.
    + split; [assumption | discriminate].
    + apply Z.leb_gt in E. split; [assumption | intros _; assumption].
  - split; [assumption | discriminate].
Qed.

Lemma handlePrev_bounds : forall p,
  Replay.inBounds states p -> Replay.inBounds states (Replay.handlePrev p).
Proof.
  unfold Replay.inBounds, Replay.handlePrev. intros p H; simpl. lia.
Qed.

Lemma handleNext_bounds : forall p,
  Replay.inBounds states p -> Replay.inBounds states (Replay.handleNext states p).
Proof.
  unfold Replay.inBounds, Replay.handleNext. intros p H; simpl. lia.
Qed.

Lemma step_inv : forall p e, Replay.replayInv states p -> Replay.replayInv states (Replay.step states p e).
Proof.
  intros p e [Hb Hplay]. destruct e; simpl.
  - destruct (Replay.currentIndex p =? 0); [now split |].
    apply autoPlayEffect_inv, handlePrev_bounds, Hb.
  - destruct (Replay.atEnd states p); [now split |].
    apply autoPlayEffect_inv, handleNext_bounds, Hb.
  - destruct (Replay.atEnd states p); [now split |].
    apply autoPlayEffect_inv. exact Hb.
  - destruct (index <? List.length states)%nat eqn:E; [| now split].
    apply Nat.ltb_lt in E. apply autoPlayEffect_inv.
    unfold Replay.inBounds, Replay.handleSeek, JS.length; simpl. lia.
  - destruct (Replay.timerArmed states p) eqn:E; [| now split].
    unfold Replay.timerArmed in E. apply andb_true_iff in E as [E1 _].
    specialize (Hplay E1). apply autoPlayEffect_inv.
    unfold Replay.inBounds, Replay.tick in *; simpl. lia.
Qed.

Lemma run_inv : forall es, Replay.replayInv states (Replay.run states es).
Proof.
  intros es. unfold Replay.run.
  assert (H0 : Replay.replayInv states Replay.initial).
  { pose proof len_pos.
    unfold Replay.replayInv, Replay.inBounds, Replay.initial; simpl.
    split; [lia | discriminate]. }
  revert H0. generalize Replay.initial.
  induction es as [| e es IH]; intros p Hp; simpl.
  - exact Hp.
  - apply IH, step_inv, Hp.
Qed.

End ReplayBounds.

(** C10.  For a non-empty list of replay states and any sequence of page
    events (previous, next, play/pause, a timeline button, the auto-play
    timer), the index stays within [0, length - 1], so
    [states[currentIndex]] is a state; [handlePrev] never goes below 0 and
    [handleNext] never past [length - 1]; the timer never leaves the last
    state, and playback is off whenever the last state is shown. *)
Theorem C10_replay_index_in_bounds :
  forall (states : list GameState) (es : list Replay.Event),
    states <> [] ->
    0 <= Replay.currentIndex (Replay.run states es) <= JS.length states - 1
    /\ (exists s, Replay.currentState states (Replay.run states es) = Some s)
    /\ 0 <= Replay.currentIndex (Replay.handlePrev (Replay.run states es))
    /\ Replay.currentIndex (Replay.handleNext states (Replay.run states es))
       <= JS.length states - 1
    /\ Replay.currentIndex
         (Replay.step states (Replay.run states es) Replay.TimerFired)
       <= JS.length states - 1
    /\ (Replay.currentIndex (Replay.run states es) = JS.length states - 1 ->
        Replay.playing (Replay.run states es) = false).
Proof.
  intros states es Hne.
  destruct (run_inv states Hne es) as [Hb Hplay].
  pose proof (step_inv states _ Replay.TimerFired (conj Hb Hplay)) as [Hb' _].
  unfold Replay.inBounds in *.
  repeat split; try lia.
  - apply index_in_range. unfold JS.length in *. lia.
  - unfold Replay.handlePrev; simpl. lia.
  - unfold Replay.handleNext; simpl. lia.
  - intros Hlast. destruct (Replay.playing (Replay.run states es)); [| reflexivity].
    specialize (Hplay eq_refl). lia.
Qed.

(** ** Role and team badges on the board *)

Section RoleDisplay.

Variable ROLE_NAMES : string -> option string.

Lemma badges_hidden : forall player,
  PlayerCard.badges ROLE_NAMES false player = [].
Proof. reflexivity. Qed.

Lemma badges_need_field : forall showRole player,
  JS.truthy (role player) = false -> JS.truthy (team player) = false ->
  PlayerCard.badges ROLE_NAMES showRole player = [].
Proof.
  intros showRole player Hr Ht.
  unfold PlayerCard.badges, PlayerCard.roleBadge, PlayerCard.teamBadge.
  rewrite Hr, Ht. now destruct showRole.
Qed.

Lemma badge_shown_inv : forall showRole player b,
  In b (PlayerCard.badges ROLE_NAMES showRole player) ->
  showRole = true
  /\ (JS.truthy (role player) = true \/ JS.truthy (team player) = true).
Proof.
  intros showRole player b Hin. destruct showRole.
  - split; [reflexivity |].
    destruct (JS.truthy (role player)) eqn:Hr; [now left |].
    destruct (JS.truthy (team player)) eqn:Ht; [now right |].
    rewrite badges_need_field in Hin by assumption. contradiction.
  - rewrite badges_hidden in Hin. contradiction.
Qed.

Lemma showRoles_true_iff : forall gameState humanSeat godMode,
  GameBoard.showRoles gameState humanSeat godMode = true <->
  status gameState = finished \/ humanSeat <> GameBoard.seat_null \/ godMode = true.
Proof.
  intros gameState humanSeat godMode. unfold GameBoard.showRoles.
  rewrite !orb_true_iff. split.
  - intros [[H | H] | H].
    + left. destruct (status gameState); simpl in H; congruence.
    + right; left. destruct humanSeat; simpl in H; congruence.
    + right; right. assumption.
  - intros [H | [H | H]].
    + left; left. now rewrite H.
    + left; right. destruct humanSeat; simpl; congruence.
    + right. assumption.
Qed.

Lemma showRoles_finished : forall gameState humanSeat godMode,
  status gameState = finished ->
  GameBoard.showRoles gameState humanSeat godMode = true.
Proof. intros. apply showRoles_true_iff. now left. Qed.

End RoleDisplay.

Lemma badges_shown : forall (ROLE_NAMES : string -> option string) (player : Player),
  PlayerCard.badges ROLE_NAMES true player
  = if JS.truthy (role player)
    then [ PlayerCard.mkBadge (PlayerCard.teamVariant player)
             (PlayerCard.RoleText
                (JS.or_str (ROLE_NAMES (PlayerCard.role_str player))
                           (PlayerCard.role_str player))) ]
    else if JS.truthy (team player)
    then [ PlayerCard.mkBadge (PlayerCard.teamVariant player)
             (if JS.str_is (team player) "good"
              then PlayerCard.GoodTeamText else PlayerCard.EvilTeamText) ]
    else [].
Proof.
  intros ROLE_NAMES player.
  unfold PlayerCard.badges, PlayerCard.roleBadge, PlayerCard.teamBadge.
  destruct (JS.truthy (role player)), (JS.truthy (team player)); reflexivity.
Qed.

Lemma playerCards_shown : forall (ROLE_NAMES : string -> option string)
                                 (gameState : GameState)
                                 (humanSeat : GameBoard.HumanSeatProp)
                                 (godMode : bool),
  GameBoard.showRoles gameState humanSeat godMode = true ->
  GameBoard.playerCards ROLE_NAMES gameState humanSeat godMode
  = map (fun player =>
           (seat player,
            if JS.truthy (role player)
            then [ PlayerCard.mkBadge (PlayerCard.teamVariant player)
                     (PlayerCard.RoleText
                        (JS.or_str (ROLE_NAMES (PlayerCard.role_str player))
                                   (PlayerCard.role_str player))) ]
            else if JS.truthy (team player)
            then [ PlayerCard.mkBadge (PlayerCard.teamVariant player)
                     (if JS.str_is (team player) "good"
                      then PlayerCard.GoodTeamText else PlayerCard.EvilTeamText) ]
            else []))
        (players gameState).
Proof.
  intros ROLE_NAMES gameState humanSeat godMode Hshow.
  unfold GameBoard.playerCards. rewrite Hshow.
  apply map_ext. intros player. now rewrite badges_shown.
Qed.

(** C1.  On the board, a role or team badge appears on a card only when
    [showRoles] holds (the game is finished, [humanSeat] is not null, or
    god mode is on) and the player record carries a role or a team.  So an
    observer with a null seat and no god mode sees no badge on any card
    while the status is not finished; a record that was delivered without
    role and team (a seat outside the observer's knowledge) never gets a
    badge.  Once the status is finished every observer gets the same
    board, and that board shows, seat by seat, the role badge of every
    record that carries a role, else the team badge of a record that
    carries a team, else nothing: every role present in the state is on
    screen.  The same board is what any observer with a seat or with god
    mode gets while the game runs. *)
Theorem C1_role_display :
  forall (ROLE_NAMES : string -> option string) (gameState : GameState)
         (humanSeat : GameBoard.HumanSeatProp) (godMode : bool),
    (forall player b,
        In b (PlayerCard.badges ROLE_NAMES
                (GameBoard.showRoles gameState humanSeat godMode)
                (GameBoard.cardPlayer gameState player)) ->
        (status gameState = finished \/ humanSeat <> GameBoard.seat_null
         \/ godMode = true)
        /\ (JS.truthy (role player) = true \/ JS.truthy (team player) = true))
    /\ (humanSeat = GameBoard.seat_null -> godMode = false ->
        status gameState <> finished ->
        GameBoard.playerCards ROLE_NAMES gameState humanSeat godMode
        = map (fun player => (seat player, [])) (players gameState)
        /\ forall card,
             In card (GameBoard.playerCards ROLE_NAMES gameState humanSeat godMode) ->
             snd card = [])
    /\ (forall player,
          JS.truthy (role player) = false -> JS.truthy (team player) = false ->
          PlayerCard.badges ROLE_NAMES
            (GameBoard.showRoles gameState humanSeat godMode)
            (GameBoard.cardPlayer gameState player) = [])
    /\ (status gameState = finished ->
        (forall humanSeat' godMode',
            GameBoard.playerCards ROLE_NAMES gameState humanSeat' godMode'
            = GameBoard.playerCards ROLE_NAMES gameState humanSeat godMode)
        /\ GameBoard.playerCards ROLE_NAMES gameState humanSeat godMode
           = map (fun player =>
                    (seat player,
                     if JS.truthy (role player)
                     then [ PlayerCard.mkBadge (PlayerCard.teamVariant player)
                              (PlayerCard.RoleText
                                 (JS.or_str (ROLE_NAMES (PlayerCard.role_str player))
                                            (PlayerCard.role_str player))) ]
                     else if JS.truthy (team player)
                     then [ PlayerCard.mkBadge (PlayerCard.teamVariant player)
                              (if JS.str_is (team player) "good"
                               then PlayerCard.GoodTeamText
                               else PlayerCard.EvilTeamText) ]
                     else []))
                 (players gameState)
        /\ (forall player,
              In player (players gameState) ->
              JS.truthy (role player) = true ->
              In (seat player,
                  [ PlayerCard.mkBadge (PlayerCard.teamVariant player)
                      (PlayerCard.RoleText
                         (JS.or_str (ROLE_NAMES (PlayerCard.role_str player))
                                    (PlayerCard.role_str player))) ])
                 (GameBoard.playerCards ROLE_NAMES gameState humanSeat godMode))
        /\ (forall player,
              JS.truthy (role player) = true ->
              PlayerCard.roleBadge ROLE_NAMES
                (GameBoard.showRoles gameState humanSeat godMode)
                (GameBoard.cardPlayer gameState player)
              = [ PlayerCard.mkBadge
                    (PlayerCard.teamVariant player)
                    (PlayerCard.RoleText
                       (JS.or_str (ROLE_NAMES (PlayerCard.role_str player))
                                  (PlayerCard.role_str player))) ]))
    /\ (humanSeat <> GameBoard.seat_null \/ godMode = true ->
        forall player,
          In player (players gameState) ->
          JS.truthy (role player) = true ->
          In (seat player,
              [ PlayerCard.mkBadge (PlayerCard.teamVariant player)
                  (PlayerCard.RoleText
                     (JS.or_str (ROLE_NAMES (PlayerCard.role_str player))
                                (PlayerCard.role_str player))) ])
             (GameBoard.playerCards ROLE_NAMES gameState humanSeat godMode)).
Proof.
  intros ROLE_NAMES gameState humanSeat godMode.
  assert (Hrole : GameBoard.showRoles gameState humanSeat godMode = true ->
                  forall player,
                    In player (players gameState) ->
                    JS.truthy (role player) = true ->
                    In (seat player,
                        [ PlayerCard.mkBadge (PlayerCard.teamVariant player)
                            (PlayerCard.RoleText
                               (JS.or_str (ROLE_NAMES (PlayerCard.role_str player))
                                          (PlayerCard.role_str player))) ])
                       (GameBoard.playerCards ROLE_NAMES gameState humanSeat godMode)).
  { intros Hshow player Hin Hr. rewrite (playerCards_shown _ _ _ _ Hshow).
    apply in_map_iff. exists player. split; [| assumption]. now rewrite Hr. }
  split; [| split; [| split; [| split]]].
  - intros player b Hin. apply badge_shown_inv in Hin as [Hs Hf].
    apply showRoles_true_iff in Hs. now split.
  - intros Hnull Hgod Hstatus. subst humanSeat godMode.
    assert (Hhide : GameBoard.showRoles gameState GameBoard.seat_null false = false).
    { unfold GameBoard.showRoles. destruct (status gameState); simpl; congruence. }
    assert (Hcards : GameBoard.playerCards ROLE_NAMES gameState GameBoard.seat_null false
                     = map (fun player => (seat player, [])) (players gameState)).
    { unfold GameBoard.playerCards. rewrite Hhide. apply map_ext.
      intros player. now rewrite badges_hidden. }
    split; [exact Hcards |]. intros card Hin. rewrite Hcards in Hin.
    apply in_map_iff in Hin as [p [<- _]]. reflexivity.
  - intros player Hr Ht. now apply badges_need_field.
  - intros Hfin.
    pose proof (showRoles_finished gameState humanSeat godMode Hfin) as Hshow.
    split; [| split; [| split]].
    + intros humanSeat' godMode'. unfold GameBoard.playerCards.
      now rewrite !showRoles_finished.
    + now apply playerCards_shown.
    + now apply Hrole.
    + intros player Hr. rewrite Hshow.
      unfold PlayerCard.roleBadge. simpl. now rewrite Hr.
  - intros Hpriv. apply Hrole. apply showRoles_true_iff. now right.
Qed.

Example board_of_a_running_game :
  let p0 := mkPlayer 0 "Ann" true (Some "merlin"%string) (Some "good"%string) None None None in
  let p1 := mkPlayer 1 "Bob" false None None (Some "m"%string) None None in
  let gs st := mkGameState "g" st team_vote 1 0 1 [] 5 [p0; p1] [] [] [] None
                            None None false None in
  let names := fun _ : string => @None string in
  GameBoard.playerCards names (gs in_progress) GameBoard.seat_null false
  = [(0, []); (1, [])]
  /\ GameBoard.playerCards names (gs in_progress) (GameBoard.seat_num 0) false
     = [(0, [PlayerCard.mkBadge PlayerCard.default (PlayerCard.RoleText "merlin")]);
        (1, [])]
  /\ GameBoard.playerCards names (gs finished) GameBoard.seat_null false
     = GameBoard.playerCards names (gs in_progress) (GameBoard.seat_num 0) false.
Proof. repeat split; reflexivity. Qed.

(** The replay page renders the board without the [humanSeat] prop; an
    omitted prop is [undefined], which is not [null]. *)
Example omitted_humanSeat_is_not_null :
  forall gameState, GameBoard.showRoles gameState GameBoard.seat_undefined false = true.
Proof.
  intros gameState. unfold GameBoard.showRoles. simpl.
  now rewrite orb_true_r.
Qed.

(** ** The human controls *)

Section Controls.

Variable trim : string -> string.
Variables (gameState : GameState) (humanSeat : option Z).
Variable selectedPlayers : list Z.

Lemma isEvil_team : 
  HumanControls.isEvil gameState humanSeat = true <->
  exists p, HumanControls.player gameState humanSeat = Some p
            /\ team p = Some "evil"%string.
Proof.
  unfold HumanControls.isEvil.
  destruct (HumanControls.player gameState humanSeat) as [p |].
  - unfold JS.str_is. destruct (team p) as [t |] eqn:Ht.
    + rewrite String.eqb_eq. split.
      * intros ->. now exists p.
      * intros [p' [Hp Hteam]]. congruence.
    + split; [discriminate | intros [p' [Hp Hteam]]; congruence].
  - split; [discriminate | intros [p' [Hp _]]; discriminate].
Qed.

(** Every callback of a session comes from an enabled control rendered
    for some text input. *)
Lemma session_calls : forall es input c,
  In c (HumanControls.session trim gameState humanSeat selectedPlayers input es) ->
  exists input' b,
    In b (HumanControls.controls trim gameState humanSeat selectedPlayers input')
    /\ HumanControls.disabled b = false
    /\ In c (HumanControls.calls b).
Proof.
  induction es as [| e es IH]; intros input c Hin; simpl in Hin.
  - contradiction.
  - destruct e as [i | s]; simpl in Hin.
    + destruct (nth_error (HumanControls.controls trim gameState humanSeat
                             selectedPlayers input) i) as [b |] eqn:Hb.
      * destruct (HumanControls.disabled b) eqn:Hd.
        -- simpl in Hin. eapply IH; eassumption.
        -- apply in_app_or in Hin as [Hin | Hin].
           ++ exists input, b. split; [eapply nth_error_In; eassumption |].
              split; assumption.
           ++ eapply IH; eassumption.
      * simpl in Hin. eapply IH; eassumption.
    + eapply IH; eassumption.
Qed.

Lemma controls_questVote : forall input b success,
  In b (HumanControls.controls trim gameState humanSeat selectedPlayers input) ->
  In (HumanControls.onQuestVote success) (HumanControls.calls b) ->
  human_action_type gameState = Some act_quest
  /\ (success = true \/ HumanControls.isEvil gameState humanSeat = true).
Proof.
  intros input b success Hb Hc. unfold HumanControls.controls in Hb.
  destruct (human_action_type gameState) as [[] |]; simpl in Hb.
  - destruct Hb as [<- | []]. simpl in Hc. destruct Hc as [Hc | []]. discriminate.
  - destruct Hb as [<- | []]. unfold HumanControls.sendDiscussionButton in Hc.
    destruct (HumanControls.nonblank trim input); simpl in Hc;
      [destruct Hc as [Hc | []]; discriminate | contradiction].
  - destruct Hb as [<- | []]. unfold HumanControls.sendDiscussionButton in Hc.
    destruct (HumanControls.nonblank trim input); simpl in Hc;
      [destruct Hc as [Hc | []]; discriminate | contradiction].
  - destruct Hb as [<- | [<- | []]]; simpl in Hc; destruct Hc as [Hc | []];
      discriminate.
  - split; [reflexivity |]. unfold HumanControls.questButtons in Hb.
    destruct (HumanControls.isEvil gameState humanSeat); [now right |].
    destruct Hb as [<- | []]. simpl in Hc. destruct Hc as [Hc | []].
    left. congruence.
  - destruct Hb as [<- | []].
    unfold HumanControls.sendAssassinationDiscussionButton in Hc.
    destruct (HumanControls.nonblank trim input); simpl in Hc;
      [destruct Hc as [Hc | []]; discriminate | contradiction].
  - destruct selectedPlayers; simpl in Hb; [contradiction |].
    destruct Hb as [<- | []]. simpl in Hc. destruct Hc as [Hc | []]. discriminate.
  - contradiction.
Qed.

Lemma controls_teamSelect : forall input b speech,
  In b (HumanControls.controls trim gameState humanSeat selectedPlayers input) ->
  In (HumanControls.onTeamSelect speech) (HumanControls.calls b) ->
  HumanControls.disabled b = false ->
  JS.length selectedPlayers = HumanControls.requiredSize gameState.
Proof.
  intros input b speech Hb Hc Hd. unfold HumanControls.controls in Hb.
  destruct (human_action_type gameState) as [[] |]; simpl in Hb.
  - destruct Hb as [<- | []]. simpl in Hd.
    apply negb_false_iff, Z.eqb_eq in Hd. exact Hd.
  - destruct Hb as [<- | []]. unfold HumanControls.sendDiscussionButton in Hc.
    destruct (HumanControls.nonblank trim input); simpl in Hc;
      [destruct Hc as [Hc | []]; discriminate | contradiction].
  - destruct Hb as [<- | []]. unfold HumanControls.sendDiscussionButton in Hc.
    destruct (HumanControls.nonblank trim input); simpl in Hc;
      [destruct Hc as [Hc | []]; discriminate | contradiction].
  - destruct Hb as [<- | [<- | []]]; simpl in Hc; destruct Hc as [Hc | []];
      discriminate.
  - unfold HumanControls.questButtons in Hb.
    destruct (HumanControls.isEvil gameState humanSeat);
      [destruct Hb as [<- | [<- | []]] | destruct Hb as [<- | []]];
      simpl in Hc; destruct Hc as [Hc | []]; discriminate.
  - destruct Hb as [<- | []].
    unfold HumanControls.sendAssassinationDiscussionButton in Hc.
    destruct (HumanControls.nonblank trim input); simpl in Hc;
      [destruct Hc as [Hc | []]; discriminate | contradiction].
  - destruct selectedPlayers; simpl in Hb; [contradiction |].
    destruct Hb as [<- | []]. simpl in Hc. destruct Hc as [Hc | []]. discriminate.
  - contradiction.
Qed.

Lemma handle_questVote : forall id c gid success,
  In (Game.sendQuestVote gid success) (Game.handle id selectedPlayers c) ->
  c = HumanControls.onQuestVote success.
Proof.
  intros id c gid success Hin. unfold Game.handle in Hin.
  destruct id as [g |]; [| contradiction].
  destruct (JS.truthy (Some g)); [| contradiction].
  destruct c; simpl in Hin;
    try (destruct Hin as [Hin | []]; congruence).
  destruct (0 <? JS.length selectedPlayers); simpl in Hin;
    [destruct Hin as [Hin | []]; discriminate | contradiction].
Qed.

Lemma handle_teamSelect : forall id c gid team speech,
  In (Game.sendTeamSelect gid team speech) (Game.handle id selectedPlayers c) ->
  team = selectedPlayers /\ c = HumanControls.onTeamSelect speech.
Proof.
  intros id c gid team speech Hin. unfold Game.handle in Hin.
  destruct id as [g |]; [| contradiction].
  destruct (JS.truthy (Some g)); [| contradiction].
  destruct c; simpl in Hin;
    try (destruct Hin as [Hin | []]; discriminate).
  destruct (0 <? JS.length selectedPlayers); simpl in Hin; [| contradiction].
  destruct Hin as [Hin | []]. inversion Hin. now split.
Qed.

End Controls.

(** C2.  For a human whose player record does not have team ['evil']
    (including a seat with no record), the quest block offers a single
    enabled button, which calls [onQuestVote(true)]; whatever the human
    clicks and types while that snapshot is shown, every quest vote the
    controls emit, and every quest vote the page then sends on the socket,
    is a success.  Hence a fail vote needs a record with team ['evil']. *)
Theorem C2_good_player_votes_success :
  forall (trim : string -> string) (gameState : GameState)
         (humanSeat : option Z) (selectedPlayers : list Z) (input : string),
    (forall p, HumanControls.player gameState humanSeat = Some p ->
               team p <> Some "evil"%string) ->
    (human_action_type gameState = Some act_quest ->
       HumanControls.controls trim gameState humanSeat selectedPlayers input
       = [HumanControls.mkButton [HumanControls.onQuestVote true] false false])
    /\ (forall es success,
          In (HumanControls.onQuestVote success)
             (HumanControls.session trim gameState humanSeat selectedPlayers input es) ->
          success = true)
    /\ (forall es id gid success,
          In (Game.sendQuestVote gid success)
             (flat_map (Game.handle id selectedPlayers)
                (HumanControls.session trim gameState humanSeat selectedPlayers input es)) ->
          success = true).
Proof.
  intros trim gameState humanSeat selectedPlayers input Hgood.
  assert (Hne : HumanControls.isEvil gameState humanSeat = false).
  { destruct (HumanControls.isEvil gameState humanSeat) eqn:E; [| reflexivity].
    apply isEvil_team in E as [p [Hp Hteam]]. now apply Hgood in Hp. }
  assert (Hsession : forall es success,
             In (HumanControls.onQuestVote success)
                (HumanControls.session trim gameState humanSeat selectedPlayers input es) ->
             success = true).
  { intros es success Hin.
    apply session_calls in Hin as [input' [b [Hb [_ Hc]]]].
    destruct (controls_questVote _ _ _ _ _ _ _ Hb Hc) as [_ [H | H]]; congruence. }
  split; [| split].
  - intros Hq. unfold HumanControls.controls, HumanControls.questButtons.
    now rewrite Hq, Hne.
  - exact Hsession.
  - intros es id gid success Hin.
    apply in_flat_map in Hin as [c [Hc Hsend]].
    apply handle_questVote in Hsend. subst c. eapply Hsession, Hc.
Qed.

Lemma C2_witness :
  HumanControls.controls (fun s => s) good_at_quest (Some 0) [] EmptyString
  = [HumanControls.mkButton [HumanControls.onQuestVote true] false false].
Proof.
  apply (C2_good_player_votes_success (fun s => s) good_at_quest (Some 0) []
           EmptyString).
  - intros p Hp. vm_compute in Hp. injection Hp as <-. simpl. discriminate.
  - reflexivity.
Defined.

(** An evil human at the same decision point does have the fail button. *)
Example evil_player_can_fail :
  HumanControls.session (fun s => s) good_at_quest (Some 1) [] EmptyString
    [HumanControls.Click 1; HumanControls.Click 0; HumanControls.Click 2]
  = [HumanControls.onQuestVote false; HumanControls.onQuestVote true]
  /\ HumanControls.session (fun s => s) good_at_quest (Some 0) [] EmptyString
       [HumanControls.Click 1; HumanControls.Click 0; HumanControls.Click 2]
     = [HumanControls.onQuestVote true].
Proof. split; reflexivity. Qed.

(** ** Team size at submission *)

(** C3 as stated fails: with seven players in round 2 the table asks for
    three seats, but the confirm button is enabled for a selection of two
    (the component's table has no row for seven players). *)
Lemma C3_counterexample :
  ~ (forall (trim : string -> string) (gameState : GameState)
            (selectedPlayers : list Z) (input : string),
        5 <= player_count gameState <= 10 ->
        1 <= current_round gameState <= 5 ->
        HumanControls.disabled
          (HumanControls.teamSubmitButton trim gameState selectedPlayers input)
        = false ->
        Some (JS.length selectedPlayers)
        = Rules.teamSize (player_count gameState) (current_round gameState)).
Proof.
  intros H.
  specialize (H (fun s => s) seven_players_round_two [0; 1] EmptyString).
  simpl in H. vm_compute in H.
  assert (Hfalse : Some 2 = Some 3).
  { apply H; try reflexivity; split; discriminate. }
  discriminate.
Qed.

Example seven_players_cannot_submit_three :
  HumanControls.disabled
    (HumanControls.teamSubmitButton (fun s => s) seven_players_round_two
       [0; 1; 2] EmptyString) = true
  /\ Rules.teamSize 7 2 = Some 3
  /\ HumanControls.requiredSize seven_players_round_two = 2.
Proof. repeat split; reflexivity. Qed.

Lemma requiredSize_five_six : forall gameState,
  5 <= player_count gameState <= 6 ->
  1 <= current_round gameState <= 5 ->
  Rules.teamSize (player_count gameState) (current_round gameState)
  = Some (HumanControls.requiredSize gameState).
Proof.
  intros gameState Hpc Hr.
  unfold HumanControls.requiredSize, Rules.teamSize.
  assert (Hc : player_count gameState = 5 \/ player_count gameState = 6) by lia.
  assert (Hround : current_round gameState = 1 \/ current_round gameState = 2
                   \/ current_round gameState = 3 \/ current_round gameState = 4
                   \/ current_round gameState = 5) by lia.
  destruct Hc as [-> | ->];
    destruct Hround as [-> | [-> | [-> | [-> | ->]]]]; reflexivity.
Qed.

Lemma requiredSize_fallback : forall gameState,
  player_count gameState <> 5 -> player_count gameState <> 6 ->
  HumanControls.requiredSize gameState = 2.
Proof.
  intros gameState H5 H6. unfold HumanControls.requiredSize.
  replace (HumanControls.QUEST_SIZES (player_count gameState)) with (@None (list Z));
    [reflexivity |].
  unfold HumanControls.QUEST_SIZES.
  destruct (player_count gameState) as [| p | p]; try reflexivity.
  repeat (destruct p as [p | p |]; try reflexivity; try congruence).
Qed.

(** C3, amended.  With five or six players and a round in 1..5, the
    confirm button is enabled exactly when the number of selected seats is
    the table's team size for that player count and round; so every team
    submission the controls emit, and every team the page sends (which is
    the selection itself), has exactly the required size. *)
Theorem C3_team_size_five_six :
  forall (trim : string -> string) (gameState : GameState)
         (humanSeat : option Z) (selectedPlayers : list Z) (input : string),
    5 <= player_count gameState <= 6 ->
    1 <= current_round gameState <= 5 ->
    (HumanControls.disabled
       (HumanControls.teamSubmitButton trim gameState selectedPlayers input) = false
     <-> Some (JS.length selectedPlayers)
         = Rules.teamSize (player_count gameState) (current_round gameState))
    /\ (forall es speech,
          In (HumanControls.onTeamSelect speech)
             (HumanControls.session trim gameState humanSeat selectedPlayers input es) ->
          Some (JS.length selectedPlayers)
          = Rules.teamSize (player_count gameState) (current_round gameState))
    /\ (forall es id gid team speech,
          In (Game.sendTeamSelect gid team speech)
             (flat_map (Game.handle id selectedPlayers)
                (HumanControls.session trim gameState humanSeat selectedPlayers input es)) ->
          team = selectedPlayers
          /\ Some (JS.length team)
             = Rules.teamSize (player_count gameState) (current_round gameState)).
Proof.
  intros trim gameState humanSeat selectedPlayers input Hpc Hr.
  rewrite (requiredSize_five_six gameState Hpc Hr).
  assert (Hsession : forall es speech,
             In (HumanControls.onTeamSelect speech)
                (HumanControls.session trim gameState humanSeat selectedPlayers input es) ->
             Some (JS.length selectedPlayers)
             = Some (HumanControls.requiredSize gameState)).
  { intros es speech Hin.
    apply session_calls in Hin as [input' [b [Hb [Hd Hc]]]].
    f_equal. eapply controls_teamSelect; eassumption. }
  split; [| split].
  - simpl. rewrite negb_false_iff, Z.eqb_eq. split; congruence.
  - exact Hsession.
  - intros es id gid team speech Hin.
    apply in_flat_map in Hin as [c [Hc Hsend]].
    apply handle_teamSelect in Hsend as [-> ->]. split; [reflexivity |].
    eapply Hsession, Hc.
Qed.

Lemma C3_witness :
  HumanControls.disabled
    (HumanControls.teamSubmitButton (fun s => s) five_players_round_two
       [0; 1; 2] EmptyString) = false
  <-> Some (JS.length [0; 1; 2]) = Rules.teamSize 5 2.
Proof.
  apply (C3_team_size_five_six (fun s => s) five_players_round_two (Some 1)
           [0; 1; 2] EmptyString); simpl; lia.
Defined.

(** ** The size table lookup and the player count of the creation form *)

Lemma QUEST_SIZES_in_range : forall playerCount,
  5 <= playerCount <= 10 ->
  exists a b c d e, QuestTracker.QUEST_SIZES playerCount = Some [a; b; c; d; e]
                    /\ 0 < a /\ 0 < b /\ 0 < c /\ 0 < d /\ 0 < e.
Proof.
  intros playerCount H.
  assert (Hc : playerCount = 5 \/ playerCount = 6 \/ playerCount = 7
               \/ playerCount = 8 \/ playerCount = 9 \/ playerCount = 10) by lia.
  destruct Hc as [-> | [-> | [-> | [-> | [-> | ->]]]]]; simpl;
    do 5 eexists; (split; [reflexivity | repeat split; lia]).
Qed.

Lemma QUEST_SIZES_out_of_range : forall playerCount,
  ~ 5 <= playerCount <= 10 -> QuestTracker.QUEST_SIZES playerCount = None.
Proof.
  intros playerCount H. unfold QuestTracker.QUEST_SIZES.
  destruct playerCount as [| p | p]; try reflexivity.
  repeat (destruct p as [p | p |]; try reflexivity; try lia).
Qed.

Lemma roundSize_defined : forall playerCount round,
  1 <= round <= 5 ->
  exists n, QuestTracker.roundSize playerCount round = Some n /\ 0 < n.
Proof.
  intros playerCount round Hr.
  assert (Hsizes : exists a b c d e,
             QuestTracker.questSizes playerCount = [a; b; c; d; e]
             /\ 0 < a /\ 0 < b /\ 0 < c /\ 0 < d /\ 0 < e).
  { unfold QuestTracker.questSizes.
    destruct (Z_le_dec 5 playerCount) as [H5 |];
      [destruct (Z_le_dec playerCount 10) as [H10 |] |].
    - destruct (QUEST_SIZES_in_range playerCount (conj H5 H10))
        as (a & b & c & d & e & -> & Hpos).
      now exists a, b, c, d, e.
    - rewrite QUEST_SIZES_out_of_range by lia.
      do 5 eexists; (split; [reflexivity | repeat split; lia]).
    - rewrite QUEST_SIZES_out_of_range by lia.
      do 5 eexists; (split; [reflexivity | repeat split; lia]). }
  destruct Hsizes as (a & b & c & d & e & Hs & Ha & Hb & Hc & Hd & He).
  unfold QuestTracker.roundSize. rewrite Hs.
  assert (Hround : round = 1 \/ round = 2 \/ round = 3 \/ round = 4 \/ round = 5)
    by lia.
  destruct Hround as [-> | [-> | [-> | [-> | ->]]]];
    cbn; eexists; (split; [reflexivity | assumption]).
Qed.

Lemma click_keeps_range : forall c b, 5 <= c <= 6 -> 5 <= Home.click c b <= 6.
Proof.
  intros c b H. unfold Home.click, Home.countButtonDisabled, Home.updatePlayerCount.
  destruct b.
  - destruct (c <=? 5); lia.
  - destruct (6 <=? c); lia.
Qed.

Lemma playerCountAfter_range : forall clicks,
  5 <= Home.playerCountAfter clicks <= 6.
Proof.
  intros clicks. unfold Home.playerCountAfter.
  assert (H0 : 5 <= Home.initialPlayerCount <= 6) by (unfold Home.initialPlayerCount; lia).
  revert H0. generalize Home.initialPlayerCount.
  induction clicks as [| b clicks IH]; intros c Hc; simpl.
  - exact Hc.
  - apply IH, click_keeps_range, Hc.
Qed.

(** C4 as stated fails: the lookup does not fail outside 5..10.  For
    eleven players the tracker prints the five-player size of round 1. *)
Lemma C4_counterexample :
  ~ (forall playerCount round : Z,
        ~ 5 <= playerCount <= 10 -> 1 <= round <= 5 ->
        QuestTracker.roundSize playerCount round = None).
Proof.
  intros H. specialize (H 11 1). vm_compute in H.
  assert (Hfalse : Some 2 = @None Z).
  { apply H; [intros [_ Hle]; apply Hle; reflexivity | split; discriminate]. }
  discriminate.
Qed.

(** C4, amended.  The lookup is a total function of the player count and
    never fails: in every round 1..5 the tracker has a positive size to
    print; inside 5..10 it is the table's entry, outside it is the
    five-player entry; the human controls require 2 seats for every player
    count other than 5 and 6.  The creation form starts at 5 players and
    its two buttons keep the count within 5..6, so every creation request
    it sends carries a count within 5..10. *)
Theorem C4_rule_table_lookup :
  forall (playerCount round : Z),
    1 <= round <= 5 ->
    (exists n, QuestTracker.roundSize playerCount round = Some n /\ 0 < n)
    /\ (5 <= playerCount <= 10 ->
        QuestTracker.roundSize playerCount round = Rules.teamSize playerCount round)
    /\ (~ 5 <= playerCount <= 10 ->
        QuestTracker.questSizes playerCount = [2; 3; 2; 3; 3]
        /\ QuestTracker.roundSize playerCount round = QuestTracker.roundSize 5 round)
    /\ (forall gameState,
          player_count gameState = playerCount ->
          playerCount <> 5 -> playerCount <> 6 ->
          HumanControls.requiredSize gameState = 2)
    /\ (forall clicks, 5 <= Home.playerCountAfter clicks <= 6)
    /\ (forall clicks players request,
          Home.handleCreateGame (Home.playerCountAfter clicks) players = Some request ->
          5 <= Home.req_player_count request <= 10).
Proof.
  intros playerCount round Hr.
  split; [| split; [| split; [| split; [| split]]]].
  - now apply roundSize_defined.
  - intros Hpc. unfold QuestTracker.roundSize, QuestTracker.questSizes, Rules.teamSize.
    destruct (QUEST_SIZES_in_range playerCount Hpc) as (a & b & c & d & e & -> & _).
    reflexivity.
  - intros Hout. unfold QuestTracker.roundSize, QuestTracker.questSizes.
    rewrite QUEST_SIZES_out_of_range by assumption. split; reflexivity.
  - intros gameState <- H5 H6. now apply requiredSize_fallback.
  - apply playerCountAfter_range.
  - intros clicks configs request Hreq. unfold Home.handleCreateGame in Hreq.
    destruct (existsb Home.lacksModel configs); [discriminate |].
    injection Hreq as <-. simpl. pose proof (playerCountAfter_range clicks). lia.
Qed.

Lemma C4_witness :
  exists n, QuestTracker.roundSize 11 4 = Some n /\ 0 < n.
Proof.
  apply (C4_rule_table_lookup 11 4). lia.
Defined.

Example form_count_stays_five_or_six :
  Home.playerCountAfter [Home.Plus; Home.Plus; Home.Plus] = 6
  /\ Home.playerCountAfter [Home.Minus; Home.Plus; Home.Minus; Home.Minus] = 5.
Proof. split; reflexivity. Qed.

(** ** The discussion selections *)

Lemma preserved_app : forall (s : Discussion.Store) (extra : list Discussion.Array),
  Discussion.preserved s (s ++ extra).
Proof.
  intros s extra r a H. rewrite nth_error_app1; [assumption |].
  apply nth_error_Some. congruence.
Qed.

Lemma preserved_trans : forall s1 s2 s3 : Discussion.Store,
  Discussion.preserved s1 s2 -> Discussion.preserved s2 s3 ->
  Discussion.preserved s1 s3.
Proof. intros s1 s2 s3 H12 H23 r a H. auto. Qed.

(** One render, on a store where the three props are arrays of the
    expected kinds: it succeeds, allocates the two filtered arrays at the
    end of the store, and the selections hold the filtered contents. *)
Lemma select_runs : forall p s ms vs qs,
  nth_error s (Discussion.messages p) = Some (Discussion.MessageArray ms) ->
  nth_error s (Discussion.votes p) = Some (Discussion.VoteArray vs) ->
  nth_error s (Discussion.questResults p) = Some (Discussion.QuestArray qs) ->
  exists sel s',
    Discussion.select p s = Some (sel, s')
    /\ Discussion.preserved s s'
    /\ Discussion.shown sel s'
       = Some (Discussion.filteredMessages ms (Discussion.displayRound p),
               Discussion.filteredVotes vs (Discussion.displayRound p),
               Discussion.questResult qs (Discussion.displayRound p)).
Proof.
  intros p s ms vs qs Hm Hv Hq.
  set (fm := Discussion.MessageArray
               (Discussion.filteredMessages ms (Discussion.displayRound p))).
  set (fv := Discussion.VoteArray
               (Discussion.filteredVotes vs (Discussion.displayRound p))).
  assert (Hv1 : nth_error (s ++ [fm]) (Discussion.votes p)
                = Some (Discussion.VoteArray vs)) by now apply preserved_app.
  assert (Hq2 : nth_error ((s ++ [fm]) ++ [fv]) (Discussion.questResults p)
                = Some (Discussion.QuestArray qs)) by now do 2 apply preserved_app.
  exists (Discussion.mkSelections (List.length s) (List.length (s ++ [fm]))
            (Discussion.questResult qs (Discussion.displayRound p))),
         ((s ++ [fm]) ++ [fv]).
  split; [| split].
  - unfold Discussion.select, Discussion.bind, Discussion.getMessages,
      Discussion.getVotes, Discussion.getQuestResults, Discussion.newArray,
      Discussion.ret.
    rewrite Hm. fold fm. rewrite Hv1. fold fv. rewrite Hq2. reflexivity.
  - eapply preserved_trans; apply preserved_app.
  - unfold Discussion.shown; simpl.
    rewrite (nth_error_app1 (s ++ [fm]) [fv])
      by (rewrite length_app; simpl; lia).
    rewrite (nth_error_app2 s [fm]) by lia. rewrite Nat.sub_diag. simpl.
    rewrite (nth_error_app2 (s ++ [fm]) [fv]) by lia.
    rewrite Nat.sub_diag. reflexivity.
Qed.

(** C6.  Computing the round-filtered messages, the round-filtered votes
    and the round's quest result reads the input arrays and leaves every
    array of the store, the inputs included, as it was; computing them a
    second time for the same props, in the store as the first computation
    left it, shows exactly the same contents, namely the filters of the
    inputs by [displayRound]. *)
Theorem C6_selections_pure :
  forall (p : Discussion.Props) (s : Discussion.Store)
         (ms : list DiscussionMessage) (vs : list VoteResult)
         (qs : list QuestResult),
    nth_error s (Discussion.messages p) = Some (Discussion.MessageArray ms) ->
    nth_error s (Discussion.votes p) = Some (Discussion.VoteArray vs) ->
    nth_error s (Discussion.questResults p) = Some (Discussion.QuestArray qs) ->
    exists sel1 s1 sel2 s2,
      Discussion.select p s = Some (sel1, s1)
      /\ Discussion.select p s1 = Some (sel2, s2)
      /\ Discussion.preserved s s1
      /\ Discussion.preserved s s2
      /\ Discussion.shown sel2 s2 = Discussion.shown sel1 s1
      /\ Discussion.shown sel1 s1
         = Some (Discussion.filteredMessages ms (Discussion.displayRound p),
                 Discussion.filteredVotes vs (Discussion.displayRound p),
                 Discussion.questResult qs (Discussion.displayRound p)).
Proof.
  intros p s ms vs qs Hm Hv Hq.
  destruct (select_runs p s ms vs qs Hm Hv Hq) as (sel1 & s1 & Hrun1 & Hp1 & Hshown1).
  destruct (select_runs p s1 ms vs qs (Hp1 _ _ Hm) (Hp1 _ _ Hv) (Hp1 _ _ Hq))
    as (sel2 & s2 & Hrun2 & Hp2 & Hshown2).
  exists sel1, s1, sel2, s2. repeat split; try assumption.
  - eapply preserved_trans; eassumption.
  - congruence.
Qed.

Lemma C6_witness :
  exists sel1 s1 sel2 s2,
    Discussion.select sample_props sample_store = Some (sel1, s1)
    /\ Discussion.select sample_props s1 = Some (sel2, s2)
    /\ Discussion.preserved sample_store s1
    /\ Discussion.preserved sample_store s2
    /\ Discussion.shown sel2 s2 = Discussion.shown sel1 s1
    /\ Discussion.shown sel1 s1
       = Some ([mkDiscussionMessage 0 "Ann" "go" None None None],
               [mkVoteResult 1 1 [(0, true); (1, false)] false],
               Some (mkQuestResult 1 (Some true) 0 [0; 1] [])).
Proof.
  apply (C6_selections_pure sample_props sample_store
           [ mkDiscussionMessage 0 "Ann" "go" None None None;
             mkDiscussionMessage 1 "Bob" "no" None (Some 2) (Some 1) ]
           [ mkVoteResult 1 1 [(0, true); (1, false)] false ]
           [ mkQuestResult 1 (Some true) 0 [0; 1] [] ]); reflexivity.
Defined.

Example second_render_allocates_but_shows_the_same :
  exists sel1 s1 sel2 s2,
    Discussion.select sample_props sample_store = Some (sel1, s1)
    /\ Discussion.select sample_props s1 = Some (sel2, s2)
    /\ Discussion.sel_messages sel1 = 3%nat
    /\ Discussion.sel_messages sel2 = 5%nat
    /\ List.length s2 = 7%nat
    /\ firstn 3 s2 = sample_store.
Proof. do 4 eexists. repeat split. Qed.

Example selections_of_round_one :
  let m r := mkDiscussionMessage 0 "Ann" "hi" None r None in
  let v r := mkVoteResult r 1 [] true in
  Discussion.filteredMessages [m None; m (Some 0); m (Some 1); m (Some 2)] 1
  = [m None; m (Some 0); m (Some 1)]
  /\ Discussion.filteredVotes [v 1; v 2; v 1] 1 = [v 1; v 1]
  /\ Discussion.questResult [] 1 = None.
Proof. repeat split; reflexivity. Qed.

(** ** The game-state slice of the store *)

Section MergePlayers.

Variable existingPlayers : list Player.

Lemma mergePlayer_frame : forall player,
  seat (GameStore.mergePlayer existingPlayers player) = seat player
  /\ name (GameStore.mergePlayer existingPlayers player) = name player
  /\ is_human (GameStore.mergePlayer existingPlayers player) = is_human player
  /\ model_name (GameStore.mergePlayer existingPlayers player) = model_name player
  /\ is_on_quest (GameStore.mergePlayer existingPlayers player) = is_on_quest player
  /\ is_leader (GameStore.mergePlayer existingPlayers player) = is_leader player.
Proof.
  intros player. unfold GameStore.mergePlayer.
  destruct (find (fun p => seat p =? seat player) existingPlayers) as [e |];
    [| repeat split].
  destruct (JS.truthy (role e) && negb (JS.truthy (role player)));
    repeat split.
Qed.

Lemma mergePlayer_keeps : forall player e,
  find (fun p => seat p =? seat player) existingPlayers = Some e ->
  JS.truthy (role e) = true -> JS.truthy (role player) = false ->
  role (GameStore.mergePlayer existingPlayers player) = role e
  /\ team (GameStore.mergePlayer existingPlayers player) = team e.
Proof.
  intros player e Hfind He Hp. unfold GameStore.mergePlayer.
  rewrite Hfind, He, Hp. simpl. split; reflexivity.
Qed.

Lemma mergePlayer_same : forall player,
  ~ (exists e, find (fun p => seat p =? seat player) existingPlayers = Some e
               /\ JS.truthy (role e) = true /\ JS.truthy (role player) = false) ->
  GameStore.mergePlayer existingPlayers player = player.
Proof.
  intros player Hno. unfold GameStore.mergePlayer.
  destruct (find (fun p => seat p =? seat player) existingPlayers) as [e |];
    [| reflexivity].
  destruct (JS.truthy (role e)) eqn:He; [| reflexivity].
  destruct (JS.truthy (role player)) eqn:Hp; [reflexivity |].
  exfalso. apply Hno. now exists e.
Qed.

End MergePlayers.

(** C8.  [setGameState] leaves the other slices of the store alone.  With
    god mode off, or without a stored state, the incoming state becomes
    the stored one as it is.  With god mode on and a stored state, the new
    stored state has every non-player field of the incoming state and one
    player per incoming player, in order; each merged player has the
    incoming seat, name, human flag, model name and quest/leader marks;
    where the stored record of the same seat has a role and the incoming
    one has none, the merged player has the stored role and team; in every
    other case the merged player is the incoming one. *)
Theorem C8_setGameState :
  forall (state : GameState) (st : GameStore.Store),
    (GameStore.connected (GameStore.setGameState state st) = GameStore.connected st
     /\ GameStore.humanSeat (GameStore.setGameState state st) = GameStore.humanSeat st
     /\ GameStore.godMode (GameStore.setGameState state st) = GameStore.godMode st
     /\ GameStore.selectedPlayers (GameStore.setGameState state st)
        = GameStore.selectedPlayers st)
    /\ (GameStore.godMode st = false \/ GameStore.gameState st = None ->
        GameStore.gameState (GameStore.setGameState state st) = Some state)
    /\ (forall existing,
          GameStore.godMode st = true -> GameStore.gameState st = Some existing ->
          exists merged,
            GameStore.gameState (GameStore.setGameState state st) = Some merged
            /\ (id merged = id state
                /\ status merged = status state
                /\ phase merged = phase state
                /\ current_round merged = current_round state
                /\ current_leader merged = current_leader state
                /\ vote_attempt merged = vote_attempt state
                /\ proposed_team merged = proposed_team state
                /\ player_count merged = player_count state
                /\ quest_results merged = quest_results state
                /\ vote_history merged = vote_history state
                /\ discussion_history merged = discussion_history state
                /\ assassination_discussion_history merged
                   = assassination_discussion_history state
                /\ assassinated_player merged = assassinated_player state
                /\ winner merged = winner state
                /\ waiting_for_human merged = waiting_for_human state
                /\ human_action_type merged = human_action_type state)
            /\ List.length (players merged) = List.length (players state)
            /\ (forall n player,
                  nth_error (players state) n = Some player ->
                  exists player',
                    nth_error (players merged) n = Some player'
                    /\ (seat player' = seat player
                        /\ name player' = name player
                        /\ is_human player' = is_human player
                        /\ model_name player' = model_name player
                        /\ is_on_quest player' = is_on_quest player
                        /\ is_leader player' = is_leader player)
                    /\ (forall e,
                          find (fun p => seat p =? seat player) (players existing)
                          = Some e ->
                          JS.truthy (role e) = true ->
                          JS.truthy (role player) = false ->
                          role player' = role e /\ team player' = team e)
                    /\ (~ (exists e,
                              find (fun p => seat p =? seat player) (players existing)
                              = Some e
                              /\ JS.truthy (role e) = true
                              /\ JS.truthy (role player) = false) ->
                        player' = player))).
Proof.
  intros state st. split; [| split].
  - unfold GameStore.setGameState.
    destruct (GameStore.gameState st);
      [destruct (GameStore.godMode st && JS.array_truthy (players state)) |];
      repeat split.
  - intros [Hgod | Hnone]; unfold GameStore.setGameState.
    + rewrite Hgod. destruct (GameStore.gameState st); reflexivity.
    + now rewrite Hnone.
  - intros existing Hgod Hstored. unfold GameStore.setGameState.
    rewrite Hstored, Hgod. simpl.
    eexists. split; [reflexivity |]. split; [repeat split |]. split.
    + simpl. apply length_map.
    + intros n player Hn. simpl.
      exists (GameStore.mergePlayer (players existing) player).
      split; [now apply map_nth_error |].
      split; [apply mergePlayer_frame |].
      split; [apply mergePlayer_keeps | apply mergePlayer_same].
Qed.

Example god_mode_keeps_known_roles :
  let known := mkPlayer 0 "Ann" false (Some "merlin"%string) (Some "good"%string)
                        None None None in
  let update := mkPlayer 0 "Ann" false None None (Some "m"%string) None None in
  let other := mkPlayer 1 "Bob" false None None None None None in
  let gs ps r := mkGameState "g" in_progress team_vote r 0 1 [] 5 ps [] [] [] None
                             None None false None in
  let god on := GameStore.mkStore true (Some (gs [known] 1)) None on [] in
  GameStore.gameState (GameStore.setGameState (gs [update; other] 2) (god true))
  = Some (gs [mkPlayer 0 "Ann" false (Some "merlin"%string) (Some "good"%string)
                       (Some "m"%string) None None; other] 2)
  /\ GameStore.gameState (GameStore.setGameState (gs [update; other] 2) (god false))
     = Some (gs [update; other] 2).
Proof. split; reflexivity. Qed.

(** ** Vote attempts in the match engine *)

Ltac split_ifs :=
  repeat match goal with
         | H : context [if ?c then _ else _] |- _ => destruct c eqn:?
         | H : context [match ?o with Some _ => _ | None => _ end] |- _ =>
             destruct o eqn:?
         end.

Lemma step_attempt_inv : forall m d m',
  Engine.step m d = Some m' ->
  (Engine.inProgress m -> 1 <= Engine.m_attempt m <= 5) ->
  Engine.inProgress m' -> 1 <= Engine.m_attempt m' <= 5.
Proof.
  intros m d m' Hstep Hinv Hprog. unfold Engine.inProgress in *.
  unfold Engine.step in Hstep.
  destruct (Engine.m_phase m) eqn:Hphase; destruct d; try discriminate;
    assert (Hm : 1 <= Engine.m_attempt m <= 5) by (apply Hinv; discriminate);
    split_ifs; try discriminate;
    injection Hstep as <-; simpl in *; try congruence; lia.
Qed.

Lemma reachable_attempt : forall m,
  Engine.reachable m -> Engine.inProgress m -> 1 <= Engine.m_attempt m <= 5.
Proof.
  intros m Hreach. induction Hreach as [players merlin m Hcreate | m d m' _ IH Hstep].
  - intros _. unfold Engine.create in Hcreate.
    destruct ((5 <=? players) && (players <=? 10)); [| discriminate].
    injection Hcreate as <-. simpl. lia.
  - eapply step_attempt_inv; eassumption.
Qed.

Lemma step_rejected_vote : forall m approvals m',
  Engine.m_phase m = team_vote ->
  Engine.step m (Engine.VotesCast approvals) = Some m' ->
  Engine.approved (Engine.m_players m) approvals = false ->
  Engine.m_attempt m' = Engine.m_attempt m + 1
  /\ (5 < Engine.m_attempt m' ->
      Engine.m_phase m' = game_over /\ Engine.m_winner m' = Some Engine.evil)
  /\ (Engine.m_attempt m' <= 5 ->
      Engine.m_phase m' = team_selection /\ Engine.m_round m' = Engine.m_round m).
Proof.
  intros m approvals m' Hphase Hstep Hrej. unfold Engine.step in Hstep.
  rewrite Hphase, Hrej in Hstep.
  destruct (JS.length approvals =? Engine.m_players m); [| discriminate].
  destruct (5 <? Engine.m_attempt m + 1) eqn:E; injection Hstep as <-; simpl.
  - apply Z.ltb_lt in E. repeat split; lia.
  - apply Z.ltb_ge in E. repeat split; lia.
Qed.

Lemma step_game_over : forall m d,
  Engine.m_phase m = game_over -> Engine.step m d = None.
Proof.
  intros m d Hover. unfold Engine.step. rewrite Hover. now destruct d.
Qed.

Lemma run_game_over : forall m ds m',
  Engine.m_phase m = game_over -> Engine.run m ds = Some m' -> m' = m.
Proof.
  intros m [| d ds] m' Hover Hrun; simpl in Hrun.
  - congruence.
  - rewrite step_game_over in Hrun by assumption. discriminate.
Qed.

(** C7.  In the engine as the spec describes it, every reachable state
    that is still in progress has its vote attempt within 1..5.  A
    rejected team vote adds one to the attempt; when the new count exceeds
    5 the match is over with winner evil, otherwise the match returns to
    team selection in the same round; a team vote with one vote per player
    is always resolved.  Once the match is over no decision is accepted, so
    no later state, and in particular no team selection, follows. *)
Theorem C7_vote_attempt_bounded :
  forall (m : Engine.Match),
    Engine.reachable m ->
    (Engine.inProgress m -> 1 <= Engine.m_attempt m <= 5)
    /\ (forall approvals m',
          Engine.m_phase m = team_vote ->
          Engine.step m (Engine.VotesCast approvals) = Some m' ->
          Engine.approved (Engine.m_players m) approvals = false ->
          Engine.m_attempt m' = Engine.m_attempt m + 1
          /\ (5 < Engine.m_attempt m' ->
              Engine.m_phase m' = game_over
              /\ Engine.m_winner m' = Some Engine.evil
              /\ forall ds m'', Engine.run m' ds = Some m'' ->
                                m'' = m' /\ Engine.m_phase m'' <> team_selection)
          /\ (Engine.m_attempt m' <= 5 ->
              Engine.m_phase m' = team_selection
              /\ Engine.m_round m' = Engine.m_round m))
    /\ (forall approvals,
          Engine.m_phase m = team_vote ->
          JS.length approvals = Engine.m_players m ->
          exists m', Engine.step m (Engine.VotesCast approvals) = Some m')
    /\ (Engine.m_phase m = game_over ->
        forall ds m', Engine.run m ds = Some m' -> m' = m).
Proof.
  intros m Hreach. split; [| split; [| split]].
  - now apply reachable_attempt.
  - intros approvals m' Hphase Hstep Hrej.
    destruct (step_rejected_vote m approvals m' Hphase Hstep Hrej)
      as (Hinc & Hover & Hback).
    split; [exact Hinc |]. split; [| exact Hback].
    intros Hgt. destruct (Hover Hgt) as [Hp Hw].
    split; [exact Hp |]. split; [exact Hw |].
    intros ds m'' Hrun. apply (run_game_over m' ds m'' Hp) in Hrun. subst m''.
    split; [reflexivity | congruence].
  - intros approvals Hphase Hlen. unfold Engine.step.
    rewrite Hphase, Hlen, Z.eqb_refl.
    destruct (Engine.approved (Engine.m_players m) approvals); [eauto |].
    destruct (5 <? Engine.m_attempt m + 1); eauto.
  - intros Hover ds m'. now apply run_game_over.
Qed.

Lemma run_reachable : forall ds m m',
  Engine.reachable m -> Engine.run m ds = Some m' -> Engine.reachable m'.
Proof.
  induction ds as [| d ds IH]; intros m m' Hreach Hrun; simpl in Hrun.
  - injection Hrun as <-. exact Hreach.
  - destruct (Engine.step m d) as [m1 |] eqn:Hstep; [| discriminate].
    eapply IH; [| exact Hrun]. eapply Engine.reach_step; eassumption.
Qed.

Lemma fifth_vote_reachable : Engine.reachable fifth_vote.
Proof.
  apply (run_reachable (Engine.RolesAssigned :: Engine.NightDelivered
                          :: four_rejections ++ [Engine.TeamProposed [4; 0];
                                                 Engine.DiscussionClosed])
                       five_player_start).
  - now apply (Engine.reach_create 5 0).
  - reflexivity.
Qed.

Lemma C7_witness :
  Engine.reachable fifth_vote /\ 1 <= Engine.m_attempt fifth_vote <= 5.
Proof.
  split.
  - exact fifth_vote_reachable.
  - apply (C7_vote_attempt_bounded fifth_vote fifth_vote_reachable).
    discriminate.
Defined.

(** Five rejected votes in round 1: evil wins and no quest was run. *)
Example five_rejections_end_the_match :
  exists m,
    Engine.step fifth_vote (Engine.VotesCast [false; false; true; true; false]) = Some m
    /\ Engine.m_phase m = game_over
    /\ Engine.m_winner m = Some Engine.evil
    /\ Engine.m_attempt m = 6
    /\ Engine.m_results m = []
    /\ Engine.step m (Engine.TeamProposed [0; 1]) = None.
Proof. eexists. repeat split. Qed.

(** The spec's worked round: leader 0 proposes seats 0 and 1, three of
    five approve, both quest votes succeed; round 2 opens with leader 1. *)
Example first_round_succeeds :
  exists m,
    Engine.run five_player_start
      [Engine.RolesAssigned; Engine.NightDelivered; Engine.TeamProposed [0; 1];
       Engine.DiscussionClosed;
       Engine.VotesCast [true; true; true; false; false];
       Engine.QuestVotesCast [true; true]] = Some m
    /\ Engine.m_phase m = team_selection
    /\ Engine.m_round m = 2
    /\ Engine.m_leader m = 1
    /\ Engine.m_attempt m = 1
    /\ Engine.m_results m = [true].
Proof. eexists. repeat split. Qed.

Lemma C10_witness :
  [good_at_quest; seven_players_round_two] <> []
  /\ exists s,
       Replay.currentState [good_at_quest; seven_players_round_two]
         (Replay.run [good_at_quest; seven_players_round_two]
            [Replay.PlayClick; Replay.TimerFired; Replay.TimerFired;
             Replay.NextClick; Replay.PrevClick; Replay.PrevClick;
             Replay.SeekClick 1; Replay.SeekClick 2]) = Some s.
Proof.
  split; [discriminate |].
  apply (C10_replay_index_in_bounds [good_at_quest; seven_players_round_two]).
  discriminate.
Defined.

Example replay_stops_at_the_last_state :
  Replay.run [good_at_quest; seven_players_round_two; five_players_round_two]
    [Replay.PlayClick; Replay.TimerFired; Replay.TimerFired; Replay.TimerFired]
  = Replay.mkPlayback 2 false
  /\ Replay.run [good_at_quest; seven_players_round_two; five_players_round_two]
       [Replay.PrevClick; Replay.SeekClick 7; Replay.NextClick; Replay.PlayClick]
     = Replay.mkPlayback 1 true.
Proof. split; reflexivity. Qed.

(** * Further properties of the client *)

(** ** The store: selection, discussion logs and role knowledge *)

Lemma filter_neq_absent : forall (s : list Z) (k : Z),
  ~ In k s -> filter (fun x => negb (x =? k)) s = s.
Proof.
  induction s as [| a s IH]; intros k Hk; simpl; [reflexivity |].
  destruct (a =? k) eqn:E; simpl.
  - apply Z.eqb_eq in E. subst. exfalso. apply Hk. now left.
  - f_equal. apply IH. intros H. apply Hk. now right.
Qed.

Lemma filter_neq_length : forall (s : list Z) (k : Z),
  NoDup s -> In k s ->
  S (List.length (filter (fun x => negb (x =? k)) s)) = List.length s.
Proof.
  induction s as [| a s IH]; intros k Hnd Hin; [contradiction |].
  inversion Hnd as [| a' s' Ha Hs]; subst. simpl.
  destruct (a =? k) eqn:E; simpl.
  - apply Z.eqb_eq in E. subst. now rewrite filter_neq_absent.
  - apply Z.eqb_neq in E. destruct Hin as [Hin | Hin]; [congruence |].
    f_equal. now apply IH.
Qed.

Lemma toggle_NoDup : forall (s : list Z) (k : Z),
  NoDup s -> NoDup (GameStore.toggle s k).
Proof.
  intros s k Hnd. unfold GameStore.toggle.
  destruct (JS.includes s k) eqn:E.
  - now apply NoDup_filter.
  - apply includes_not_In in E.
    apply (Permutation_NoDup (Permutation_cons_append s k)).
    now constructor.
Qed.

Lemma toggles_selected : forall (ks : list Z) (st : GameStore.Store),
  GameStore.selectedPlayers
    (fold_left (fun s k => GameStore.togglePlayerSelection k s) ks st)
  = fold_left GameStore.toggle ks (GameStore.selectedPlayers st).
Proof.
  induction ks as [| k ks IH]; intros st; simpl; [reflexivity |].
  now rewrite IH.
Qed.

Lemma toggles_NoDup : forall (ks s : list Z),
  NoDup s -> NoDup (fold_left GameStore.toggle ks s).
Proof.
  induction ks as [| k ks IH]; intros s Hnd; simpl; [assumption |].
  now apply IH, toggle_NoDup.
Qed.

(** X1.  Starting from a cleared selection, whatever seats are toggled in
    whatever order, the selection never holds a seat twice; therefore one
    more toggle changes its length by exactly one: minus one for a
    selected seat, plus one for any other. *)
Theorem X1_selection_has_no_duplicates :
  forall (st : GameStore.Store) (ks : list Z) (k : Z),
    let sel := GameStore.selectedPlayers
                 (fold_left (fun s j => GameStore.togglePlayerSelection j s) ks
                            (GameStore.clearSelection st)) in
    NoDup sel
    /\ (In k sel -> JS.length (GameStore.toggle sel k) = JS.length sel - 1)
    /\ (~ In k sel -> JS.length (GameStore.toggle sel k) = JS.length sel + 1).
Proof.
  intros st ks k. cbv zeta. rewrite toggles_selected.
  change (GameStore.selectedPlayers (GameStore.clearSelection st)) with (@nil Z).
  assert (Hnd : NoDup (fold_left GameStore.toggle ks [])).
  { apply toggles_NoDup. constructor. }
  revert Hnd. generalize (fold_left GameStore.toggle ks []). intros sel Hnd.
  split; [exact Hnd |]. split; intros Hk; unfold GameStore.toggle, JS.length.
  - pose proof (proj2 (includes_In _ _) Hk) as E. rewrite E.
    pose proof (filter_neq_length _ _ Hnd Hk). lia.
  - pose proof (proj2 (includes_not_In _ _) Hk) as E. rewrite E.
    rewrite length_app. simpl. lia.
Qed.

Lemma withDiscussionHistory_same : forall g,
  GameStore.withDiscussionHistory g (discussion_history g) = g.
Proof. now destruct g. Qed.

Lemma withAssassinationHistory_same : forall g,
  GameStore.withAssassinationHistory g (assassination_discussion_history g) = g.
Proof. now destruct g. Qed.

(** X2.  Discussion messages pushed by the socket are appended to the
    stored history in arrival order and nothing else in the store
    changes; while no game state is stored they are dropped and the slice
    stays empty. *)
Theorem X2_addDiscussion_appends_in_order :
  forall (msgs : list DiscussionMessage) (st : GameStore.Store),
    let st' := fold_left (fun s m => GameStore.addDiscussion m s) msgs st in
    (GameStore.gameState st = None -> st' = st)
    /\ (forall g, GameStore.gameState st = Some g ->
          st' = GameStore.setSlice_gameState st
                  (Some (GameStore.withDiscussionHistory g
                           (discussion_history g ++ msgs)))).
Proof.
  induction msgs as [| m msgs IH]; intros st; cbv zeta; simpl.
  - split; [reflexivity |]. intros g Hg.
    rewrite app_nil_r, withDiscussionHistory_same. destruct st; simpl in *.
    now subst.
  - destruct (IH (GameStore.addDiscussion m st)) as [Hnone Hsome]. split.
    + intros Hg. rewrite Hnone.
      * unfold GameStore.addDiscussion. rewrite Hg. destruct st; simpl in *.
        now subst.
      * unfold GameStore.addDiscussion. now rewrite Hg.
    + intros g Hg.
      rewrite (Hsome (GameStore.withDiscussionHistory g (discussion_history g ++ [m]))).
      * unfold GameStore.addDiscussion, GameStore.setSlice_gameState. simpl.
        destruct g; simpl. now rewrite <- app_assoc.
      * unfold GameStore.addDiscussion. now rewrite Hg.
Qed.

(** X3.  An assassination-discussion message is appended to the stored
    assassination history, a missing history counting as empty; so after
    at least one message the history is present and ends with the
    messages in arrival order, the rest of the state being unchanged. *)
Theorem X3_addAssassinationDiscussion_appends :
  forall (msgs : list DiscussionMessage) (m : DiscussionMessage)
         (st : GameStore.Store) (g : GameState),
    GameStore.gameState st = Some g ->
    fold_left (fun s x => GameStore.addAssassinationDiscussion x s) (m :: msgs) st
    = GameStore.setSlice_gameState st
        (Some (GameStore.withAssassinationHistory g
                 (Some (GameStore.historyOrEmpty
                          (assassination_discussion_history g) ++ m :: msgs)))).
Proof.
  induction msgs as [| x msgs IH] using rev_ind; intros m st g Hg.
  - simpl. unfold GameStore.addAssassinationDiscussion. now rewrite Hg.
  - rewrite app_comm_cons, fold_left_app, (IH m st g Hg). simpl.
    unfold GameStore.addAssassinationDiscussion, GameStore.setSlice_gameState.
    simpl. destruct g; simpl. now rewrite <- app_assoc.
Qed.

Lemma X3_witness :
  fold_left (fun s x => GameStore.addAssassinationDiscussion x s)
    [ mkDiscussionMessage 1 "Bob" "seat 0" None None None;
      mkDiscussionMessage 1 "Bob" "surely" None None None ]
    (GameStore.mkStore true (Some good_at_quest) (Some 1) false [])
  = GameStore.mkStore true
      (Some (GameStore.withAssassinationHistory good_at_quest
               (Some [ mkDiscussionMessage 1 "Bob" "seat 0" None None None;
                       mkDiscussionMessage 1 "Bob" "surely" None None None ])))
      (Some 1) false [].
Proof.
  apply (X3_addAssassinationDiscussion_appends
           [ mkDiscussionMessage 1 "Bob" "surely" None None None ]
           (mkDiscussionMessage 1 "Bob" "seat 0" None None None)
           (GameStore.mkStore true (Some good_at_quest) (Some 1) false [])
           good_at_quest).
  reflexivity.
Defined.

Lemma find_seat_map_merge : forall (existing incoming : list Player) (k : Z),
  find (fun p => seat p =? k) (map (GameStore.mergePlayer existing) incoming)
  = option_map (GameStore.mergePlayer existing)
               (find (fun p => seat p =? k) incoming).
Proof.
  intros existing incoming k. induction incoming as [| p ps IH]; simpl.
  - reflexivity.
  - destruct (mergePlayer_frame existing p) as [Hseat _]. rewrite Hseat.
    destruct (seat p =? k); [reflexivity | exact IH].
Qed.

Lemma mergePlayer_role_known : forall (existing : list Player) (p e : Player),
  find (fun q => seat q =? seat p) existing = Some e ->
  JS.truthy (role e) = true ->
  JS.truthy (role (GameStore.mergePlayer existing p)) = true.
Proof.
  intros existing p e Hfind He. unfold GameStore.mergePlayer.
  rewrite Hfind, He. destruct (JS.truthy (role p)) eqn:Hp; simpl; assumption.
Qed.

Lemma setGameState_godMode : forall state st,
  GameStore.godMode (GameStore.setGameState state st) = GameStore.godMode st.
Proof.
  intros state st. unfold GameStore.setGameState.
  destruct (GameStore.gameState st);
    [destruct (GameStore.godMode st && JS.array_truthy (players state)) |];
    reflexivity.
Qed.

Lemma setGameState_keeps_role : forall state st k,
  GameStore.godMode st = true ->
  GameStore.knowsRole st k = true ->
  (exists p, In p (players state) /\ seat p = k) ->
  GameStore.knowsRole (GameStore.setGameState state st) k = true.
Proof.
  intros state st k Hgod Hknown [p [Hin Hseat]].
  unfold GameStore.knowsRole in *. unfold GameStore.setGameState.
  destruct (GameStore.gameState st) as [g |]; [| discriminate].
  rewrite Hgod. simpl. rewrite find_seat_map_merge.
  destruct (find (fun q => seat q =? k) (players g)) as [e |] eqn:He;
    [| discriminate].
  destruct (find (fun q => seat q =? k) (players state)) as [p0 |] eqn:Hp0.
  - simpl. apply find_some in Hp0 as [_ Hk]. apply Z.eqb_eq in Hk.
    apply (mergePlayer_role_known (players g) p0 e); [| assumption].
    now rewrite Hk.
  - exfalso. apply (find_none _ _ Hp0) in Hin.
    apply Z.eqb_neq in Hin. contradiction.
Qed.

(** X4.  In god mode a role once known for a seat is never lost: after any
    series of state updates that each still list the seat, the stored
    record found for that seat carries a role, whether or not the updates
    carry one. *)
Theorem X4_god_mode_keeps_role_knowledge :
  forall (updates : list GameState) (st : GameStore.Store) (k : Z),
    GameStore.godMode st = true ->
    GameStore.knowsRole st k = true ->
    (forall u, In u updates -> exists p, In p (players u) /\ seat p = k) ->
    GameStore.knowsRole
      (fold_left (fun s u => GameStore.setGameState u s) updates st) k = true.
Proof.
  induction updates as [| u updates IH]; intros st k Hgod Hknown Hlisted; simpl.
  - exact Hknown.
  - apply IH.
    + now rewrite setGameState_godMode.
    + apply setGameState_keeps_role; [assumption | assumption |].
      apply Hlisted. now left.
    + intros u' Hu'. apply Hlisted. now right.
Qed.

Lemma X4_witness :
  GameStore.knowsRole
    (fold_left (fun s u => GameStore.setGameState u s)
       [roleless_update 1; roleless_update 2]
       (GameStore.mkStore true (Some good_at_quest) None true [])) 1 = true.
Proof.
  apply (X4_god_mode_keeps_role_knowledge
           [roleless_update 1; roleless_update 2]
           (GameStore.mkStore true (Some good_at_quest) None true []) 1).
  - reflexivity.
  - reflexivity.
  - intros u [<- | [<- | []]];
      exists (mkPlayer 1 "Bob" true None None None None None);
      (split; [now left | reflexivity]).
Defined.

(** Without god mode the same update forgets the role. *)
Example plain_update_forgets_roles :
  GameStore.knowsRole
    (GameStore.setGameState (roleless_update 1)
       (GameStore.mkStore true (Some good_at_quest) None false [])) 1 = false.
Proof. reflexivity. Qed.

(** ** The board's assassination view and history banner *)

Lemma filteredMessages_same_round : forall (history : list DiscussionMessage)
                                           (gameState : GameState),
  current_round gameState <> 0 ->
  Discussion.filteredMessages
    (map (GameBoard.asRoundMessage gameState) history) (current_round gameState)
  = map (GameBoard.asRoundMessage gameState) history.
Proof.
  intros history gameState Hr. unfold Discussion.filteredMessages.
  assert (Hkeep : forall m,
             (JS.or_num (d_round (GameBoard.asRoundMessage gameState m)) 1
              =? current_round gameState) = true).
  { intros m. cbn [GameBoard.asRoundMessage d_round].
    replace (JS.or_num (Some (current_round gameState)) 1)
      with (current_round gameState)
      by (destruct (current_round gameState); simpl; congruence).
    apply Z.eqb_refl. }
  induction history as [| m history IH]; cbn [map filter]; [reflexivity |].
  rewrite Hkeep. now f_equal.
Qed.

Lemma filteredMessages_round_zero : forall (history : list DiscussionMessage)
                                           (gameState : GameState),
  current_round gameState = 0 ->
  Discussion.filteredMessages
    (map (GameBoard.asRoundMessage gameState) history) (current_round gameState)
  = [].
Proof.
  intros history gameState Hr. unfold Discussion.filteredMessages.
  induction history as [| m history IH]; simpl; [reflexivity |].
  rewrite Hr in *. simpl. exact IH.
Qed.

Lemma assassination_view_messages : forall (gameState : GameState),
  GameBoard.dp_messages
    (GameBoard.discussionProps gameState GameBoard.AssassinationView)
  = map (GameBoard.asRoundMessage gameState)
        (GameStore.historyOrEmpty (assassination_discussion_history gameState)).
Proof.
  intros gameState. simpl. unfold GameBoard.assassinationMessages. simpl.
  now destruct (assassination_discussion_history gameState).
Qed.

(** X5.  In the assassination view the board relabels every assassination
    message with the current round and attempt 0 and asks the discussion
    panel for that round, so the panel's round filter keeps all of them,
    in order, when the current round is not 0; for a current round of 0
    the filter drops them all, since a round of 0 is read as round 1. *)
Theorem X5_assassination_messages_pass_the_round_filter :
  forall (gameState : GameState),
    let props := GameBoard.discussionProps gameState GameBoard.AssassinationView in
    GameBoard.dp_messages props
    = map (GameBoard.asRoundMessage gameState)
          (GameStore.historyOrEmpty (assassination_discussion_history gameState))
    /\ (current_round gameState <> 0 ->
        Discussion.filteredMessages (GameBoard.dp_messages props)
                                    (GameBoard.dp_displayRound props)
        = GameBoard.dp_messages props)
    /\ (current_round gameState = 0 ->
        Discussion.filteredMessages (GameBoard.dp_messages props)
                                    (GameBoard.dp_displayRound props)
        = []).
Proof.
  intros gameState. cbv zeta.
  pose proof (assassination_view_messages gameState) as Hm.
  split; [exact Hm |]. rewrite Hm. simpl. split; intros Hr.
  - now apply filteredMessages_same_round.
  - now apply filteredMessages_round_zero.
Qed.

(** X6.  The assassination record (target chosen) reaches the discussion
    panel only through its vote list, and the panel returns early when its
    message list is empty: with no assassination discussion message the
    panel shows only the empty placeholder, even when a target has been
    chosen; with at least one message, a non-zero round, a chosen target
    and a visible assassin role it shows the messages followed by exactly
    that one record. *)
Theorem X6_assassination_record_needs_a_message :
  forall (gameState : GameState),
    let props := GameBoard.discussionProps gameState GameBoard.AssassinationView in
    let panels := Discussion.render (GameBoard.dp_messages props)
                    (GameBoard.dp_votes props) (GameBoard.dp_questResults props)
                    (GameBoard.dp_displayRound props) in
    (GameStore.historyOrEmpty (assassination_discussion_history gameState) = [] ->
     panels = [Discussion.NoMessagesPlaceholder])
    /\ (forall target assassin,
          GameStore.historyOrEmpty (assassination_discussion_history gameState) <> [] ->
          current_round gameState <> 0 ->
          assassinated_player gameState = Some target ->
          find (fun p => JS.str_is (role p) "assassin") (players gameState)
          = Some assassin ->
          panels
          = [ Discussion.MessageList (GameBoard.dp_messages props);
              Discussion.VoteResults
                [mkVoteResult (current_round gameState) 1 [(target, true)] true] ]).
Proof.
  intros gameState. cbv zeta.
  pose proof (assassination_view_messages gameState) as Hm.
  split.
  - intros Hempty. unfold Discussion.render. rewrite Hm, Hempty. reflexivity.
  - intros target assassin Hne Hr Htarget Hfind. unfold Discussion.render.
    rewrite Hm.
    change (GameBoard.dp_displayRound
              (GameBoard.discussionProps gameState GameBoard.AssassinationView))
      with (current_round gameState).
    rewrite (filteredMessages_same_round _ _ Hr).
    destruct (GameStore.historyOrEmpty (assassination_discussion_history gameState))
      as [| m rest] eqn:Hh; [congruence |].
    change (GameBoard.dp_votes
              (GameBoard.discussionProps gameState GameBoard.AssassinationView))
      with (map GameBoard.av_vote
              (GameBoard.assassinationVotes gameState GameBoard.AssassinationView)).
    change (GameBoard.dp_questResults
              (GameBoard.discussionProps gameState GameBoard.AssassinationView))
      with (@nil QuestResult).
    unfold GameBoard.assassinationVotes. simpl GameBoard.isAssassination. cbv iota.
    rewrite Htarget, Hfind.
    unfold Discussion.filteredVotes, Discussion.questResult, Discussion.questPanel.
    simpl. rewrite Z.eqb_refl. reflexivity.
Qed.

Lemma index_last : forall (A : Type) (l : list A) (x : A),
  JS.index (l ++ [x]) (JS.length (l ++ [x]) - 1) = Some x.
Proof.
  intros A l x. unfold JS.index, JS.length. rewrite length_app. simpl.
  destruct (Z.of_nat (List.length l + 1) - 1 <? 0) eqn:E;
    [apply Z.ltb_lt in E; lia |].
  replace (Z.to_nat (Z.of_nat (List.length l + 1) - 1)) with (List.length l) by lia.
  rewrite nth_error_app2 by lia. now rewrite Nat.sub_diag.
Qed.

Lemma filter_ends_with : forall (A : Type) (f : A -> bool) (l front : list A) (x : A),
  filter f l = front ++ [x] ->
  exists before after,
    l = before ++ x :: after /\ f x = true
    /\ forall w, In w after -> f w = false.
Proof.
  intros A f l. induction l as [| y l IH] using rev_ind; intros front x Hf.
  - simpl in Hf. destruct front; discriminate.
  - rewrite filter_app in Hf. simpl in Hf. destruct (f y) eqn:Hy.
    + apply app_inj_tail in Hf as [_ <-].
      exists l, []. repeat split; [assumption | intros w []].
    + rewrite app_nil_r in Hf. destruct (IH front x Hf) as (b & a & -> & Hx & Ha).
      exists b, (a ++ [y]). rewrite <- app_assoc. simpl. repeat split; [assumption |].
      intros w Hw. apply in_app_or in Hw as [Hw | [<- | []]]; auto.
Qed.

Lemma list_end_cases : forall (A : Type) (l : list A),
  l = [] \/ exists front x, l = front ++ [x].
Proof.
  intros A l. induction l as [| y l IH] using rev_ind.
  - now left.
  - right. now exists l, y.
Qed.

(** X7.  The vote shown in a past round's banner is the latest vote of
    that round: when [lastVote] yields a vote, the vote history splits
    around it with no vote of the round after it; it yields none exactly
    when the history has no vote of the round. *)
Theorem X7_lastVote_is_the_latest_of_the_round :
  forall (gameState : GameState) (round : Z),
    (forall v, GameBoard.lastVote gameState round = Some v ->
       exists before after,
         vote_history gameState = before ++ v :: after
         /\ v_round v = round
         /\ forall w, In w after -> v_round w <> round)
    /\ (GameBoard.lastVote gameState round = None <->
        forall w, In w (vote_history gameState) -> v_round w <> round).
Proof.
  intros gameState round. unfold GameBoard.lastVote, GameBoard.historyVotes.
  destruct (list_end_cases _
              (filter (fun v => v_round v =? round) (vote_history gameState)))
    as [Hf | (l & x & Hf)]; rewrite Hf.
  - simpl. split; [discriminate |]. split; [| reflexivity].
    intros _ w Hw Hr.
    assert (Hin : In w (filter (fun v => v_round v =? round) (vote_history gameState))).
    { apply filter_In. split; [assumption | now apply Z.eqb_eq]. }
    rewrite Hf in Hin. contradiction.
  - assert (Hpos : (0 <? JS.length (l ++ [x])) = true).
    { apply Z.ltb_lt. unfold JS.length. rewrite length_app. simpl. lia. }
    rewrite Hpos, index_last.
    destruct (filter_ends_with _ _ _ _ _ Hf) as (b & a & Hsplit & Hx & Ha).
    split.
    + intros v Hv. injection Hv as <-. exists b, a.
      split; [assumption |]. split; [now apply Z.eqb_eq |].
      intros w Hw. apply Z.eqb_neq. now apply Ha.
    + split; [discriminate |]. intros Hnone. exfalso.
      apply (Hnone x); [| now apply Z.eqb_eq].
      rewrite Hsplit. apply in_or_app. right. now left.
Qed.

Example last_vote_of_round_one :
  let v r a ok := mkVoteResult r a [] ok in
  let gs := mkGameState "g" in_progress team_selection 2 1 1 [] 5 [] []
              [v 1 1 false; v 1 2 true; v 2 1 false] [] None None None false None in
  GameBoard.lastVote gs 1 = Some (v 1 2 true)
  /\ GameBoard.lastVote gs 3 = None.
Proof. split; reflexivity. Qed.

Lemma GamePhase_eqb_eq : forall a b : GamePhase, GamePhase_eqb a b = true <-> a = b.
Proof.
  intros a b. destruct a, b; simpl; split; intros H;
    try reflexivity; discriminate.
Qed.

(** X8.  Which banner the board shows.  The current-round banner appears
    only for the view of the current round during team selection,
    discussion, team vote or quest execution.  Right after the effect that
    follows a state update: in the two assassination phases the board is
    on the assassination banner; at game over (round not 0) it is on the
    history banner of the current round; in the four quest phases (round
    not 0) it is on the current-round banner. *)
Theorem X8_banner_follows_the_phase :
  forall (gameState : GameState) (displayRound : GameBoard.DisplayRound),
    (GameBoard.banner gameState displayRound = GameBoard.CurrentBanner ->
       displayRound = GameBoard.RoundView (current_round gameState)
       /\ (phase gameState = team_selection \/ phase gameState = discussion
           \/ phase gameState = team_vote \/ phase gameState = quest_execution))
    /\ (phase gameState = assassination_discussion \/ phase gameState = assassination ->
        GameBoard.banner gameState
          (GameBoard.displayRoundEffect gameState displayRound)
        = GameBoard.AssassinationBanner)
    /\ (phase gameState = game_over -> current_round gameState <> 0 ->
        GameBoard.banner gameState
          (GameBoard.displayRoundEffect gameState displayRound)
        = GameBoard.HistoryBanner (current_round gameState))
    /\ (phase gameState = team_selection \/ phase gameState = discussion
        \/ phase gameState = team_vote \/ phase gameState = quest_execution ->
        current_round gameState <> 0 ->
        GameBoard.banner gameState
          (GameBoard.displayRoundEffect gameState displayRound)
        = GameBoard.CurrentBanner).
Proof.
  intros gameState displayRound.
  unfold GameBoard.banner, GameBoard.displayRoundEffect.
  split; [| split; [| split]].
  - destruct displayRound as [round |];
      destruct (phase gameState); simpl; try discriminate;
      destruct (round =? current_round gameState) eqn:E; simpl;
      try discriminate; intros _; apply Z.eqb_eq in E; subst; auto 6.
  - intros [-> | ->]; reflexivity.
  - intros -> Hr. apply Z.eqb_neq in Hr. simpl. rewrite Hr. simpl.
    now rewrite Z.eqb_refl.
  - intros Hp Hr. apply Z.eqb_neq in Hr.
    destruct Hp as [-> | [-> | [-> | ->]]]; simpl; rewrite Hr; simpl;
      now rewrite Z.eqb_refl.
Qed.

(** ** The detail modal and the clicks that open it *)

(** X9.  Whenever the modal's effect decides to fetch, [fetchDetails]
    does issue a request (it never stops for a missing timestamp), to the
    discussion endpoint for the two discussion types and to the vote
    endpoint otherwise, for the given game, round and seat.  A discussion
    request carries the timestamp, and an [attempt] parameter only for an
    attempt above 0; a vote request always carries the given attempt. *)
Theorem X9_modal_effect_fetch_is_well_formed :
  forall (p : LLMDetailModal.Props),
    LLMDetailModal.effectFetches p = true ->
    exists endpoint params,
      LLMDetailModal.fetchDetails p
      = LLMDetailModal.Fetch endpoint (LLMDetailModal.gameId p) params
      /\ LLMDetailModal.param "round_num" params
         = Some (LLMDetailModal.PNum (LLMDetailModal.roundNum p))
      /\ LLMDetailModal.param "player_seat" params
         = Some (LLMDetailModal.PNum (LLMDetailModal.playerSeat p))
      /\ (LLMDetailModal.isDiscussionType (LLMDetailModal.actionType p) = true ->
          endpoint = LLMDetailModal.discussion_llm_details
          /\ (exists t, LLMDetailModal.timestamp p = Some t
                        /\ LLMDetailModal.param "timestamp" params
                           = Some (LLMDetailModal.PStr t))
          /\ LLMDetailModal.param "attempt" params
             = match LLMDetailModal.voteAttempt p with
               | Some n => if 0 <? n then Some (LLMDetailModal.PNum n) else None
               | None => None
               end)
      /\ (LLMDetailModal.isDiscussionType (LLMDetailModal.actionType p) = false ->
          endpoint = LLMDetailModal.vote_llm_details
          /\ exists n, LLMDetailModal.voteAttempt p = Some n
                       /\ LLMDetailModal.param "attempt" params
                          = Some (LLMDetailModal.PNum n)).
Proof.
  intros [isOpen gameId roundNum playerSeat playerName timestamp actionType voteAttempt].
  unfold LLMDetailModal.effectFetches, LLMDetailModal.fetchDetails.
  cbn [LLMDetailModal.isOpen LLMDetailModal.gameId LLMDetailModal.actionType
       LLMDetailModal.timestamp LLMDetailModal.voteAttempt LLMDetailModal.roundNum
       LLMDetailModal.playerSeat].
  destruct (isOpen && JS.truthy (Some gameId)); [| intros H; discriminate H].
  destruct (LLMDetailModal.isDiscussionType actionType) eqn:Hd.
  - destruct (JS.truthy timestamp) eqn:Ht; simpl.
    + intros _. do 2 eexists. split; [reflexivity |].
      split; [reflexivity |]. split; [reflexivity |]. split; [| discriminate].
      intros _. split; [reflexivity |]. split.
      * destruct timestamp as [t |]; [| discriminate].
        exists t. split; reflexivity.
      * destruct voteAttempt as [n |]; simpl; [| reflexivity].
        destruct (0 <? n); reflexivity.
    + destruct actionType; simpl in *; intros H; congruence.
  - simpl. destruct voteAttempt as [n |]; simpl.
    + intros _. do 2 eexists. split; [reflexivity |].
      split; [reflexivity |]. split; [reflexivity |]. split; [discriminate |].
      intros _. split; [reflexivity |]. exists n. split; reflexivity.
    + destruct (LLMDetailModal.isVoteType actionType); intros H; discriminate H.
Qed.

Lemma X9_witness :
  exists endpoint params,
    LLMDetailModal.fetchDetails
      (LLMDetailModal.mkProps true "g" 4 2 "Ann" None
         LLMDetailModal.at_assassinate (Some 1))
    = LLMDetailModal.Fetch endpoint "g" params
    /\ endpoint = LLMDetailModal.vote_llm_details
    /\ LLMDetailModal.param "action_type" params
       = Some (LLMDetailModal.PStr "assassination")
    /\ LLMDetailModal.param "attempt" params = Some (LLMDetailModal.PNum 1).
Proof.
  destruct (X9_modal_effect_fetch_is_well_formed
              (LLMDetailModal.mkProps true "g" 4 2 "Ann" None
                 LLMDetailModal.at_assassinate (Some 1)) eq_refl)
    as (endpoint & params & Hfetch & _ & _ & _ & Hvote).
  exists endpoint, params. split; [exact Hfetch |].
  injection Hfetch as <- <-. repeat split.
Defined.

(** X10.  Opening the modal on a message of the assassination view: the
    board stamped the message with attempt 0, which the modal leaves out,
    so the request goes to the discussion endpoint as an
    [assassination_discussion] of the current round without an [attempt]
    parameter. *)
Theorem X10_assassination_message_request_omits_attempt :
  forall (gameState : GameState) (gameId : string) (msg : DiscussionMessage),
    In msg (GameBoard.dp_messages
              (GameBoard.discussionProps gameState GameBoard.AssassinationView)) ->
    JS.truthy (Some gameId) = true ->
    JS.truthy (d_timestamp msg) = true ->
    LLMDetailModal.effectFetches
      (Discussion.messageModal gameId true (current_round gameState) msg) = true
    /\ exists params,
         LLMDetailModal.fetchDetails
           (Discussion.messageModal gameId true (current_round gameState) msg)
         = LLMDetailModal.Fetch LLMDetailModal.discussion_llm_details gameId params
         /\ LLMDetailModal.param "attempt" params = None
         /\ LLMDetailModal.param "action_type" params
            = Some (LLMDetailModal.PStr "assassination_discussion")
         /\ LLMDetailModal.param "round_num" params
            = Some (LLMDetailModal.PNum (current_round gameState)).
Proof.
  intros gameState gameId msg Hin Hid Hts.
  rewrite assassination_view_messages in Hin.
  apply in_map_iff in Hin as [m [<- _]].
  cbn [GameBoard.asRoundMessage d_timestamp] in Hts.
  destruct (d_timestamp m) as [t |] eqn:Ht; [| discriminate].
  unfold LLMDetailModal.effectFetches, LLMDetailModal.fetchDetails,
    Discussion.messageModal.
  cbn [GameBoard.asRoundMessage d_round d_seat d_player_name d_timestamp d_attempt
       LLMDetailModal.isOpen LLMDetailModal.gameId LLMDetailModal.actionType
       LLMDetailModal.timestamp LLMDetailModal.voteAttempt LLMDetailModal.roundNum
       LLMDetailModal.playerSeat LLMDetailModal.isDiscussionType
       LLMDetailModal.timestamp_str LLMDetailModal.attemptParam
       LLMDetailModal.actionName andb negb].
  rewrite Ht, Hid. cbn [andb]. rewrite Hts. cbn [negb andb].
  split; [reflexivity |]. eexists. split; [reflexivity |]. repeat split.
Qed.

Lemma X10_witness :
  LLMDetailModal.effectFetches
    (Discussion.messageModal "g" true (current_round assassination_talk)
       (mkDiscussionMessage 1 "Bob" "seat 0" (Some "t1"%string) (Some 4) (Some 0)))
  = true
  /\ exists params,
       LLMDetailModal.fetchDetails
         (Discussion.messageModal "g" true (current_round assassination_talk)
            (mkDiscussionMessage 1 "Bob" "seat 0" (Some "t1"%string) (Some 4) (Some 0)))
       = LLMDetailModal.Fetch LLMDetailModal.discussion_llm_details "g" params
       /\ LLMDetailModal.param "attempt" params = None
       /\ LLMDetailModal.param "action_type" params
          = Some (LLMDetailModal.PStr "assassination_discussion")
       /\ LLMDetailModal.param "round_num" params
          = Some (LLMDetailModal.PNum (current_round assassination_talk)).
Proof.
  apply (X10_assassination_message_request_omits_attempt assassination_talk "g"
           (mkDiscussionMessage 1 "Bob" "seat 0" (Some "t1"%string) (Some 4) (Some 0))).
  - simpl. left. reflexivity.
  - reflexivity.
  - reflexivity.
Defined.

Lemma find_by_seat_unique : forall (roster : list Player) (a : Player),
  NoDup (map seat roster) -> In a roster ->
  Discussion.getPlayer roster (seat a) = Some a.
Proof.
  unfold Discussion.getPlayer.
  induction roster as [| p ps IH]; intros a Hnd Hin; [contradiction |].
  inversion Hnd as [| s l Hp Hps]; subst. simpl.
  destruct Hin as [-> | Hin].
  - now rewrite Z.eqb_refl.
  - destruct (seat p =? seat a) eqn:E; [| now apply IH].
    apply Z.eqb_eq in E. exfalso. apply Hp. rewrite E. now apply in_map.
Qed.

(** X11.  With pairwise distinct seats, a button of a vote record is
    enabled exactly when clicking it selects a vote for the detail modal.
    The selected vote is that of an AI player: the player of the clicked
    seat for a team vote, the assassin in the assassination view; it keeps
    the record's round and attempt and the player's name, and the modal
    opened for it does fetch. *)
Theorem X11_enabled_vote_button_selects_a_vote :
  forall (players : list Player) (gameId : option string)
         (isAssassination : bool) (vote : VoteResult) (seatNum : Z),
    NoDup (map seat players) ->
    (Discussion.voteButtonClick players gameId isAssassination vote seatNum = None
     <-> Discussion.voteClickable players gameId isAssassination seatNum = false)
    /\ (forall sv,
          Discussion.voteButtonClick players gameId isAssassination vote seatNum
          = Some sv ->
          exists p g,
            gameId = Some g
            /\ In p players
            /\ seat p = Discussion.sv_playerSeat sv
            /\ is_human p = false
            /\ Discussion.sv_playerName sv = name p
            /\ Discussion.sv_roundNum sv = v_round vote
            /\ Discussion.sv_attempt sv = v_attempt vote
            /\ (isAssassination = false -> Discussion.sv_playerSeat sv = seatNum)
            /\ (isAssassination = true -> JS.str_is (role p) "assassin" = true)
            /\ LLMDetailModal.effectFetches (Discussion.voteModal g sv) = true).
Proof.
  intros players gameId isAssassination vote seatNum Hnd.
  unfold Discussion.voteButtonClick, Discussion.voteClickable,
    Discussion.handleVoteClick.
  destruct isAssassination; cbn [Discussion.assassinPlayer].
  - destruct (find (fun p => JS.str_is (role p) "assassin") players) as [a |] eqn:Ha.
    + apply find_some in Ha as [Hin Hrole].
      rewrite (find_by_seat_unique players a Hnd Hin).
      destruct (JS.truthy gameId) eqn:Hg; destruct (is_human a) eqn:Hh; simpl.
      * split; [tauto | discriminate].
      * split; [split; discriminate |]. intros sv Hsv. injection Hsv as <-.
        destruct gameId as [g |]; [| discriminate]. exists a, g. simpl.
        unfold LLMDetailModal.effectFetches. simpl. simpl in Hg. rewrite Hg.
        repeat split; auto; intros H; discriminate H.
      * split; [tauto | discriminate].
      * split; [tauto | discriminate].
    + rewrite andb_false_r. split; [tauto | discriminate].
  - destruct (Discussion.getPlayer players seatNum) as [p |] eqn:Hp.
    + unfold Discussion.getPlayer in Hp. apply find_some in Hp as [Hin Hseat].
      apply Z.eqb_eq in Hseat.
      destruct (JS.truthy gameId) eqn:Hg; destruct (is_human p) eqn:Hh; simpl.
      * split; [tauto | discriminate].
      * split; [split; discriminate |]. intros sv Hsv. injection Hsv as <-.
        destruct gameId as [g |]; [| discriminate]. exists p, g. simpl.
        unfold LLMDetailModal.effectFetches. simpl. simpl in Hg. rewrite Hg.
        repeat split; auto; intros H; discriminate H.
      * split; [tauto | discriminate].
      * split; [tauto | discriminate].
    + rewrite andb_false_r. split; [tauto | discriminate].
Qed.

Lemma X11_witness :
  NoDup (map seat ai_assassin_roster)
  /\ Discussion.voteClickable ai_assassin_roster (Some "g"%string) true 0 = true
  /\ Discussion.voteButtonClick ai_assassin_roster (Some "g"%string) true
       (mkVoteResult 4 1 [(0, true)] true) 0
     = Some (Discussion.mkSelectedVote LLMDetailModal.at_assassinate 4 1 1 "Bob")
  /\ exists p g,
       Some "g"%string = Some g
       /\ In p ai_assassin_roster
       /\ seat p = 1
       /\ is_human p = false
       /\ "Bob"%string = name p
       /\ 4 = v_round (mkVoteResult 4 1 [(0, true)] true)
       /\ 1 = v_attempt (mkVoteResult 4 1 [(0, true)] true)
       /\ (true = false -> 1 = 0)
       /\ (true = true -> JS.str_is (role p) "assassin" = true)
       /\ LLMDetailModal.effectFetches
            (Discussion.voteModal g
               (Discussion.mkSelectedVote LLMDetailModal.at_assassinate 4 1 1 "Bob"))
          = true.
Proof.
  assert (Hnd : NoDup (map seat ai_assassin_roster)).
  { simpl. repeat constructor; simpl; intuition discriminate. }
  split; [exact Hnd |]. split; [reflexivity |]. split; [reflexivity |].
  apply (proj2 (X11_enabled_vote_button_selects_a_vote ai_assassin_roster
                  (Some "g"%string) true (mkVoteResult 4 1 [(0, true)] true) 0 Hnd)
           (Discussion.mkSelectedVote LLMDetailModal.at_assassinate 4 1 1 "Bob")).
  reflexivity.
Defined.

(** When two records share a seat, the assassin's button can be enabled
    and yet do nothing: the click looks the assassin up by seat and finds
    the other record, a human. *)
Example shared_seat_breaks_the_assassin_button :
  let ps := [ mkPlayer 1 "Ann" true None None None None None;
              mkPlayer 1 "Bob" false (Some "assassin"%string) None None None None ] in
  Discussion.voteClickable ps (Some "g"%string) true 0 = true
  /\ Discussion.voteButtonClick ps (Some "g"%string) true
       (mkVoteResult 4 1 [(0, true)] true) 0 = None.
Proof. split; reflexivity. Qed.

(** ** The game page: submitting a team, choosing a target, the human seat *)

Lemma or_num_index_bound : forall (sizes : list Z) (i : Z),
  (forall x, In x sizes -> 2 <= x) -> 2 <= JS.or_num (JS.index sizes i) 2.
Proof.
  intros sizes i Hall. unfold JS.index.
  destruct (i <? 0); simpl; [lia |].
  destruct (nth_error sizes (Z.to_nat i)) as [x |] eqn:E; simpl; [| lia].
  apply nth_error_In, Hall in E. destruct x; simpl; lia.
Qed.

Lemma requiredSize_at_least_two : forall gameState,
  2 <= HumanControls.requiredSize gameState.
Proof.
  intros gameState. unfold HumanControls.requiredSize.
  destruct (HumanControls.QUEST_SIZES (player_count gameState)) as [sizes |] eqn:E;
    [| simpl; lia].
  apply or_num_index_bound. intros x Hx.
  unfold HumanControls.QUEST_SIZES in E.
  destruct (player_count gameState) as [| p | p]; try discriminate.
  repeat (destruct p as [p | p |]; try discriminate);
    injection E as <-; simpl in Hx; intuition lia.
Qed.

(** X12.  The required team size is at least 2 whatever the state, so an
    enabled confirm button means a selection of at least two seats: the
    page's own guard against an empty team never stops an enabled
    submission.  With a game id, clicking the enabled button sends exactly
    one team message, carrying the selection and the trimmed speech, and
    clears the selection, which disables the button again. *)
Theorem X12_enabled_confirm_always_sends :
  forall (trim : string -> string) (gameState : GameState) (input gid : string)
         (st : GameStore.Store),
    JS.truthy (Some gid) = true ->
    HumanControls.disabled
      (HumanControls.teamSubmitButton trim gameState
         (GameStore.selectedPlayers st) input) = false ->
    2 <= JS.length (GameStore.selectedPlayers st)
    /\ flat_map (Game.handle (Some gid) (GameStore.selectedPlayers st))
         (HumanControls.calls
            (HumanControls.teamSubmitButton trim gameState
               (GameStore.selectedPlayers st) input))
       = [Game.sendTeamSelect gid (GameStore.selectedPlayers st)
            (if HumanControls.nonblank trim input then Some (trim input) else None)]
    /\ (forall speech,
          GamePage.handleTeamSelect (Some gid) speech st
          = ([Game.sendTeamSelect gid (GameStore.selectedPlayers st) speech],
             GameStore.clearSelection st))
    /\ (forall input',
          HumanControls.disabled
            (HumanControls.teamSubmitButton trim gameState
               (GameStore.selectedPlayers (GameStore.clearSelection st)) input')
          = true).
Proof.
  intros trim gameState input gid st Hgid Hen. simpl in Hen.
  apply negb_false_iff, Z.eqb_eq in Hen.
  pose proof (requiredSize_at_least_two gameState) as Hreq.
  assert (Hpos : (0 <? JS.length (GameStore.selectedPlayers st)) = true)
    by (apply Z.ltb_lt; lia).
  split; [lia |]. split; [| split].
  - cbn [HumanControls.teamSubmitButton HumanControls.calls flat_map].
    unfold Game.handle. rewrite Hgid, Hpos. reflexivity.
  - intros speech. unfold GamePage.handleTeamSelect. now rewrite Hgid, Hpos.
  - intros input'. cbn [HumanControls.teamSubmitButton HumanControls.disabled
                        GameStore.clearSelection GameStore.selectedPlayers].
    apply negb_true_iff, Z.eqb_neq. unfold JS.length. simpl. lia.
Qed.

Lemma X12_witness :
  flat_map (Game.handle (Some "g"%string) [0; 1; 2])
    (HumanControls.calls
       (HumanControls.teamSubmitButton (fun s => s) five_players_round_two
          [0; 1; 2] "ok"))
  = [Game.sendTeamSelect "g" [0; 1; 2] (Some "ok"%string)].
Proof.
  apply (X12_enabled_confirm_always_sends (fun s => s) five_players_round_two
           "ok" "g" (GameStore.mkStore true None (Some 1) false [0; 1; 2]));
    reflexivity.
Defined.

(** X13.  At the assassination decision the button names the seat that
    was selected first and is still selected: with nothing selected there
    is no button; selecting a seat on an empty selection makes it the
    target; clicking any other card afterwards leaves the target as it
    is; unselecting the target hands the role to the next selected seat. *)
Theorem X13_assassination_target_is_first_selected :
  forall (trim : string -> string) (gameState : GameState) (humanSeat : option Z)
         (input : string) (a k : Z) (rest : list Z),
    human_action_type gameState = Some act_assassinate ->
    k <> a ->
    ~ In a rest ->
    HumanControls.controls trim gameState humanSeat [] input = []
    /\ HumanControls.controls trim gameState humanSeat (GameStore.toggle [] a) input
       = [HumanControls.mkButton [HumanControls.onAssassinate a] false false]
    /\ HumanControls.controls trim gameState humanSeat
         (GameStore.toggle (a :: rest) k) input
       = [HumanControls.mkButton [HumanControls.onAssassinate a] false false]
    /\ HumanControls.controls trim gameState humanSeat
         (GameStore.toggle (a :: rest) a) input
       = match rest with
         | b :: _ => [HumanControls.mkButton [HumanControls.onAssassinate b] false false]
         | [] => []
         end.
Proof.
  intros trim gameState humanSeat input a k rest Hact Hk Ha.
  unfold HumanControls.controls. rewrite Hact.
  split; [reflexivity |]. split; [reflexivity |]. split.
  - unfold GameStore.toggle. destruct (JS.includes (a :: rest) k); simpl.
    + destruct (a =? k) eqn:E; [apply Z.eqb_eq in E; congruence |]. reflexivity.
    + reflexivity.
  - unfold GameStore.toggle, JS.includes. simpl. rewrite Z.eqb_refl. simpl.
    rewrite filter_neq_absent by assumption. reflexivity.
Qed.

Lemma X13_witness :
  HumanControls.controls (fun s => s)
    (mkGameState "g" in_progress assassination 4 0 1 [] 5 [] [] [] [] None None
       None true (Some act_assassinate))
    (Some 1) (GameStore.toggle [3; 0] 2) EmptyString
  = [HumanControls.mkButton [HumanControls.onAssassinate 3] false false].
Proof.
  apply (X13_assassination_target_is_first_selected (fun s => s)
           (mkGameState "g" in_progress assassination 4 0 1 [] 5 [] [] [] [] None
              None None true (Some act_assassinate))
           (Some 1) EmptyString 3 2 [0]).
  - reflexivity.
  - discriminate.
  - simpl. intuition discriminate.
Defined.

Lemma setGameState_humanSeat : forall state st,
  GameStore.humanSeat (GameStore.setGameState state st) = GameStore.humanSeat st.
Proof.
  intros state st. unfold GameStore.setGameState.
  destruct (GameStore.gameState st);
    [destruct (GameStore.godMode st && JS.array_truthy (players state)) |];
    reflexivity.
Qed.

Lemma loadGame_humanSeat : forall game st,
  GameStore.humanSeat (GamePage.loadGame game st)
  = match find is_human (players game) with
    | Some human => Some (seat human)
    | None => GameStore.humanSeat st
    end.
Proof.
  intros game st. unfold GamePage.loadGame.
  destruct (find is_human (players game)); [reflexivity |].
  apply setGameState_humanSeat.
Qed.

(** X14.  Loading a game sets the human seat to the seat of its first
    human player, but a game without human players leaves the human seat
    as it was.  So once a human seat is set, no series of game loads and
    socket state updates ever returns it to null, and the board of every
    game loaded afterwards is rendered with roles enabled, also for a
    running game of AI players watched without god mode. *)
Theorem X14_human_seat_is_never_reset :
  forall (arrivals : list GamePage.Arrival) (st : GameStore.Store),
    GameStore.humanSeat st <> None ->
    GameStore.humanSeat (fold_left GamePage.receive arrivals st) <> None
    /\ forall gameState,
         GameBoard.showRoles gameState
           (GamePage.boardHumanSeat (fold_left GamePage.receive arrivals st))
           false = true.
Proof.
  intros arrivals st Hset.
  assert (Hkeep : GameStore.humanSeat (fold_left GamePage.receive arrivals st)
                  <> None).
  { revert st Hset. induction arrivals as [| a arrivals IH]; intros st Hset; simpl.
    - exact Hset.
    - apply IH. destruct a as [game | state]; simpl.
      + rewrite loadGame_humanSeat.
        destruct (find is_human (players game)); [discriminate | exact Hset].
      + now rewrite setGameState_humanSeat. }
  split; [exact Hkeep |]. intros gameState.
  unfold GameBoard.showRoles, GamePage.boardHumanSeat.
  destruct (GameStore.humanSeat (fold_left GamePage.receive arrivals st));
    [| contradiction].
  simpl. now rewrite orb_true_r.
Qed.

Lemma X14_witness :
  GameStore.humanSeat
    (fold_left GamePage.receive
       [GamePage.Loaded seven_players_round_two;
        GamePage.Pushed five_players_round_two]
       (GamePage.loadGame good_at_quest GameStore.initialStore))
  <> None.
Proof.
  apply (X14_human_seat_is_never_reset
           [GamePage.Loaded seven_players_round_two;
            GamePage.Pushed five_players_round_two]
           (GamePage.loadGame good_at_quest GameStore.initialStore)).
  discriminate.
Defined.

(** ** The quest tracker's circles *)

(** X15.  At most one of the five round circles is marked current: the
    circle of the current round, when that round is within 1..5 and the
    phase is none of assassination discussion, assassination and game
    over; in those three phases no circle is current.  A circle prints a
    team size exactly when no result is recorded for its round, and the
    size printed is then a positive number. *)
Theorem X15_one_current_circle :
  forall (questResults : list QuestResult) (currentRound playerCount : Z)
         (phase : option GamePhase),
    (filter (QuestTracker.isCurrent currentRound phase) QuestTracker.rounds
     = if (1 <=? currentRound) && (currentRound <=? 5)
          && negb (phase_is phase assassination_discussion)
          && negb (phase_is phase assassination)
          && negb (phase_is phase game_over)
       then [currentRound] else [])
    /\ (forall round, In round QuestTracker.rounds ->
          (QuestTracker.result questResults round = None <->
           exists n, QuestTracker.circleContent questResults playerCount round
                     = QuestTracker.SizeNumber (Some n) /\ 0 < n)).
Proof.
  intros questResults currentRound playerCount phase. split.
  - destruct (Z.eq_dec currentRound 1) as [-> | N1];
      [destruct phase as [[] |]; reflexivity |].
    destruct (Z.eq_dec currentRound 2) as [-> | N2];
      [destruct phase as [[] |]; reflexivity |].
    destruct (Z.eq_dec currentRound 3) as [-> | N3];
      [destruct phase as [[] |]; reflexivity |].
    destruct (Z.eq_dec currentRound 4) as [-> | N4];
      [destruct phase as [[] |]; reflexivity |].
    destruct (Z.eq_dec currentRound 5) as [-> | N5];
      [destruct phase as [[] |]; reflexivity |].
    assert (H1 : (1 =? currentRound) = false) by (apply Z.eqb_neq; lia).
    assert (H2 : (2 =? currentRound) = false) by (apply Z.eqb_neq; lia).
    assert (H3 : (3 =? currentRound) = false) by (apply Z.eqb_neq; lia).
    assert (H4 : (4 =? currentRound) = false) by (apply Z.eqb_neq; lia).
    assert (H5 : (5 =? currentRound) = false) by (apply Z.eqb_neq; lia).
    assert (Hr : (1 <=? currentRound) && (currentRound <=? 5) = false).
    { destruct (Z.leb_spec 1 currentRound), (Z.leb_spec currentRound 5);
        simpl; try reflexivity; lia. }
    unfold QuestTracker.rounds.
    cbn [filter QuestTracker.isCurrent].
    unfold QuestTracker.isCurrent. rewrite H1, H2, H3, H4, H5, Hr. reflexivity.
  - intros round Hin. unfold QuestTracker.circleContent.
    destruct (QuestTracker.result questResults round) as [q |].
    + split; [discriminate |]. intros [n [Hc _]].
      destruct (q_success q) as [[] |]; discriminate.
    + split; [| reflexivity]. intros _.
      destruct (roundSize_defined playerCount round) as [n [Hn Hpos]].
      { unfold QuestTracker.rounds in Hin. simpl in Hin. lia. }
      exists n. now rewrite Hn.
Qed.

(** ** The creation form *)

Lemma index_map : forall (A B : Type) (f : A -> B) (l : list A) (i : Z),
  JS.index (map f l) i = option_map f (JS.index l i).
Proof.
  intros A B f l i. unfold JS.index. destruct (i <? 0); [reflexivity |].
  apply nth_error_map.
Qed.

Lemma index_range_iff : forall (n i j : Z),
  JS.index (Home.range n) i = Some j <-> j = i /\ 0 <= i < n.
Proof.
  intros n i j. unfold JS.index, Home.range.
  destruct (i <? 0) eqn:E.
  - apply Z.ltb_lt in E. split; [discriminate | lia].
  - apply Z.ltb_ge in E. rewrite nth_error_map, nth_error_seq.
    destruct (Z.to_nat i <? Z.to_nat n)%nat eqn:En; simpl.
    + apply Nat.ltb_lt in En. split.
      * intros H. injection H as <-. lia.
      * intros [-> _]. f_equal. lia.
    + apply Nat.ltb_ge in En. split; [discriminate | lia].
Qed.

Lemma range_length : forall n, 0 <= n -> JS.length (Home.range n) = n.
Proof.
  intros n Hn. unfold JS.length, Home.range. rewrite length_map, length_seq. lia.
Qed.

Section FormFacts.

Variable playerLabel : Z -> string.

Lemma seats_initPlayers : forall n ps ms,
  map Home.pc_seat (Home.initPlayers playerLabel n ps ms) = Home.range n.
Proof.
  intros n ps ms. unfold Home.initPlayers. rewrite map_map. simpl.
  apply map_id.
Qed.

Lemma seats_applyUpdate : forall u p,
  Home.pc_seat (Home.applyUpdate u p) = Home.pc_seat p.
Proof. intros [] p; reflexivity. Qed.

Lemma seats_updateFrom : forall ps i index u,
  map Home.pc_seat (Home.updateFrom i index u ps) = map Home.pc_seat ps.
Proof.
  induction ps as [| p ps IH]; intros i index u; simpl; [reflexivity |].
  rewrite IH. destruct (i =? index); [now rewrite seats_applyUpdate | reflexivity].
Qed.

Lemma seats_global : forall value ps,
  map Home.pc_seat (Home.handleGlobalModelChange value ps) = map Home.pc_seat ps.
Proof.
  intros value ps. unfold Home.handleGlobalModelChange.
  destruct (negb (JS.truthy (Some value))); [reflexivity |].
  rewrite map_map. apply map_ext. intros p. apply seats_applyUpdate.
Qed.

Lemma formStep_inv : forall f e,
  Home.formInv f -> Home.formInv (Home.formStep playerLabel f e).
Proof.
  intros f e [Hseats Hcount]. unfold Home.formInv.
  destruct e as [b | index s | index | index value | value | ms]; simpl.
  - destruct (Home.click (Home.f_playerCount f) b =? Home.f_playerCount f);
      simpl; [now split |].
    split; [apply seats_initPlayers | now apply click_keeps_range].
  - unfold Home.updatePlayer. now rewrite seats_updateFrom.
  - destruct (JS.index (Home.f_players f) index); simpl; [| now split].
    unfold Home.updatePlayer. now rewrite seats_updateFrom.
  - unfold Home.updatePlayer. now rewrite seats_updateFrom.
  - now rewrite seats_global.
  - split; [apply seats_initPlayers | assumption].
Qed.

Lemma formAfter_inv : forall es, Home.formInv (Home.formAfter playerLabel es).
Proof.
  intros es. unfold Home.formAfter.
  assert (H0 : Home.formInv (Home.initialForm playerLabel)).
  { split; [apply seats_initPlayers |].
    unfold Home.initialForm, Home.initialPlayerCount.
    cbn [Home.f_playerCount]. lia. }
  revert H0. generalize (Home.initialForm playerLabel).
  induction es as [| e es IH]; intros f Hf; simpl; [exact Hf |].
  now apply IH, formStep_inv.
Qed.

End FormFacts.

(** X16.  Whatever the user does on the creation form (count buttons,
    renaming, human/AI switches, model selections, a model list arriving),
    the player list has exactly as many entries as the player count, the
    count is 5 or 6, and the player at position [i] has seat [i].  A
    creation request therefore carries a player count equal to the number
    of its players, and each of its AI players has a model and a
    provider. *)
Theorem X16_creation_form_stays_consistent :
  forall (playerLabel : Z -> string) (es : list Home.FormEvent),
    let f := Home.formAfter playerLabel es in
    JS.length (Home.f_players f) = Home.f_playerCount f
    /\ 5 <= Home.f_playerCount f <= 6
    /\ (forall i p, JS.index (Home.f_players f) i = Some p -> Home.pc_seat p = i)
    /\ (forall request,
          Home.handleCreateGame (Home.f_playerCount f) (Home.f_players f)
          = Some request ->
          Home.req_player_count request = JS.length (Home.req_players request)
          /\ forall p, In p (Home.req_players request) ->
                       Home.pc_is_human p = false ->
                       JS.truthy (Home.pc_model p) = true
                       /\ JS.truthy (Home.pc_provider p) = true).
Proof.
  intros playerLabel es. cbv zeta.
  destruct (formAfter_inv playerLabel es) as [Hseats Hcount].
  set (f := Home.formAfter playerLabel es) in *.
  assert (Hlen : JS.length (Home.f_players f) = Home.f_playerCount f).
  { rewrite <- (range_length (Home.f_playerCount f)) by lia.
    rewrite <- Hseats. unfold JS.length. now rewrite length_map. }
  split; [exact Hlen |]. split; [exact Hcount |]. split.
  - intros i p Hp.
    assert (Hi : JS.index (map Home.pc_seat (Home.f_players f)) i
                 = Some (Home.pc_seat p)) by (rewrite index_map, Hp; reflexivity).
    rewrite Hseats in Hi. now apply index_range_iff in Hi.
  - intros request Hreq. unfold Home.handleCreateGame in Hreq.
    destruct (existsb Home.lacksModel (Home.f_players f)) eqn:E; [discriminate |].
    injection Hreq as <-. simpl. split; [now symmetry |].
    intros p Hin Hai.
    assert (Hp : Home.lacksModel p = false).
    { destruct (Home.lacksModel p) eqn:Hl; [| reflexivity].
      assert (existsb Home.lacksModel (Home.f_players f) = true)
        by (apply existsb_exists; now exists p).
      congruence. }
    unfold Home.lacksModel in Hp. rewrite Hai in Hp. simpl in Hp.
    apply orb_false_iff in Hp as [Hm Hpr].
    now rewrite negb_false_iff in Hm, Hpr.
Qed.

(** X17.  The initialising effect, rerun when the count changes or models
    arrive, rebuilds position [i] from the player that was there: a
    player that already has seat [i], a non-empty name, a model and a
    provider comes out unchanged; a position with no player gets the
    default name, is an AI player, and takes the first model of the list
    (none when the list is empty). *)
Theorem X17_effect_keeps_configured_players :
  forall (playerLabel : Z -> string) (players : list Home.PlayerConfig)
         (models : list Home.ModelInfo) (n i : Z),
    0 <= i < n ->
    (forall e,
        JS.index players i = Some e ->
        Home.pc_seat e = i ->
        JS.truthy (Some (Home.pc_name e)) = true ->
        JS.truthy (Home.pc_model e) = true ->
        JS.truthy (Home.pc_provider e) = true ->
        JS.index (Home.initPlayers playerLabel n players models) i = Some e)
    /\ (JS.index players i = None ->
        JS.index (Home.initPlayers playerLabel n players models) i
        = Some (Home.mkPlayerConfig i (playerLabel (i + 1)) false
                  (option_map Home.mi_model (JS.index models 0))
                  (option_map Home.mi_provider (JS.index models 0)))).
Proof.
  intros playerLabel players models n i Hi.
  assert (Hidx : JS.index (Home.initPlayers playerLabel n players models) i
                 = Some (Home.initPlayer playerLabel players models i)).
  { unfold Home.initPlayers. rewrite index_map.
    now rewrite (proj2 (index_range_iff n i i) (conj eq_refl Hi)). }
  rewrite Hidx. split.
  - intros e He Hseat Hname Hmodel Hprov. f_equal.
    unfold Home.initPlayer. rewrite He. simpl.
    unfold Home.or_opt. rewrite Hmodel, Hprov.
    destruct e as [seat0 name0 human0 model0 provider0]; simpl in *.
    subst seat0. destruct name0; [discriminate | reflexivity].
  - intros Hnone. f_equal. unfold Home.initPlayer. rewrite Hnone. reflexivity.
Qed.

Lemma X17_witness :
  JS.index
    (Home.initPlayers (fun _ => "P"%string) 6
       [Home.mkPlayerConfig 0 "Ann" true None None] []) 1
  = Some (Home.mkPlayerConfig 1 "P" false None None).
Proof.
  apply (X17_effect_keeps_configured_players (fun _ => "P"%string)
           [Home.mkPlayerConfig 0 "Ann" true None None] [] 6 1).
  - lia.
  - reflexivity.
Defined.

Lemma splitColon_prefix : forall (p rest : string),
  Home.hasColon p = false ->
  Home.splitColon (String.append p (String ":"%char rest))
  = p :: Home.splitColon rest.
Proof.
  induction p as [| c p IH]; intros rest Hp; simpl.
  - reflexivity.
  - simpl in Hp. apply orb_false_iff in Hp as [Hc Hp]. rewrite Hc.
    now rewrite (IH rest Hp).
Qed.

Lemma splitColon_plain : forall (s : string),
  Home.hasColon s = false -> Home.splitColon s = [s].
Proof.
  induction s as [| c s IH]; intros Hs; simpl; [reflexivity |].
  simpl in Hs. apply orb_false_iff in Hs as [Hc Hs]. rewrite Hc.
  now rewrite (IH Hs).
Qed.

(** X18.  A model option's value is [provider:model], and selecting it
    splits the value at colons and keeps the first two parts.  When
    neither the provider nor the model contains a colon, selecting the
    option gives back exactly that provider and model, for one player and
    for all players at once. *)
Theorem X18_model_value_round_trip :
  forall (provider model : string),
    Home.hasColon provider = false ->
    Home.hasColon model = false ->
    Home.parseModelValue (Home.modelValue provider model)
    = (Some provider, Some model)
    /\ (forall players p,
          In p (Home.handleGlobalModelChange (Home.modelValue provider model) players) ->
          Home.pc_provider p = Some provider /\ Home.pc_model p = Some model).
Proof.
  intros provider model Hp Hm.
  assert (Hparse : Home.parseModelValue (Home.modelValue provider model)
                   = (Some provider, Some model)).
  { unfold Home.parseModelValue, Home.modelValue.
    now rewrite (splitColon_prefix provider model Hp), (splitColon_plain model Hm). }
  assert (Htruthy : JS.truthy (Some (Home.modelValue provider model)) = true).
  { unfold Home.modelValue. destruct provider; reflexivity. }
  assert (Hall : forall players p,
             In p (Home.handleGlobalModelChange (Home.modelValue provider model) players) ->
             Home.pc_provider p = Some provider /\ Home.pc_model p = Some model).
  { intros players p Hin. unfold Home.handleGlobalModelChange in Hin.
    rewrite Htruthy, Hparse in Hin. simpl in Hin.
    apply in_map_iff in Hin as [q [<- _]]. split; reflexivity. }
  split; [exact Hparse | exact Hall].
Qed.

Lemma X18_witness :
  Home.parseModelValue (Home.modelValue "openai" "gpt-4o")
  = (Some "openai"%string, Some "gpt-4o"%string).
Proof.
  apply (X18_model_value_round_trip "openai" "gpt-4o"); reflexivity.
Defined.

(** A model name with a colon in it is cut at the colon. *)
Example model_with_colon_is_truncated :
  Home.parseModelValue (Home.modelValue "ollama" "llama3:8b")
  = (Some "ollama"%string, Some "llama3"%string).
Proof. reflexivity. Qed.

(** ** The replay page: auto-play, timeline and what the board shows *)

(** Case analysis on every integer comparison of the goal. *)
Ltac decide_comparison :=
  first
    [ match goal with
      | |- context [?x =? ?y] => destruct (Z.eqb_spec x y) as [? | ?]
      end
    | match goal with
      | |- context [?x <? ?y] => destruct (Z.ltb_spec x y) as [? | ?]
      end
    | match goal with
      | |- context [?x <=? ?y] => destruct (Z.leb_spec x y) as [? | ?]
      end ].

Ltac replay_cases :=
  repeat (decide_comparison;
          cbn [Replay.currentIndex Replay.playing negb andb orb]);
  solve [f_equal; lia | exfalso; lia].

Lemma replay_play : forall (states : list GameState),
  states <> [] ->
  Replay.step states Replay.initial Replay.PlayClick
  = Replay.mkPlayback (Z.min 0 (JS.length states - 1)) (0 <? JS.length states - 1).
Proof.
  intros states Hne. pose proof (len_pos states Hne) as Hlen.
  unfold Replay.step, Replay.autoPlayEffect, Replay.atEnd, Replay.initial.
  cbn [Replay.currentIndex Replay.playing negb andb orb].
  replay_cases.
Qed.

Lemma replay_tick : forall (states : list GameState) (n : Z),
  states <> [] -> 0 <= n ->
  Replay.step states
    (Replay.mkPlayback (Z.min n (JS.length states - 1)) (n <? JS.length states - 1))
    Replay.TimerFired
  = Replay.mkPlayback (Z.min (n + 1) (JS.length states - 1))
                      (n + 1 <? JS.length states - 1).
Proof.
  intros states n Hne Hn. pose proof (len_pos states Hne) as Hlen.
  unfold Replay.step, Replay.timerArmed, Replay.autoPlayEffect, Replay.tick,
    Replay.atEnd.
  cbn [Replay.currentIndex Replay.playing negb andb orb].
  replay_cases.
Qed.

Lemma replay_play_then_ticks : forall (states : list GameState) (n : nat),
  states <> [] ->
  Replay.run states (Replay.PlayClick :: repeat Replay.TimerFired n)
  = Replay.mkPlayback (Z.min (Z.of_nat n) (JS.length states - 1))
                      (Z.of_nat n <? JS.length states - 1).
Proof.
  intros states n Hne. induction n as [| n IH].
  - unfold Replay.run. cbn [repeat fold_left]. now apply replay_play.
  - unfold Replay.run in *.
    change (Replay.PlayClick :: repeat Replay.TimerFired (S n))
      with (Replay.PlayClick :: Replay.TimerFired :: repeat Replay.TimerFired n).
    rewrite (repeat_cons n Replay.TimerFired), app_comm_cons, fold_left_app, IH.
    cbn [fold_left]. rewrite (replay_tick states (Z.of_nat n) Hne) by lia.
    now replace (Z.of_nat (S n)) with (Z.of_nat n + 1) by lia.
Qed.

(** X19.  Auto-play runs to the end and stops there: after pressing play
    on a freshly opened replay and [n] firings of the timer, the page
    shows state [min(n, length - 1)], and it is still playing exactly
    while [n < length - 1]; further timer events change nothing. *)
Theorem X19_auto_play_reaches_the_last_state :
  forall (states : list GameState) (n : nat),
    states <> [] ->
    Replay.run states (Replay.PlayClick :: repeat Replay.TimerFired n)
    = Replay.mkPlayback (Z.min (Z.of_nat n) (JS.length states - 1))
                        (Z.of_nat n <? JS.length states - 1)
    /\ (JS.length states - 1 <= Z.of_nat n ->
        forall extra,
          Replay.run states
            (Replay.PlayClick :: repeat Replay.TimerFired (n + extra))
          = Replay.mkPlayback (JS.length states - 1) false).
Proof.
  intros states n Hne. split; [now apply replay_play_then_ticks |].
  intros Hn extra. rewrite (replay_play_then_ticks states (n + extra) Hne).
  f_equal; [lia |]. apply Z.ltb_ge. lia.
Qed.

Lemma X19_witness :
  Replay.run [good_at_quest; seven_players_round_two; five_players_round_two]
    (Replay.PlayClick :: repeat Replay.TimerFired 2)
  = Replay.mkPlayback 2 false.
Proof.
  exact (proj1 (X19_auto_play_reaches_the_last_state
                  [good_at_quest; seven_players_round_two; five_players_round_two]
                  2 (fun E => @nil_cons GameState good_at_quest
                                  [seven_players_round_two; five_players_round_two]
                                  (eq_sym E)))).
Defined.

(** X20.  The replay page renders the board without a [humanSeat], which
    the board does not take for null: whatever state is shown, finished or
    not, every card is rendered with roles enabled, so each player record
    that carries a role shows its role badge. *)
Theorem X20_replay_shows_every_carried_role :
  forall (ROLE_NAMES : string -> option string) (states : list GameState)
         (p : Replay.Playback) (gameState : GameState),
    Replay.currentState states p = Some gameState ->
    Replay.board ROLE_NAMES states p
    = Some (map (fun player =>
                   (seat player,
                    PlayerCard.badges ROLE_NAMES true
                      (GameBoard.cardPlayer gameState player)))
                (players gameState))
    /\ forall player,
         In player (players gameState) ->
         JS.truthy (role player) = true ->
         In (seat player,
             [PlayerCard.mkBadge (PlayerCard.teamVariant player)
                (PlayerCard.RoleText
                   (JS.or_str (ROLE_NAMES (PlayerCard.role_str player))
                              (PlayerCard.role_str player)))])
            (GameBoard.playerCards ROLE_NAMES gameState
               GameBoard.seat_undefined false).
Proof.
  intros ROLE_NAMES states p gameState Hcur.
  assert (Hshow : GameBoard.showRoles gameState GameBoard.seat_undefined false = true).
  { unfold GameBoard.showRoles. simpl. now rewrite orb_true_r. }
  split.
  - unfold Replay.board, GameBoard.playerCards. now rewrite Hcur, Hshow.
  - intros player Hin Hrole. unfold GameBoard.playerCards. rewrite Hshow.
    apply in_map_iff. exists player. split; [| assumption]. f_equal.
    unfold PlayerCard.badges, PlayerCard.roleBadge, PlayerCard.teamBadge.
    cbn [GameBoard.cardPlayer role team]. rewrite Hrole.
    cbn [andb negb]. rewrite andb_false_r. reflexivity.
Qed.

Lemma X20_witness :
  In (0, [PlayerCard.mkBadge PlayerCard.default (PlayerCard.RoleText "merlin")])
     (GameBoard.playerCards (fun _ => None) good_at_quest
        GameBoard.seat_undefined false).
Proof.
  apply (proj2 (X20_replay_shows_every_carried_role (fun _ => None) [good_at_quest]
                  Replay.initial good_at_quest eq_refl)
           (mkPlayer 0 "Ann" true (Some "merlin"%string) (Some "good"%string)
                     None None None)).
  - left. reflexivity.
  - reflexivity.
Defined.

Ltac bool_cases :=
  repeat (decide_comparison; cbn [andb negb orb]);
  solve [reflexivity | exfalso; lia].

Lemma count_current_mark : forall (len : nat) (start : nat) (i : Z),
  List.length
    (filter Replay.isCurrentMark
       (map (fun index : nat =>
               if Z.of_nat index =? i then Replay.CurrentMark
               else if Z.of_nat index <? i then Replay.PastMark
               else Replay.FutureMark)
            (seq start len)))
  = if (Z.of_nat start <=? i) && (i <? Z.of_nat (start + len)) then 1%nat else 0%nat.
Proof.
  induction len as [| len IH]; intros start i.
  - cbn [seq map filter List.length]. bool_cases.
  - cbn [seq map]. destruct (Z.eqb_spec (Z.of_nat start) i) as [E | E].
    + cbn [filter Replay.isCurrentMark List.length]. rewrite IH. bool_cases.
    + destruct (Z.ltb_spec (Z.of_nat start) i);
        cbn [filter Replay.isCurrentMark]; rewrite IH; bool_cases.
Qed.

(** X21.  On a non-empty replay, after any sequence of page events, the
    timeline has one button per state of which exactly one is highlighted
    as current, and the header counter reads a position between 1 and the
    number of states. *)
Theorem X21_timeline_has_one_current_button :
  forall (states : list GameState) (es : list Replay.Event),
    states <> [] ->
    List.length (Replay.timeline states (Replay.run states es)) = List.length states
    /\ List.length (filter Replay.isCurrentMark
                      (Replay.timeline states (Replay.run states es))) = 1%nat
    /\ 1 <= fst (Replay.counter states (Replay.run states es))
         <= snd (Replay.counter states (Replay.run states es)).
Proof.
  intros states es Hne.
  destruct (run_inv states Hne es) as [Hb _]. unfold Replay.inBounds in Hb.
  unfold JS.length in Hb. split; [| split].
  - unfold Replay.timeline. now rewrite length_map, length_seq.
  - unfold Replay.timeline. rewrite count_current_mark.
    replace (Z.of_nat 0 <=? Replay.currentIndex (Replay.run states es)) with true
      by (symmetry; apply Z.leb_le; lia).
    replace (Replay.currentIndex (Replay.run states es)
             <? Z.of_nat (0 + List.length states)) with true
      by (symmetry; apply Z.ltb_lt; lia).
    reflexivity.
  - unfold Replay.counter, JS.length. simpl. lia.
Qed.

Lemma X21_witness :
  List.length
    (filter Replay.isCurrentMark
       (Replay.timeline [good_at_quest; seven_players_round_two]
          (Replay.run [good_at_quest; seven_players_round_two]
             [Replay.NextClick; Replay.NextClick; Replay.SeekClick 5]))) = 1%nat.
Proof.
  apply (X21_timeline_has_one_current_button
           [good_at_quest; seven_players_round_two]
           [Replay.NextClick; Replay.NextClick; Replay.SeekClick 5]).
  discriminate.
Defined.

(** ** From the controls to the wire *)

Lemma or_str_trimmed : forall (trim : string -> string) (input : string),
  JS.or_str (if HumanControls.nonblank trim input then Some (trim input) else None)
            EmptyString
  = trim input.
Proof.
  intros trim input. unfold HumanControls.nonblank. simpl.
  destruct (trim input); reflexivity.
Qed.

(** X22.  The speech sent with a team is the trimmed text of the input
    box, whatever it is: an input that trims to nothing is passed on as
    [undefined] by the controls and turned back into the empty string by
    the socket hook.  With a socket and a game id, an enabled confirm
    click emits exactly one [human_team_select] with the selection and
    that speech; without a socket nothing is emitted. *)
Theorem X22_team_speech_on_the_wire_is_trimmed_input :
  forall (trim : string -> string) (gameState : GameState) (input gid : string)
         (selectedPlayers : list Z),
    JS.truthy (Some gid) = true ->
    HumanControls.disabled
      (HumanControls.teamSubmitButton trim gameState selectedPlayers input) = false ->
    flat_map (UseSocket.emit true)
      (flat_map (Game.handle (Some gid) selectedPlayers)
         (HumanControls.calls
            (HumanControls.teamSubmitButton trim gameState selectedPlayers input)))
    = [UseSocket.human_team_select gid selectedPlayers (trim input)]
    /\ flat_map (UseSocket.emit false)
         (flat_map (Game.handle (Some gid) selectedPlayers)
            (HumanControls.calls
               (HumanControls.teamSubmitButton trim gameState selectedPlayers input)))
       = [].
Proof.
  intros trim gameState input gid selectedPlayers Hgid Hen. simpl in Hen.
  apply negb_false_iff, Z.eqb_eq in Hen.
  pose proof (requiredSize_at_least_two gameState) as Hreq.
  assert (Hpos : (0 <? JS.length selectedPlayers) = true) by (apply Z.ltb_lt; lia).
  cbn [HumanControls.teamSubmitButton HumanControls.calls flat_map].
  unfold Game.handle. rewrite Hgid, Hpos.
  cbn [app flat_map UseSocket.emit]. rewrite or_str_trimmed. split; reflexivity.
Qed.

Lemma X22_witness :
  flat_map (UseSocket.emit true)
    (flat_map (Game.handle (Some "g"%string) [0; 1; 2])
       (HumanControls.calls
          (HumanControls.teamSubmitButton (fun _ => EmptyString)
             five_players_round_two [0; 1; 2] "   ")))
  = [UseSocket.human_team_select "g" [0; 1; 2] EmptyString].
Proof.
  apply (X22_team_speech_on_the_wire_is_trimmed_input (fun _ => EmptyString)
           five_players_round_two "   " "g" [0; 1; 2]); reflexivity.
Defined.

(** X23.  The modal opened on a discussion message fetches exactly when
    the game id is non-empty and the message carries a non-empty
    timestamp; a message without timestamp opens a modal that never
    requests anything.  When it fetches, it asks for the message's own
    round, or for the displayed round if the message has none. *)
Theorem X23_message_modal_needs_a_timestamp :
  forall (gameId : string) (isAssassination : bool) (displayRound : Z)
         (msg : DiscussionMessage),
    LLMDetailModal.effectFetches
      (Discussion.messageModal gameId isAssassination displayRound msg)
    = JS.truthy (Some gameId) && JS.truthy (d_timestamp msg)
    /\ LLMDetailModal.roundNum
         (Discussion.messageModal gameId isAssassination displayRound msg)
       = match d_round msg with
         | Some r => r
         | None => displayRound
         end
    /\ (JS.truthy (d_timestamp msg) = false ->
        LLMDetailModal.fetchDetails
          (Discussion.messageModal gameId isAssassination displayRound msg)
        = LLMDetailModal.MissingTimestamp).
Proof.
  intros gameId isAssassination displayRound msg.
  unfold LLMDetailModal.effectFetches, LLMDetailModal.fetchDetails,
    Discussion.messageModal.
  cbn [LLMDetailModal.isOpen LLMDetailModal.gameId LLMDetailModal.actionType
       LLMDetailModal.timestamp LLMDetailModal.voteAttempt LLMDetailModal.roundNum
       LLMDetailModal.playerSeat andb].
  assert (Hts : JS.truthy (Some (match d_timestamp msg with
                                 | Some t => t
                                 | None => EmptyString
                                 end))
                = JS.truthy (d_timestamp msg)).
  { destruct (d_timestamp msg); reflexivity. }
  rewrite Hts. split; [| split].
  - destruct (JS.truthy (Some gameId)), isAssassination,
             (JS.truthy (d_timestamp msg)); reflexivity.
  - reflexivity.
  - intros Hno. rewrite Hno. destruct isAssassination; reflexivity.
Qed.

(** X24.  Sending a discussion message: when the trimmed input is empty
    the send control does nothing; otherwise one click sends the trimmed
    text once and empties the input, so (given that trimming the empty
    string gives the empty string) a second click right after sends
    nothing more.  The same holds for the assassination discussion. *)
Theorem X24_discussion_is_sent_once :
  forall (trim : string -> string) (gameState : GameState) (humanSeat : option Z)
         (selectedPlayers : list Z) (input : string),
    trim EmptyString = EmptyString ->
    (human_action_type gameState = Some act_discussion
     \/ human_action_type gameState = Some act_leader_discussion ->
     HumanControls.session trim gameState humanSeat selectedPlayers input
       [HumanControls.Click 0; HumanControls.Click 0]
     = if HumanControls.nonblank trim input
       then [HumanControls.onDiscussion (trim input)] else [])
    /\ (human_action_type gameState = Some act_assassination_discussion ->
        HumanControls.session trim gameState humanSeat selectedPlayers input
          [HumanControls.Click 0; HumanControls.Click 0]
        = if HumanControls.nonblank trim input
          then [HumanControls.onAssassinationDiscussion (trim input)] else []).
Proof.
  intros trim gameState humanSeat selectedPlayers input Htrim.
  assert (Hblank : HumanControls.nonblank trim EmptyString = false).
  { unfold HumanControls.nonblank. now rewrite Htrim. }
  split.
  - intros Hact.
    assert (Hc : forall text,
               HumanControls.controls trim gameState humanSeat selectedPlayers text
               = [HumanControls.sendDiscussionButton trim text]).
    { intros text. unfold HumanControls.controls.
      destruct Hact as [-> | ->]; reflexivity. }
    cbn [HumanControls.session HumanControls.interact]. rewrite Hc.
    cbn [nth_error]. unfold HumanControls.sendDiscussionButton at 1 2 3.
    destruct (HumanControls.nonblank trim input) eqn:Hn;
      cbn [HumanControls.disabled HumanControls.clearsInput HumanControls.calls];
      rewrite Hc; cbn [nth_error]; unfold HumanControls.sendDiscussionButton;
      rewrite ?Hblank, ?Hn; reflexivity.
  - intros Hact.
    assert (Hc : forall text,
               HumanControls.controls trim gameState humanSeat selectedPlayers text
               = [HumanControls.sendAssassinationDiscussionButton trim text]).
    { intros text. unfold HumanControls.controls. now rewrite Hact. }
    cbn [HumanControls.session HumanControls.interact]. rewrite Hc.
    cbn [nth_error]. unfold HumanControls.sendAssassinationDiscussionButton at 1 2 3.
    destruct (HumanControls.nonblank trim input) eqn:Hn;
      cbn [HumanControls.disabled HumanControls.clearsInput HumanControls.calls];
      rewrite Hc; cbn [nth_error];
      unfold HumanControls.sendAssassinationDiscussionButton;
      rewrite ?Hblank, ?Hn; reflexivity.
Qed.

Lemma X24_witness :
  HumanControls.session (fun s => s) 
    (mkGameState "g" in_progress discussion 1 0 1 [] 5 [] [] [] [] None None
       None true (Some act_discussion))
    (Some 1) [] "hello"
    [HumanControls.Click 0; HumanControls.Click 0]
  = [HumanControls.onDiscussion "hello"].
Proof.
  apply (X24_discussion_is_sent_once (fun s => s)
           (mkGameState "g" in_progress discussion 1 0 1 [] 5 [] [] [] [] None
              None None true (Some act_discussion))
           (Some 1) [] "hello" eq_refl).
  left. reflexivity.
Defined.
